(** * CHAI [managed_ptr]: a shallow embedding of src/chai/managed_ptr.hpp

    The header defines three specialisations of one owning pointer
    ([ExecutionStrategy::Host], [::Managed], [::Device]), their factories,
    their casts and the comparison operators.  Each C++ function is embedded
    as a Rocq function over an explicit program state: the host free store,
    the device free store and a trace of the observable actions (deletions,
    callback invocations, kernel launches, synchronisations).  Functions that
    can run into undefined behaviour of the kinds listed in [ub] return in
    an error monad; whether an address handed to [delete] is one that
    [delete] accepts is not decided by the monad but stated where it
    matters.

    The file has four parts: the embedding, with the clients and the
    ownership accounting used to reason about whole runs, and with the thin
    [ManagedArray] of src/chai/ManagedArray_thin.inl over a block memory of
    its own; the properties of the embedded functions; the main results,
    numbered C1, C2, ... as the properties of the specification they
    settle; and further properties of the embedded code, numbered X1,
    X2, ... *)

From Stdlib Require Import ZArith Lia String.
From stdpp Require Import gmap list.

Open Scope Z_scope.

(** ** Machine data *)

(** A pointer is its address; [nullptr] is address 0. *)
Definition nullptr : Z := 0.

(** [std::size_t] is a 64-bit unsigned integer; [++] and [--] wrap. *)
Definition SIZE_MAX : Z := 2 ^ 64 - 1.
Definition size_wrap (z : Z) : Z := z mod 2 ^ 64.

(** A [void ( * )(void * )] member.  [m_copier] and [m_deleter] are declared
    without an initialiser, so until [registerArguments] assigns them they
    hold an indeterminate value (a null one in an object of static storage
    duration, which is zero-initialised first). *)
Inductive fnptr :=
| FnIndeterminate             (* declared, never assigned *)
| FnNull                      (* a null function pointer *)
| FnCopier                    (* the copy lambda of registerArguments *)
| FnDeleter.                  (* the delete lambda of registerArguments *)

(** The header is compiled twice: [__CUDA_ARCH__] is undefined in the host
    pass and defined in the device pass. *)
Inductive context := HostCode | DeviceCode.

(** The [__global__] functions of namespace [detail], each launched with
    [<<<1, 1>>>]. *)
Inductive kernel :=
| K_make_on_device
| K_make_on_device_from_factory
| K_destroy_on_device
| K_get_on_device
| K_static_pointer_cast_on_device
| K_const_pointer_cast_on_device
| K_reinterpret_pointer_cast_on_device.

(** Observable actions, in the order in which they happen. *)
Inductive event :=
| EvDeleteCounter (c : Z)     (* delete m_numReferences *)
| EvDeleteHost (a : Z)        (* delete m_cpu, for a non-null m_cpu *)
| EvDeleteDevice (a : Z)      (* delete devicePtr in a kernel, for a non-null devicePtr *)
| EvCopier (payload : Z)      (* the copy lambda ran on this tuple *)
| EvDeleter (payload : Z)     (* the delete lambda ran on this tuple *)
| EvLaunch (k : kernel)       (* k<<<1, 1>>>(...) *)
| EvSynchronize.              (* cudaDeviceSynchronize() *)

Global Instance kernel_eq_dec : EqDecision kernel.
Proof. solve_decision. Defined.
Global Instance event_eq_dec : EqDecision event.
Proof. solve_decision. Defined.

(** The program state.  The host free store is kept as three typed pools
    that share one address space: the reference counters
    ([new std::size_t{1}]), the objects ([new T(args...)], recorded with
    their constructor arguments) and the argument tuples
    ([new std::tuple<Args...>(args...)]). *)
Record state := State {
  counters : gmap Z Z;
  objects : gmap Z (list Z);
  tuples : gmap Z (list Z);
  device : gmap Z (list Z);   (* objects in device memory *)
  trace : list event
}.

Definition initial : state := State ∅ ∅ ∅ ∅ [].

Definition set_counters (f : gmap Z Z → gmap Z Z) (s : state) : state :=
  State (f (counters s)) (objects s) (tuples s) (device s) (trace s).
Definition set_objects (f : gmap Z (list Z) → gmap Z (list Z)) (s : state) : state :=
  State (counters s) (f (objects s)) (tuples s) (device s) (trace s).
Definition set_tuples (f : gmap Z (list Z) → gmap Z (list Z)) (s : state) : state :=
  State (counters s) (objects s) (f (tuples s)) (device s) (trace s).
Definition set_device (f : gmap Z (list Z) → gmap Z (list Z)) (s : state) : state :=
  State (counters s) (objects s) (tuples s) (f (device s)) (trace s).
Definition log (e : event) (s : state) : state :=
  State (counters s) (objects s) (tuples s) (device s) (trace s ++ [e]).

(** ** Undefined behaviour and the monad of the embedding *)

Inductive ub :=
| InvalidCounter (c : Z)      (* read, write or delete of a counter that is not allocated *)
| InvalidPayload (a : Z)      (* a callback run on something that is not a live tuple *)
| IndeterminateValue          (* use of a member that was never initialised *)
| NullCall                    (* call through a null function pointer *)
| NoReturn.                   (* control flows off the end of a non-void function *)

Inductive result (A : Type) :=
| Ok (a : A) (s : state)
| Undefined (u : ub).
Arguments Ok {A} a s.
Arguments Undefined {A} u.

Definition M (A : Type) : Type := state → result A.

Definition ret {A} (a : A) : M A := λ s, Ok a s.
Definition bind {A B} (m : M A) (k : A → M B) : M B :=
  λ s, match m s with
       | Ok a s' => k a s'
       | Undefined u => Undefined u
       end.
Definition undefined {A} (u : ub) : M A := λ _, Undefined u.
Definition emit (e : event) : M unit := λ s, Ok tt (log e s).

Notation "'let*' x ':=' m 'in' k" := (bind m (λ x, k))
  (at level 10, x name, m at level 100, k at level 200).
Notation "m ';;' k" := (bind m (λ _, k))
  (at level 100, k at level 200, right associativity).

(** ** The free stores *)

(** The host addresses in use. *)
Definition host_used (s : state) : gset Z :=
  dom (counters s) ∪ dom (objects s) ∪ dom (tuples s).

(** [new] returns an address that is neither null nor currently allocated. *)
Definition new_addr (used : gset Z) : Z := fresh ({[nullptr]} ∪ used).

(** [new std::size_t{n}]. *)
Definition new_counter (n : Z) : M Z := λ s,
  let a := new_addr (host_used s) in Ok a (set_counters (insert a n) s).

(** [new T(args...)] on the host. *)
Definition new_object (args : list Z) : M Z := λ s,
  let a := new_addr (host_used s) in Ok a (set_objects (insert a args) s).

(** [new std::tuple<Args...>(args...)]. *)
Definition new_tuple (args : list Z) : M Z := λ s,
  let a := new_addr (host_used s) in Ok a (set_tuples (insert a args) s).

(** [new T(args...)] executed by a device thread. *)
Definition new_device (args : list Z) : M Z := λ s,
  let a := new_addr (dom (device s)) in Ok a (set_device (insert a args) s).

(** [*m_numReferences] as an rvalue. *)
Definition load_counter (c : Z) : M Z := λ s,
  match counters s !! c with
  | Some n => Ok n s
  | None => Undefined (InvalidCounter c)
  end.

(** [*m_numReferences = n]. *)
Definition store_counter (c n : Z) : M unit := λ s,
  match counters s !! c with
  | Some _ => Ok tt (set_counters (insert c n) s)
  | None => Undefined (InvalidCounter c)
  end.

(** [delete m_numReferences]. *)
Definition delete_counter (c : Z) : M unit := λ s,
  match counters s !! c with
  | Some _ => Ok tt (log (EvDeleteCounter c) (set_counters (delete c) s))
  | None => Undefined (InvalidCounter c)
  end.

(** [delete m_cpu]: nothing for a null pointer, otherwise the object's
    destructor and deallocation, recorded as one action.  The embedding
    does not decide whether the address is one that [delete] accepts, the
    address of an object that [new] returned and that has not been deleted
    since: a cast or a factory of the user may have produced it.  The call
    is recorded with the address it was given, and the object recorded at
    exactly that address, if there is one, is removed.  A statement that
    needs a deletion to be valid says so through [deletes_allocated]. *)
Definition delete_host (a : Z) : M unit :=
  if decide (a = nullptr) then ret tt
  else λ s, Ok tt (log (EvDeleteHost a) (set_objects (delete a) s)).

(** [delete devicePtr] executed by a device thread; as [delete_host], the
    call is recorded and its validity is not decided here. *)
Definition delete_device (a : Z) : M unit := λ s,
  Ok tt (log (EvDeleteDevice a) (set_device (delete a) s)).

(** [k<<<1, 1>>>(...)]: the launch is recorded, then the kernel body runs. *)
Definition launch {A} (k : kernel) (body : M A) : M A :=
  emit (EvLaunch k) ;; body.

(** [cudaDeviceSynchronize()]: the host waits for the launched kernel. *)
Definition cudaDeviceSynchronize : M unit := emit EvSynchronize.

(** Reading a function-pointer member in a condition, as in
    [if (m_deleter)]. *)
Definition is_set (f : fnptr) : M bool :=
  match f with
  | FnIndeterminate => undefined IndeterminateValue
  | FnNull => ret false
  | FnCopier | FnDeleter => ret true
  end.

(** [f(arg)] for a function-pointer member [f].  The copy lambda
    copy-constructs a temporary tuple from [*arg] and drops it; the delete
    lambda deletes the tuple at [arg]. *)
Definition call (f : fnptr) (arg : Z) : M unit :=
  match f with
  | FnIndeterminate => undefined IndeterminateValue
  | FnNull => undefined NullCall
  | FnCopier => λ s,
      match tuples s !! arg with
      | Some _ => Ok tt (log (EvCopier arg) s)
      | None => Undefined (InvalidPayload arg)
      end
  | FnDeleter =>
      if decide (arg = nullptr) then ret tt
      else λ s,
        match tuples s !! arg with
        | Some _ => Ok tt (log (EvDeleter arg) (set_tuples (delete arg) s))
        | None => Undefined (InvalidPayload arg)
        end
  end.

(** Pointer conversions ([static_cast], [const_cast], [reinterpret_cast],
    [dynamic_cast] and the implicit [U*] to [T*] conversion) may adjust a
    non-null address and always send the null pointer to the null pointer.
    A failed [dynamic_cast] sends a non-null address to null. *)
Record pointer_cast := PointerCast {
  cast_fn :> Z → Z;
  cast_null : cast_fn nullptr = nullptr
}.

Definition same_address : pointer_cast := PointerCast (λ a, a) eq_refl.
Definition cast_fails : pointer_cast := PointerCast (λ _, nullptr) eq_refl.
Definition cast_offset (k : Z) : pointer_cast :=
  PointerCast (λ a, if decide (a = nullptr) then nullptr else a + k) eq_refl.

(** ** Compile-time checks *)

Inductive compilation :=
| Accepted
| Rejected (message : string).

Definition static_assert (condition : bool) (message : string) : compilation :=
  if condition then Accepted else Rejected message.

(** The type traits the header queries, for an arbitrary universe of
    element types. *)
Record type_traits (ctype : Type) := TypeTraits {
  is_base_of : ctype → ctype → bool;
  is_convertible : ctype → ctype → bool;
  is_constructible : ctype → list ctype → bool
}.
Arguments is_base_of {ctype} _ _ _.
Arguments is_convertible {ctype} _ _ _.
Arguments is_constructible {ctype} _ _ _.

(** The [static_assert]s shared by the three specialisations. *)
Section Checks.
Context {ctype : Type} (traits : type_traits ctype).

Definition base_or_convertible (T U : ctype) : bool :=
  is_base_of traits T U || is_convertible traits U T.

(** Constructors and assignments from a [U*] or a [managed_ptr<U>]. *)
Definition conversion_check (T U : ctype) : compilation :=
  static_assert (base_or_convertible T U)
    "Type U must a descendent of or be convertible to type T.".

(** [make_managed<T>(args...)]. *)
Definition make_managed_check (T : ctype) (Args : list ctype) : compilation :=
  static_assert (is_constructible traits T Args)
    "Type T must be constructible with the given arguments.".

(** [dynamic_pointer_cast<T>(const managed_ptr<U, Managed>&)] and its
    [Device] twin: the only check in either body is
    [static_assert(true, "CUDA does not support dynamic_cast")]. *)
Definition dynamic_pointer_cast_check (T U : ctype) : compilation :=
  static_assert true "CUDA does not support dynamic_cast".
End Checks.

(** ** [managed_ptr<T, ExecutionStrategy::Host>] *)

Module Host.

Record managed_ptr := Build {
  m_cpu : Z;                (* T* m_cpu = nullptr *)
  m_numReferences : Z       (* size_t* m_numReferences = nullptr *)
}.

(** [managed_ptr()] and [managed_ptr(std::nullptr_t)]. *)
Definition managed_ptr_default : managed_ptr := Build nullptr nullptr.
Definition managed_ptr_nullptr : managed_ptr := Build nullptr nullptr.

(** [explicit managed_ptr(U* hostPtr)]. *)
Definition managed_ptr_raw (conv : pointer_cast) (hostPtr : Z) : M managed_ptr :=
  let* c := new_counter 1 in
  ret (Build (conv hostPtr) c).

Definition incrementReferenceCount (this : managed_ptr) : M unit :=
  if decide (m_numReferences this ≠ nullptr) then
    let* n := load_counter (m_numReferences this) in
    store_counter (m_numReferences this) (size_wrap (n + 1))
  else ret tt.

Definition decrementReferenceCount (this : managed_ptr) : M unit :=
  if decide (m_numReferences this ≠ nullptr) then
    let* n := load_counter (m_numReferences this) in
    store_counter (m_numReferences this) (size_wrap (n - 1)) ;;
    let* n' := load_counter (m_numReferences this) in
    if decide (n' = 0) then
      delete_counter (m_numReferences this) ;;
      delete_host (m_cpu this)
    else ret tt
  else ret tt.

(** [managed_ptr(const managed_ptr& other)]. *)
Definition managed_ptr_copy (other : managed_ptr) : M managed_ptr :=
  let this := Build (m_cpu other) (m_numReferences other) in
  incrementReferenceCount this ;;
  ret this.

(** [managed_ptr(const managed_ptr<U>& other)]. *)
Definition managed_ptr_converting (conv : pointer_cast) (other : managed_ptr)
  : M managed_ptr :=
  let this := Build (conv (m_cpu other)) (m_numReferences other) in
  incrementReferenceCount this ;;
  ret this.

(** [managed_ptr(const managed_ptr<U>& other, T* hostPtr)]. *)
Definition managed_ptr_aliasing (other : managed_ptr) (hostPtr : Z)
  : M managed_ptr :=
  let this := Build hostPtr (m_numReferences other) in
  incrementReferenceCount this ;;
  ret this.

(** [~managed_ptr()]. *)
Definition managed_ptr_dtor (this : managed_ptr) : M unit :=
  decrementReferenceCount this.

(** [operator=(const managed_ptr& other)]; [self] is [this == &other].
    The result is the new value of [*this]. *)
Definition operator_assign (self : bool) (this other : managed_ptr)
  : M managed_ptr :=
  if negb self then
    decrementReferenceCount this ;;
    let this' := Build (m_cpu other) (m_numReferences other) in
    incrementReferenceCount this' ;;
    ret this'
  else ret this.

(** [operator=(const managed_ptr<U>& other)]. *)
Definition operator_assign_converting (conv : pointer_cast)
  (this other : managed_ptr) : M managed_ptr :=
  decrementReferenceCount this ;;
  let this' := Build (conv (m_cpu other)) (m_numReferences other) in
  incrementReferenceCount this' ;;
  ret this'.

Definition get (this : managed_ptr) : Z := m_cpu this.
Definition operator_arrow (this : managed_ptr) : Z := m_cpu this.
(** [operator*] yields the lvalue at [m_cpu]. *)
Definition operator_star (this : managed_ptr) : Z := m_cpu this.

Definition use_count (this : managed_ptr) : M Z :=
  if decide (m_numReferences this ≠ nullptr) then
    load_counter (m_numReferences this)
  else ret 0.

Definition operator_bool (this : managed_ptr) : bool :=
  bool_decide (m_cpu this ≠ nullptr).

(** [operator T*()]. *)
Definition operator_Tptr (this : managed_ptr) : Z := get this.

(** [registerArguments(Args&&...) {}]. *)
Definition registerArguments (this : managed_ptr) (args : list Z) : M managed_ptr :=
  ret this.

(** [make_managed(ExecutionStrategy::Host&&, Args&&... args)]. *)
Definition make_managed (args : list Z) : M managed_ptr :=
  let* hostPtr := new_object args in
  managed_ptr_raw same_address hostPtr.

(** [make_managed_from_factory(ExecutionStrategy::Host&&, F&& f, Args&&...)];
    [f] is the user's factory. *)
Definition make_managed_from_factory (conv : pointer_cast)
  (f : list Z → M Z) (args : list Z) : M managed_ptr :=
  let* hostPtr := f args in
  managed_ptr_raw conv hostPtr.

Definition static_pointer_cast (static_cast : pointer_cast)
  (other : managed_ptr) : M managed_ptr :=
  let hostPtr := static_cast (get other) in
  managed_ptr_aliasing other hostPtr.

Definition dynamic_pointer_cast (dynamic_cast : pointer_cast)
  (other : managed_ptr) : M managed_ptr :=
  let hostPtr := dynamic_cast (get other) in
  if decide (hostPtr ≠ nullptr) then managed_ptr_aliasing other hostPtr
  else ret managed_ptr_default.

Definition const_pointer_cast (const_cast : pointer_cast)
  (other : managed_ptr) : M managed_ptr :=
  let hostPtr := const_cast (get other) in
  managed_ptr_aliasing other hostPtr.

Definition reinterpret_pointer_cast (reinterpret_cast : pointer_cast)
  (other : managed_ptr) : M managed_ptr :=
  let hostPtr := reinterpret_cast (get other) in
  managed_ptr_aliasing other hostPtr.

(** A pointer whose counter, if it has one, is allocated. *)
Definition counter_ok (this : managed_ptr) (s : state) : Prop :=
  m_numReferences this = nullptr ∨ is_Some (counters s !! m_numReferences this).

(** [operator==] and [operator!=] on a [managed_ptr<T>] and a
    [managed_ptr<U>]: [lhs.get() == rhs.get()] compares a [T*] with a [U*],
    so both operands are first converted to the composite pointer type of
    the two; [conv_lhs] and [conv_rhs] are these conversions (both
    [same_address] when [T] and [U] are the same type). *)
Definition operator_eq (conv_lhs conv_rhs : pointer_cast)
  (lhs rhs : managed_ptr) : bool :=
  bool_decide (conv_lhs (get lhs) = conv_rhs (get rhs)).
Definition operator_ne (conv_lhs conv_rhs : pointer_cast)
  (lhs rhs : managed_ptr) : bool :=
  bool_decide (conv_lhs (get lhs) ≠ conv_rhs (get rhs)).
(** The comparisons against [nullptr]. *)
Definition operator_eq_nullptr (lhs : managed_ptr) : bool :=
  bool_decide (get lhs = nullptr).
Definition nullptr_operator_eq (rhs : managed_ptr) : bool :=
  bool_decide (nullptr = get rhs).
Definition operator_ne_nullptr (lhs : managed_ptr) : bool :=
  bool_decide (get lhs ≠ nullptr).
Definition nullptr_operator_ne (rhs : managed_ptr) : bool :=
  bool_decide (nullptr ≠ get rhs).

(** The class invariant the specification asks for: a non-null stored
    pointer comes with a counter. *)
Definition invariant (this : managed_ptr) : Prop :=
  get this ≠ nullptr → m_numReferences this ≠ nullptr.

(** The pointers a client can obtain from the constructors, the factories,
    the casts and the assignment operators.  With [direct_aliasing = true]
    the client may also call the aliasing constructor itself; with [false]
    the aliasing constructor is reached through the casts only. *)
Inductive produced (direct_aliasing : bool) : managed_ptr → Prop :=
| produced_default : produced direct_aliasing managed_ptr_default
| produced_nullptr : produced direct_aliasing managed_ptr_nullptr
| produced_raw conv hostPtr s p s' :
    managed_ptr_raw conv hostPtr s = Ok p s' → produced direct_aliasing p
| produced_copy other s p s' :
    produced direct_aliasing other →
    managed_ptr_copy other s = Ok p s' → produced direct_aliasing p
| produced_converting conv other s p s' :
    produced direct_aliasing other →
    managed_ptr_converting conv other s = Ok p s' → produced direct_aliasing p
| produced_aliasing other hostPtr s p s' :
    direct_aliasing = true →
    produced direct_aliasing other →
    managed_ptr_aliasing other hostPtr s = Ok p s' → produced direct_aliasing p
| produced_assign self this other s p s' :
    produced direct_aliasing this → produced direct_aliasing other →
    operator_assign self this other s = Ok p s' → produced direct_aliasing p
| produced_assign_converting conv this other s p s' :
    produced direct_aliasing this → produced direct_aliasing other →
    operator_assign_converting conv this other s = Ok p s' →
    produced direct_aliasing p
| produced_make_managed args s p s' :
    make_managed args s = Ok p s' → produced direct_aliasing p
| produced_make_managed_from_factory conv f args s p s' :
    make_managed_from_factory conv f args s = Ok p s' →
    produced direct_aliasing p
| produced_static_pointer_cast cast other s p s' :
    produced direct_aliasing other →
    static_pointer_cast cast other s = Ok p s' → produced direct_aliasing p
| produced_dynamic_pointer_cast cast other s p s' :
    produced direct_aliasing other →
    dynamic_pointer_cast cast other s = Ok p s' → produced direct_aliasing p
| produced_const_pointer_cast cast other s p s' :
    produced direct_aliasing other →
    const_pointer_cast cast other s = Ok p s' → produced direct_aliasing p
| produced_reinterpret_pointer_cast cast other s p s' :
    produced direct_aliasing other →
    reinterpret_pointer_cast cast other s = Ok p s' → produced direct_aliasing p.

End Host.

(** ** Device-side helpers of namespace [detail] *)

(** [detail::make_on_device<T>(args...)]: launch, wait, return the address
    the kernel stored in [devicePtr]. *)
Definition make_on_device (args : list Z) : M Z :=
  let* devicePtr := launch K_make_on_device (new_device args) in
  cudaDeviceSynchronize ;;
  ret devicePtr.

(** [detail::make_on_device_from_factory<T>(f, args...)]; [f] is the
    user's factory, run by the device thread. *)
Definition make_on_device_from_factory (f : list Z → M Z) (args : list Z) : M Z :=
  let* devicePtr := launch K_make_on_device_from_factory (f args) in
  cudaDeviceSynchronize ;;
  ret devicePtr.

(** The kernel [detail::destroy_on_device(T*& devicePtr)]. *)
Definition destroy_on_device (devicePtr : Z) : M unit :=
  launch K_destroy_on_device
    (if decide (devicePtr ≠ nullptr) then delete_device devicePtr else ret tt).

(** ** [managed_ptr<T, ExecutionStrategy::Managed>] *)

Module Managed.

Record managed_ptr := Build {
  m_cpu : Z;                  (* T* m_cpu = nullptr *)
  m_gpu : Z;                  (* T* m_gpu = nullptr *)
  m_numReferences : Z;        (* size_t* m_numReferences = nullptr *)
  m_copyArguments : Z;        (* void* m_copyArguments = nullptr *)
  m_copier : fnptr;           (* void ( *m_copier)(void* ) *)
  m_deleter : fnptr           (* void ( *m_deleter)(void* ) *)
}.

(** [managed_ptr()] and [managed_ptr(std::nullptr_t)]: the bodies are
    empty, the callback members get no value. *)
Definition managed_ptr_default : managed_ptr :=
  Build nullptr nullptr nullptr nullptr FnIndeterminate FnIndeterminate.
Definition managed_ptr_nullptr : managed_ptr :=
  Build nullptr nullptr nullptr nullptr FnIndeterminate FnIndeterminate.

(** [managed_ptr(U* hostPtr, V* devicePtr)]: [m_copyArguments] keeps its
    default [nullptr], the callback members get no value. *)
Definition managed_ptr_raw (conv_host conv_device : pointer_cast)
  (hostPtr devicePtr : Z) : M managed_ptr :=
  let* c := new_counter 1 in
  ret (Build (conv_host hostPtr) (conv_device devicePtr) c nullptr
         FnIndeterminate FnIndeterminate).

Definition incrementReferenceCount (this : managed_ptr) : M unit :=
  if decide (m_numReferences this ≠ nullptr) then
    let* n := load_counter (m_numReferences this) in
    store_counter (m_numReferences this) (size_wrap (n + 1)) ;;
    call (m_copier this) (m_copyArguments this)
  else ret tt.

Definition decrementReferenceCount (this : managed_ptr) : M unit :=
  if decide (m_numReferences this ≠ nullptr) then
    let* n := load_counter (m_numReferences this) in
    store_counter (m_numReferences this) (size_wrap (n - 1)) ;;
    let* n' := load_counter (m_numReferences this) in
    if decide (n' = 0) then
      delete_counter (m_numReferences this) ;;
      let* registered := is_set (m_deleter this) in
      (if registered then call (m_deleter this) (m_copyArguments this)
       else ret tt) ;;
      delete_host (m_cpu this) ;;
      destroy_on_device (m_gpu this) ;;
      cudaDeviceSynchronize
    else ret tt
  else ret tt.

(** The parts guarded by [#ifndef __CUDA_ARCH__]. *)
Definition host_only (ctx : context) (m : M unit) : M unit :=
  match ctx with
  | HostCode => m
  | DeviceCode => ret tt
  end.

(** [managed_ptr(const managed_ptr& other)]. *)
Definition managed_ptr_copy (ctx : context) (other : managed_ptr) : M managed_ptr :=
  let this := Build (m_cpu other) (m_gpu other) (m_numReferences other)
                (m_copyArguments other) (m_copier other) (m_deleter other) in
  host_only ctx (incrementReferenceCount this) ;;
  ret this.

(** [managed_ptr(const managed_ptr<U>& other)]. *)
Definition managed_ptr_converting (ctx : context) (conv : pointer_cast)
  (other : managed_ptr) : M managed_ptr :=
  let this := Build (conv (m_cpu other)) (conv (m_gpu other))
                (m_numReferences other) (m_copyArguments other)
                (m_copier other) (m_deleter other) in
  host_only ctx (incrementReferenceCount this) ;;
  ret this.

(** [managed_ptr(const managed_ptr<U>& other, T* hostPtr, T* devicePtr)]. *)
Definition managed_ptr_aliasing (ctx : context) (other : managed_ptr)
  (hostPtr devicePtr : Z) : M managed_ptr :=
  let this := Build hostPtr devicePtr (m_numReferences other)
                (m_copyArguments other) (m_copier other) (m_deleter other) in
  host_only ctx (incrementReferenceCount this) ;;
  ret this.

(** [~managed_ptr()]. *)
Definition managed_ptr_dtor (ctx : context) (this : managed_ptr) : M unit :=
  host_only ctx (decrementReferenceCount this).

(** [operator=(const managed_ptr& other)]; [self] is [this == &other].
    The result is the new value of [*this]. *)
Definition operator_assign (ctx : context) (self : bool)
  (this other : managed_ptr) : M managed_ptr :=
  if negb self then
    host_only ctx (decrementReferenceCount this) ;;
    let this' := Build (m_cpu other) (m_gpu other) (m_numReferences other)
                   (m_copyArguments other) (m_copier other) (m_deleter other) in
    host_only ctx (incrementReferenceCount this') ;;
    ret this'
  else ret this.

(** [operator=(const managed_ptr<U>& other)]. *)
Definition operator_assign_converting (ctx : context) (conv : pointer_cast)
  (this other : managed_ptr) : M managed_ptr :=
  host_only ctx (decrementReferenceCount this) ;;
  let this' := Build (conv (m_cpu other)) (conv (m_gpu other))
                 (m_numReferences other) (m_copyArguments other)
                 (m_copier other) (m_deleter other) in
  host_only ctx (incrementReferenceCount this') ;;
  ret this'.

Definition get (ctx : context) (this : managed_ptr) : Z :=
  match ctx with
  | HostCode => m_cpu this
  | DeviceCode => m_gpu this
  end.

Definition operator_arrow (ctx : context) (this : managed_ptr) : Z :=
  match ctx with
  | HostCode => m_cpu this
  | DeviceCode => m_gpu this
  end.

(** [operator*] yields the lvalue at the selected address. *)
Definition operator_star (ctx : context) (this : managed_ptr) : Z :=
  match ctx with
  | HostCode => m_cpu this
  | DeviceCode => m_gpu this
  end.

Definition use_count (this : managed_ptr) : M Z :=
  if decide (m_numReferences this ≠ nullptr) then
    load_counter (m_numReferences this)
  else ret 0.

Definition operator_bool (ctx : context) (this : managed_ptr) : bool :=
  match ctx with
  | HostCode => bool_decide (m_cpu this ≠ nullptr)
  | DeviceCode => bool_decide (m_gpu this ≠ nullptr)
  end.

(** [operator T*()]. *)
Definition operator_Tptr (ctx : context) (this : managed_ptr) : M Z :=
  host_only ctx (call (m_copier this) (m_copyArguments this)) ;;
  ret (get ctx this).

(** [registerArguments(Args&&... args)]; the result is the new value of
    [*this]. *)
Definition registerArguments (this : managed_ptr) (args : list Z) : M managed_ptr :=
  let* t := new_tuple args in
  ret (Build (m_cpu this) (m_gpu this) (m_numReferences this) t FnCopier FnDeleter).

(** [make_managed(ExecutionStrategy::Managed&&, Args&&... args)]; the
    local [result] is returned in place (the copy on return is elided). *)
Definition make_managed (args : list Z) : M managed_ptr :=
  let* hostPtr := new_object args in
  let* devicePtr := make_on_device args in
  let* result := managed_ptr_raw same_address same_address hostPtr devicePtr in
  registerArguments result args.

(** [make_managed_from_factory(ExecutionStrategy::Managed&&, F&& f, Args&&...)];
    [f] is the user's factory as it runs on the host, [f_device] as it runs
    on the device. *)
Definition make_managed_from_factory (conv : pointer_cast)
  (f f_device : list Z → M Z) (args : list Z) : M managed_ptr :=
  let* hostPtr := f args in
  let* devicePtr := make_on_device_from_factory f_device args in
  let* result := managed_ptr_raw conv conv hostPtr devicePtr in
  registerArguments result args.

(** [detail::static_pointer_cast_on_device<T>(other)] and its siblings: the
    kernel evaluates [other.get()] in device code and converts it. *)
Definition pointer_cast_on_device (k : kernel) (cast : pointer_cast)
  (other : managed_ptr) : M Z :=
  let* devicePtr := launch k (ret (cast (get DeviceCode other))) in
  cudaDeviceSynchronize ;;
  ret devicePtr.

(** [detail::get_on_device(other)]. *)
Definition get_on_device (other : managed_ptr) : M Z :=
  let* devicePtr := launch K_get_on_device (ret (get DeviceCode other)) in
  cudaDeviceSynchronize ;;
  ret devicePtr.

Definition static_pointer_cast (static_cast : pointer_cast)
  (other : managed_ptr) : M managed_ptr :=
  let hostPtr := static_cast (get HostCode other) in
  let* devicePtr :=
    pointer_cast_on_device K_static_pointer_cast_on_device static_cast other in
  managed_ptr_aliasing HostCode other hostPtr devicePtr.

(** The body of [dynamic_pointer_cast] is the [static_assert] alone: a
    call flows off the end of a function that returns a [managed_ptr]. *)
Definition dynamic_pointer_cast (other : managed_ptr) : M managed_ptr :=
  undefined NoReturn.

Definition const_pointer_cast (const_cast : pointer_cast)
  (other : managed_ptr) : M managed_ptr :=
  let hostPtr := const_cast (get HostCode other) in
  let* devicePtr :=
    pointer_cast_on_device K_const_pointer_cast_on_device const_cast other in
  managed_ptr_aliasing HostCode other hostPtr devicePtr.

Definition reinterpret_pointer_cast (reinterpret_cast : pointer_cast)
  (other : managed_ptr) : M managed_ptr :=
  let hostPtr := reinterpret_cast (get HostCode other) in
  let* devicePtr :=
    pointer_cast_on_device K_reinterpret_pointer_cast_on_device reinterpret_cast other in
  managed_ptr_aliasing HostCode other hostPtr devicePtr.

(** [operator==] and [operator!=] on a [managed_ptr<T>] and a
    [managed_ptr<U>], as for [Host]: the two addresses are compared after
    the conversions [conv_lhs] and [conv_rhs] to the composite pointer
    type. *)
Definition operator_eq (ctx : context) (conv_lhs conv_rhs : pointer_cast)
  (lhs rhs : managed_ptr) : bool :=
  bool_decide (conv_lhs (get ctx lhs) = conv_rhs (get ctx rhs)).
Definition operator_ne (ctx : context) (conv_lhs conv_rhs : pointer_cast)
  (lhs rhs : managed_ptr) : bool :=
  bool_decide (conv_lhs (get ctx lhs) ≠ conv_rhs (get ctx rhs)).
(** The comparisons against [nullptr]. *)
Definition operator_eq_nullptr (ctx : context) (lhs : managed_ptr) : bool :=
  bool_decide (get ctx lhs = nullptr).
Definition nullptr_operator_eq (ctx : context) (rhs : managed_ptr) : bool :=
  bool_decide (nullptr = get ctx rhs).
Definition operator_ne_nullptr (ctx : context) (lhs : managed_ptr) : bool :=
  bool_decide (get ctx lhs ≠ nullptr).
Definition nullptr_operator_ne (ctx : context) (rhs : managed_ptr) : bool :=
  bool_decide (nullptr ≠ get ctx rhs).

(** A pointer whose counter, if it has one, is allocated. *)
Definition counter_ok (this : managed_ptr) (s : state) : Prop :=
  m_numReferences this = nullptr ∨ is_Some (counters s !! m_numReferences this).

(** A pointer on which [registerArguments] took effect: both callbacks are
    installed and the tuple is allocated. *)
Definition registered (this : managed_ptr) (s : state) : Prop :=
  m_copier this = FnCopier ∧ m_deleter this = FnDeleter ∧
  m_copyArguments this ≠ nullptr ∧ is_Some (tuples s !! m_copyArguments this).

(** The class invariant the specification asks for, in either context. *)
Definition invariant (this : managed_ptr) : Prop :=
  ∀ ctx, get ctx this ≠ nullptr → m_numReferences this ≠ nullptr.

(** The pointers a client can obtain; see [Host.produced]. *)
Inductive produced (direct_aliasing : bool) : managed_ptr → Prop :=
| produced_default : produced direct_aliasing managed_ptr_default
| produced_nullptr : produced direct_aliasing managed_ptr_nullptr
| produced_raw conv_host conv_device hostPtr devicePtr s p s' :
    managed_ptr_raw conv_host conv_device hostPtr devicePtr s = Ok p s' →
    produced direct_aliasing p
| produced_copy ctx other s p s' :
    produced direct_aliasing other →
    managed_ptr_copy ctx other s = Ok p s' → produced direct_aliasing p
| produced_converting ctx conv other s p s' :
    produced direct_aliasing other →
    managed_ptr_converting ctx conv other s = Ok p s' →
    produced direct_aliasing p
| produced_aliasing ctx other hostPtr devicePtr s p s' :
    direct_aliasing = true →
    produced direct_aliasing other →
    managed_ptr_aliasing ctx other hostPtr devicePtr s = Ok p s' →
    produced direct_aliasing p
| produced_assign ctx self this other s p s' :
    produced direct_aliasing this → produced direct_aliasing other →
    operator_assign ctx self this other s = Ok p s' → produced direct_aliasing p
| produced_assign_converting ctx conv this other s p s' :
    produced direct_aliasing this → produced direct_aliasing other →
    operator_assign_converting ctx conv this other s = Ok p s' →
    produced direct_aliasing p
| produced_registerArguments this args s p s' :
    produced direct_aliasing this →
    registerArguments this args s = Ok p s' → produced direct_aliasing p
| produced_make_managed args s p s' :
    make_managed args s = Ok p s' → produced direct_aliasing p
| produced_make_managed_from_factory conv f f_device args s p s' :
    make_managed_from_factory conv f f_device args s = Ok p s' →
    produced direct_aliasing p
| produced_static_pointer_cast cast other s p s' :
    produced direct_aliasing other →
    static_pointer_cast cast other s = Ok p s' → produced direct_aliasing p
| produced_dynamic_pointer_cast other s p s' :
    produced direct_aliasing other →
    dynamic_pointer_cast other s = Ok p s' → produced direct_aliasing p
| produced_const_pointer_cast cast other s p s' :
    produced direct_aliasing other →
    const_pointer_cast cast other s = Ok p s' → produced direct_aliasing p
| produced_reinterpret_pointer_cast cast other s p s' :
    produced direct_aliasing other →
    reinterpret_pointer_cast cast other s = Ok p s' → produced direct_aliasing p.

(** What a release at count zero is expected to do for a registered
    pointer, in order: the counter goes, the release callback runs on the
    tuple, the host object is deleted, one kernel is launched that deletes
    the device object, and the host waits for it. *)
Definition release_events (this : managed_ptr) : list event :=
  [EvDeleteCounter (m_numReferences this); EvDeleter (m_copyArguments this)] ++
  (if decide (m_cpu this = nullptr) then [] else [EvDeleteHost (m_cpu this)]) ++
  [EvLaunch K_destroy_on_device] ++
  (if decide (m_gpu this = nullptr) then [] else [EvDeleteDevice (m_gpu this)]) ++
  [EvSynchronize].

End Managed.

(** ** [managed_ptr<T, ExecutionStrategy::Device>] *)

Module Device.

Record managed_ptr := Build {
  m_gpu : Z;                  (* T* m_gpu = nullptr *)
  m_numReferences : Z         (* size_t* m_numReferences = nullptr *)
}.

Definition managed_ptr_default : managed_ptr := Build nullptr nullptr.
Definition managed_ptr_nullptr : managed_ptr := Build nullptr nullptr.

(** [explicit managed_ptr(U* devicePtr)]. *)
Definition managed_ptr_raw (conv : pointer_cast) (devicePtr : Z) : M managed_ptr :=
  let* c := new_counter 1 in
  ret (Build (conv devicePtr) c).

Definition incrementReferenceCount (this : managed_ptr) : M unit :=
  if decide (m_numReferences this ≠ nullptr) then
    let* n := load_counter (m_numReferences this) in
    store_counter (m_numReferences this) (size_wrap (n + 1))
  else ret tt.

Definition decrementReferenceCount (this : managed_ptr) : M unit :=
  if decide (m_numReferences this ≠ nullptr) then
    let* n := load_counter (m_numReferences this) in
    store_counter (m_numReferences this) (size_wrap (n - 1)) ;;
    let* n' := load_counter (m_numReferences this) in
    if decide (n' = 0) then
      delete_counter (m_numReferences this) ;;
      destroy_on_device (m_gpu this) ;;
      cudaDeviceSynchronize
    else ret tt
  else ret tt.

Definition host_only (ctx : context) (m : M unit) : M unit :=
  match ctx with
  | HostCode => m
  | DeviceCode => ret tt
  end.

(** [managed_ptr(const managed_ptr& other)]. *)
Definition managed_ptr_copy (ctx : context) (other : managed_ptr) : M managed_ptr :=
  let this := Build (m_gpu other) (m_numReferences other) in
  host_only ctx (incrementReferenceCount this) ;;
  ret this.

(** [managed_ptr(const managed_ptr<U>& other)]. *)
Definition managed_ptr_converting (ctx : context) (conv : pointer_cast)
  (other : managed_ptr) : M managed_ptr :=
  let this := Build (conv (m_gpu other)) (m_numReferences other) in
  host_only ctx (incrementReferenceCount this) ;;
  ret this.

(** [managed_ptr(const managed_ptr<U>& other, T* devicePtr)]. *)
Definition managed_ptr_aliasing (ctx : context) (other : managed_ptr)
  (devicePtr : Z) : M managed_ptr :=
  let this := Build devicePtr (m_numReferences other) in
  host_only ctx (incrementReferenceCount this) ;;
  ret this.

(** [~managed_ptr()]. *)
Definition managed_ptr_dtor (ctx : context) (this : managed_ptr) : M unit :=
  host_only ctx (decrementReferenceCount this).

(** [operator=(const managed_ptr& other)]; [self] is [this == &other]. *)
Definition operator_assign (ctx : context) (self : bool)
  (this other : managed_ptr) : M managed_ptr :=
  if negb self then
    host_only ctx (decrementReferenceCount this) ;;
    let this' := Build (m_gpu other) (m_numReferences other) in
    host_only ctx (incrementReferenceCount this') ;;
    ret this'
  else ret this.

(** [operator=(const managed_ptr<U>& other)]. *)
Definition operator_assign_converting (ctx : context) (conv : pointer_cast)
  (this other : managed_ptr) : M managed_ptr :=
  host_only ctx (decrementReferenceCount this) ;;
  let this' := Build (conv (m_gpu other)) (m_numReferences other) in
  host_only ctx (incrementReferenceCount this') ;;
  ret this'.

(** [get], [operator->], [operator*], [operator bool] and [operator T*]
    are [CHAI_DEVICE]: they exist in device code only. *)
Definition get (this : managed_ptr) : Z := m_gpu this.
Definition operator_arrow (this : managed_ptr) : Z := m_gpu this.
Definition operator_star (this : managed_ptr) : Z := m_gpu this.
Definition operator_bool (this : managed_ptr) : bool :=
  bool_decide (m_gpu this ≠ nullptr).
Definition operator_Tptr (this : managed_ptr) : Z := get this.

Definition use_count (this : managed_ptr) : M Z :=
  if decide (m_numReferences this ≠ nullptr) then
    load_counter (m_numReferences this)
  else ret 0.

(** [registerArguments(Args&&...) {}]. *)
Definition registerArguments (this : managed_ptr) (args : list Z) : M managed_ptr :=
  ret this.

(** [make_managed(ExecutionStrategy::Device&&, Args&&...)] and
    [make_managed_from_factory(ExecutionStrategy::Device&&, F&&, Args&&...)]
    are not embedded.  Both are declared to return [managed_ptr<T>], which
    where [ExecutionStrategy::Device] exists is the Managed specialisation,
    and both end in [return managed_ptr<T>(devicePtr)]; that specialisation
    has no constructor from one pointer, so neither template can be
    instantiated.  A Device pointer is built with the constructor
    [managed_ptr_raw] from the result of [detail::make_on_device]. *)

Definition pointer_cast_on_device (k : kernel) (cast : pointer_cast)
  (other : managed_ptr) : M Z :=
  let* devicePtr := launch k (ret (cast (get other))) in
  cudaDeviceSynchronize ;;
  ret devicePtr.

Definition static_pointer_cast (static_cast : pointer_cast)
  (other : managed_ptr) : M managed_ptr :=
  let* devicePtr :=
    pointer_cast_on_device K_static_pointer_cast_on_device static_cast other in
  managed_ptr_aliasing HostCode other devicePtr.

(** As for [Managed]: the body is the [static_assert] alone. *)
Definition dynamic_pointer_cast (other : managed_ptr) : M managed_ptr :=
  undefined NoReturn.

Definition const_pointer_cast (const_cast : pointer_cast)
  (other : managed_ptr) : M managed_ptr :=
  let* devicePtr :=
    pointer_cast_on_device K_const_pointer_cast_on_device const_cast other in
  managed_ptr_aliasing HostCode other devicePtr.

Definition reinterpret_pointer_cast (reinterpret_cast : pointer_cast)
  (other : managed_ptr) : M managed_ptr :=
  let* devicePtr :=
    pointer_cast_on_device K_reinterpret_pointer_cast_on_device reinterpret_cast other in
  managed_ptr_aliasing HostCode other devicePtr.

(** The class invariant the specification asks for. *)
Definition invariant (this : managed_ptr) : Prop :=
  get this ≠ nullptr → m_numReferences this ≠ nullptr.

(** The pointers a client can obtain; see [Host.produced]. *)
Inductive produced (direct_aliasing : bool) : managed_ptr → Prop :=
| produced_default : produced direct_aliasing managed_ptr_default
| produced_nullptr : produced direct_aliasing managed_ptr_nullptr
| produced_raw conv devicePtr s p s' :
    managed_ptr_raw conv devicePtr s = Ok p s' → produced direct_aliasing p
| produced_copy ctx other s p s' :
    produced direct_aliasing other →
    managed_ptr_copy ctx other s = Ok p s' → produced direct_aliasing p
| produced_converting ctx conv other s p s' :
    produced direct_aliasing other →
    managed_ptr_converting ctx conv other s = Ok p s' →
    produced direct_aliasing p
| produced_aliasing ctx other devicePtr s p s' :
    direct_aliasing = true →
    produced direct_aliasing other →
    managed_ptr_aliasing ctx other devicePtr s = Ok p s' →
    produced direct_aliasing p
| produced_assign ctx self this other s p s' :
    produced direct_aliasing this → produced direct_aliasing other →
    operator_assign ctx self this other s = Ok p s' → produced direct_aliasing p
| produced_assign_converting ctx conv this other s p s' :
    produced direct_aliasing this → produced direct_aliasing other →
    operator_assign_converting ctx conv this other s = Ok p s' →
    produced direct_aliasing p
| produced_static_pointer_cast cast other s p s' :
    produced direct_aliasing other →
    static_pointer_cast cast other s = Ok p s' → produced direct_aliasing p
| produced_dynamic_pointer_cast other s p s' :
    produced direct_aliasing other →
    dynamic_pointer_cast other s = Ok p s' → produced direct_aliasing p
| produced_const_pointer_cast cast other s p s' :
    produced direct_aliasing other →
    const_pointer_cast cast other s = Ok p s' → produced direct_aliasing p
| produced_reinterpret_pointer_cast cast other s p s' :
    produced direct_aliasing other →
    reinterpret_pointer_cast cast other s = Ok p s' → produced direct_aliasing p.

End Device.

(** ** Clients: repeated copies *)

(** [n] copy constructions from [other], oldest first. *)
Fixpoint host_copies (n : nat) (other : Host.managed_ptr) : M (list Host.managed_ptr) :=
  match n with
  | O => ret []
  | S k =>
      let* q := Host.managed_ptr_copy other in
      let* qs := host_copies k other in
      ret (q :: qs)
  end.

(** The destructors of a sequence of pointers, first to last. *)
Fixpoint host_destroy (qs : list Host.managed_ptr) : M unit :=
  match qs with
  | [] => ret tt
  | q :: qs' => Host.managed_ptr_dtor q ;; host_destroy qs'
  end.

(** The same for the Managed strategy, in host code. *)
Fixpoint managed_copies (n : nat) (other : Managed.managed_ptr)
  : M (list Managed.managed_ptr) :=
  match n with
  | O => ret []
  | S k =>
      let* q := Managed.managed_ptr_copy HostCode other in
      let* qs := managed_copies k other in
      ret (q :: qs)
  end.

Fixpoint managed_destroy (qs : list Managed.managed_ptr) : M unit :=
  match qs with
  | [] => ret tt
  | q :: qs' => Managed.managed_ptr_dtor HostCode q ;; managed_destroy qs'
  end.

(** ** Ownership accounting *)

(** The live pointers of a client next to the counters of the free store.
    The accounting is the same for the three strategies, so it is stated
    once, over any pointer type with a counter field. *)
Section Owners.
Context {H : Type} (ctr : H → Z).

(** How many of the live pointers hold the counter [c]. *)
Fixpoint owners (c : Z) (l : list H) : Z :=
  match l with
  | [] => 0
  | h :: t => (if decide (ctr h = c) then 1 else 0) + owners c t
  end.

(** Every allocated counter holds the number of its owners, which is at
    least one, and every counter a live pointer holds is allocated. *)
Definition counted (l : list H) (cs : gmap Z Z) : Prop :=
  cs !! nullptr = None ∧
  (∀ c n, cs !! c = Some n → n = owners c l ∧ 1 ≤ n) ∧
  (∀ h, h ∈ l → ctr h ≠ nullptr → is_Some (cs !! ctr h)).
End Owners.

(** What an increment and a decrement through the counter [c] are expected
    to do to the counters when nothing wraps. *)
Definition inc_map (c : Z) (cs : gmap Z Z) : gmap Z Z :=
  if decide (c = nullptr) then cs
  else match cs !! c with
       | Some n => <[c := n + 1]> cs
       | None => cs
       end.

Definition dec_map (c : Z) (cs : gmap Z Z) : gmap Z Z :=
  if decide (c = nullptr) then cs
  else match cs !! c with
       | Some n => if decide (n = 1) then delete c cs else <[c := n - 1]> cs
       | None => cs
       end.

(** ** Clients of the Host strategy *)

(** One statement of a client: the live pointers are numbered by their
    position in a list; a new pointer goes to the front. *)
Inductive host_op :=
| HMake (args : list Z)                           (* auto p = make_managed<T>(args...) *)
| HDefault                                        (* managed_ptr<T> p; *)
| HRaw (conv : pointer_cast) (hostPtr : Z)        (* managed_ptr<T> p(hostPtr); *)
| HCopy (i : nat)                                 (* managed_ptr<T> p(l[i]); *)
| HConvert (conv : pointer_cast) (i : nat)        (* managed_ptr<T> p(l[i]), l[i] a managed_ptr<U> *)
| HAlias (i : nat) (hostPtr : Z)                  (* managed_ptr<T> p(l[i], hostPtr); *)
| HStaticCast (cast : pointer_cast) (i : nat)     (* auto p = static_pointer_cast<T>(l[i]); *)
| HDynamicCast (cast : pointer_cast) (i : nat)    (* auto p = dynamic_pointer_cast<T>(l[i]); *)
| HConstCast (cast : pointer_cast) (i : nat)      (* auto p = const_pointer_cast<T>(l[i]); *)
| HReinterpretCast (cast : pointer_cast) (i : nat) (* auto p = reinterpret_pointer_cast<T>(l[i]); *)
| HAssign (i j : nat)                             (* l[i] = l[j]; *)
| HAssignConvert (conv : pointer_cast) (i j : nat) (* l[i] = l[j], l[j] a managed_ptr<U> *)
| HDestroy (i : nat).                             (* l[i] goes out of scope *)

(** A statement that names a pointer that does not exist is skipped; so is
    a converting assignment of an object to itself, which cannot be
    written (the two operands have different types). *)
Definition host_step (op : host_op) (l : list Host.managed_ptr)
  : M (list Host.managed_ptr) :=
  let construct (m : Host.managed_ptr → M Host.managed_ptr) (i : nat) :=
    match l !! i with
    | Some h => let* p := m h in ret (p :: l)
    | None => ret l
    end in
  match op with
  | HMake args => let* p := Host.make_managed args in ret (p :: l)
  | HDefault => ret (Host.managed_ptr_default :: l)
  | HRaw conv hostPtr => let* p := Host.managed_ptr_raw conv hostPtr in ret (p :: l)
  | HCopy i => construct Host.managed_ptr_copy i
  | HConvert conv i => construct (Host.managed_ptr_converting conv) i
  | HAlias i hostPtr => construct (λ h, Host.managed_ptr_aliasing h hostPtr) i
  | HStaticCast cast i => construct (Host.static_pointer_cast cast) i
  | HDynamicCast cast i => construct (Host.dynamic_pointer_cast cast) i
  | HConstCast cast i => construct (Host.const_pointer_cast cast) i
  | HReinterpretCast cast i => construct (Host.reinterpret_pointer_cast cast) i
  | HAssign i j =>
      match l !! i, l !! j with
      | Some this, Some other =>
          let* p := Host.operator_assign (bool_decide (i = j)) this other in
          ret (<[i := p]> l)
      | _, _ => ret l
      end
  | HAssignConvert conv i j =>
      match l !! i, l !! j with
      | Some this, Some other =>
          if decide (i = j) then ret l
          else let* p := Host.operator_assign_converting conv this other in
               ret (<[i := p]> l)
      | _, _ => ret l
      end
  | HDestroy i =>
      match l !! i with
      | Some h => Host.managed_ptr_dtor h ;; ret (delete i l)
      | None => ret l
      end
  end.

Fixpoint host_run (prog : list host_op) (l : list Host.managed_ptr)
  : M (list Host.managed_ptr) :=
  match prog with
  | [] => ret l
  | op :: rest => let* l' := host_step op l in host_run rest l'
  end.

(** ** Clients of the Managed strategy, in host code *)

(** As [host_op].  The pointers of these clients come from [make_managed],
    which registers its arguments; the two-pointer constructor, which does
    not, is left out. *)
Inductive managed_op :=
| MMake (args : list Z)
| MDefault
| MCopy (i : nat)
| MConvert (conv : pointer_cast) (i : nat)
| MAlias (i : nat) (hostPtr devicePtr : Z)
| MStaticCast (cast : pointer_cast) (i : nat)
| MConstCast (cast : pointer_cast) (i : nat)
| MReinterpretCast (cast : pointer_cast) (i : nat)
| MAssign (i j : nat)
| MAssignConvert (conv : pointer_cast) (i j : nat)
| MDestroy (i : nat).

Definition managed_step (op : managed_op) (l : list Managed.managed_ptr)
  : M (list Managed.managed_ptr) :=
  let construct (m : Managed.managed_ptr → M Managed.managed_ptr) (i : nat) :=
    match l !! i with
    | Some h => let* p := m h in ret (p :: l)
    | None => ret l
    end in
  match op with
  | MMake args => let* p := Managed.make_managed args in ret (p :: l)
  | MDefault => ret (Managed.managed_ptr_default :: l)
  | MCopy i => construct (Managed.managed_ptr_copy HostCode) i
  | MConvert conv i => construct (Managed.managed_ptr_converting HostCode conv) i
  | MAlias i hostPtr devicePtr =>
      construct (λ h, Managed.managed_ptr_aliasing HostCode h hostPtr devicePtr) i
  | MStaticCast cast i => construct (Managed.static_pointer_cast cast) i
  | MConstCast cast i => construct (Managed.const_pointer_cast cast) i
  | MReinterpretCast cast i => construct (Managed.reinterpret_pointer_cast cast) i
  | MAssign i j =>
      match l !! i, l !! j with
      | Some this, Some other =>
          let* p := Managed.operator_assign HostCode (bool_decide (i = j))
                      this other in
          ret (<[i := p]> l)
      | _, _ => ret l
      end
  | MAssignConvert conv i j =>
      match l !! i, l !! j with
      | Some this, Some other =>
          if decide (i = j) then ret l
          else let* p := Managed.operator_assign_converting HostCode conv
                           this other in
               ret (<[i := p]> l)
      | _, _ => ret l
      end
  | MDestroy i =>
      match l !! i with
      | Some h => Managed.managed_ptr_dtor HostCode h ;; ret (delete i l)
      | None => ret l
      end
  end.

Fixpoint managed_run (prog : list managed_op) (l : list Managed.managed_ptr)
  : M (list Managed.managed_ptr) :=
  match prog with
  | [] => ret l
  | op :: rest => let* l' := managed_step op l in managed_run rest l'
  end.

(** The accounting of the counters, and with it: every live pointer that
    has a counter is registered, and a tuple belongs to one lineage. *)
Definition managed_inv (l : list Managed.managed_ptr) (s : state) : Prop :=
  counted Managed.m_numReferences l (counters s) ∧
  (∀ h, h ∈ l → Managed.m_numReferences h ≠ nullptr → Managed.registered h s) ∧
  (∀ h1 h2, h1 ∈ l → h2 ∈ l →
     Managed.m_numReferences h1 ≠ nullptr →
     Managed.m_numReferences h2 ≠ nullptr →
     Managed.m_copyArguments h1 = Managed.m_copyArguments h2 →
     Managed.m_numReferences h1 = Managed.m_numReferences h2).

(** The statements of a client that hands no address of its own to the
    library and has no pointer that owns nothing: its pointers come from
    [make_managed] and are copied, assigned to each other and destroyed. *)
Definition plain (op : managed_op) : bool :=
  match op with
  | MMake _ | MCopy _ | MAssign _ _ | MDestroy _ => true
  | MDefault | MConvert _ _ | MAlias _ _ _ | MStaticCast _ _ | MConstCast _ _
  | MReinterpretCast _ _ | MAssignConvert _ _ _ => false
  end.

(** What the live pointers of such a client own.  Every live pointer has a
    counter, a host object and a device object, and the two objects are
    allocated; live pointers that have one of the four addresses in common
    are copies of each other; and no host object, device object or tuple
    is allocated that no live pointer holds. *)
Definition managed_pools (l : list Managed.managed_ptr) (s : state) : Prop :=
  (∀ h, h ∈ l →
     Managed.m_numReferences h ≠ nullptr ∧
     Managed.m_cpu h ≠ nullptr ∧ is_Some (objects s !! Managed.m_cpu h) ∧
     Managed.m_gpu h ≠ nullptr ∧ is_Some (device s !! Managed.m_gpu h)) ∧
  (∀ h1 h2, h1 ∈ l → h2 ∈ l →
     Managed.m_numReferences h1 = Managed.m_numReferences h2 ∨
     Managed.m_cpu h1 = Managed.m_cpu h2 ∨
     Managed.m_gpu h1 = Managed.m_gpu h2 ∨
     Managed.m_copyArguments h1 = Managed.m_copyArguments h2 →
     h1 = h2) ∧
  (∀ a, is_Some (objects s !! a) → ∃ h, h ∈ l ∧ Managed.m_cpu h = a) ∧
  (∀ a, is_Some (device s !! a) → ∃ h, h ∈ l ∧ Managed.m_gpu h = a) ∧
  (∀ a, is_Some (tuples s !! a) → ∃ h, h ∈ l ∧ Managed.m_copyArguments h = a).

(** Each deletion among the events [evs] is the deletion of something
    that is allocated in [s], and none happens twice. *)
Definition deletes_allocated (s : state) (evs : list event) : Prop :=
  NoDup evs ∧
  ∀ a,
    (EvDeleteCounter a ∈ evs → is_Some (counters s !! a)) ∧
    (EvDeleter a ∈ evs → is_Some (tuples s !! a)) ∧
    (EvDeleteHost a ∈ evs → is_Some (objects s !! a)) ∧
    (EvDeleteDevice a ∈ evs → is_Some (device s !! a)).

(** ** A concrete run, used to exercise the statements below *)

(** The pointer and the state that [Host::make_managed<T>(7)] returns in
    the initial state: object at 1, counter at 2. *)
Definition host_example : Host.managed_ptr := Host.Build 1 2.
Definition host_example_state : state :=
  set_counters (insert 2 1) (set_objects (insert 1 [7]) initial).

(** The same for [Managed::make_managed<T>(7)]: host object at 1, device
    object at device address 1, counter at 2, argument tuple at 3. *)
Definition managed_example : Managed.managed_ptr :=
  Managed.Build 1 1 2 3 FnCopier FnDeleter.
Definition managed_example_state : state :=
  State {[2 := 1]} {[1 := [7]]} {[3 := [7]]} {[1 := [7]]}
    [EvLaunch K_make_on_device; EvSynchronize].

(** ** Clients of the Device strategy: repeated copies in host code *)

Fixpoint device_copies (n : nat) (other : Device.managed_ptr)
  : M (list Device.managed_ptr) :=
  match n with
  | O => ret []
  | S k =>
      let* q := Device.managed_ptr_copy HostCode other in
      let* qs := device_copies k other in
      ret (q :: qs)
  end.

Fixpoint device_destroy (qs : list Device.managed_ptr) : M unit :=
  match qs with
  | [] => ret tt
  | q :: qs' => Device.managed_ptr_dtor HostCode q ;; device_destroy qs'
  end.

(** ** [ManagedArray<T>], the thin implementation
    (src/chai/ManagedArray_thin.inl) *)

Module ManagedArrayThin.

(** A [T*] is a block of the free store and a position in it, counted in
    elements of [T].  The null pointer is position 0 of block 0, which is
    never allocated.  Pointer arithmetic moves the position and is not
    checked; accesses are.  The position is an exact integer: it is not
    reduced modulo the address space, so the embedding says what a
    pointer refers to only while the arithmetic stays inside the block it
    started in, which is where C++ defines it. *)
Record pointer := At { block : Z; index : Z }.

Global Instance pointer_eq_dec : EqDecision pointer.
Proof. solve_decision. Defined.

Definition null : pointer := At 0 0.

(** [p + k]. *)
Definition pointer_add (p : pointer) (k : Z) : pointer :=
  At (block p) (index p + k).

(** An element of a block: a value of [T], or nothing yet in storage that
    was allocated and never written. *)
Abbreviation cell := (option Z) (only parsing).

(** What an allocator answers to a request made with [malloc], [realloc]
    or [cudaMallocManaged]: it refuses; or it grants the request with a
    block that is new; or, for [realloc] only, it grants the request by
    resizing the block where it is. *)
Inductive answer := Refused | Moved | InPlace.

(** The memory: the live blocks, and what the allocators are going to
    answer to the next requests, first request first.  A request beyond
    the end of the list is granted with a new block. *)
Record memory := Memory {
  blocks : gmap Z (list cell);
  synchronisations : nat;     (* completed calls of cudaDeviceSynchronize() *)
  allocator : list answer
}.

Definition set_blocks (f : gmap Z (list cell) → gmap Z (list cell))
  (m : memory) : memory :=
  Memory (f (blocks m)) (synchronisations m) (allocator m).

(** The answer to the next request, whether it grants the request, and
    the memory once it is given. *)
Definition next_answer (m : memory) : answer :=
  match allocator m with
  | [] => Moved
  | a :: _ => a
  end.

Definition granted (m : memory) : bool :=
  match next_answer m with
  | Refused => false
  | Moved | InPlace => true
  end.

Definition answered (m : memory) : memory :=
  Memory (blocks m) (synchronisations m) (tail (allocator m)).

(** The ways in which a run leaves what the embedding describes. *)
Inductive fault :=
| InvalidFree (p : pointer)        (* not null and not the start of a live block *)
| OutOfBounds (p : pointer)        (* an access outside every live block *)
| IndeterminateRead (p : pointer)  (* a read of an element never written *)
| AllocationError.                 (* cudaMallocManaged returned an error *)

Inductive outcome (A : Type) :=
| Done (a : A) (m : memory)
| Fault (f : fault).
Arguments Done {A} a m.
Arguments Fault {A} f.

Definition Mem (A : Type) : Type := memory → outcome A.

Definition ret {A} (a : A) : Mem A := λ m, Done a m.
Definition bind {A B} (x : Mem A) (k : A → Mem B) : Mem B :=
  λ m, match x m with
       | Done a m' => k a m'
       | Fault f => Fault f
       end.

Notation "'let+' x ':=' m 'in' k" := (bind m (λ x, k))
  (at level 10, x name, m at level 100, k at level 200).
Notation "m ';+' k" := (bind m (λ _, k))
  (at level 100, k at level 200, right associativity).

Section Thin.

(** [sizeof(T)] and whether [CHAI_ENABLE_UM] is defined. *)
Variable sizeof_T : Z.
Variable um : bool.

(** How many elements of [T] fit into [bytes] bytes. *)
Definition capacity (bytes : Z) : nat := Z.to_nat (bytes / sizeof_T).

Definition fresh_block (m : memory) : Z := fresh ({[0]} ∪ dom (blocks m)).

(** [malloc(bytes)]: a granted request returns a new block with nothing
    written in it, a refused one returns the null pointer. *)
Definition malloc (bytes : Z) : Mem pointer := λ m,
  if granted m then
    let b := fresh_block m in
    Done (At b 0)
      (set_blocks (insert b (replicate (capacity bytes) None)) (answered m))
  else Done null (answered m).

(** [cudaMallocManaged(&p, bytes)]: a granted request stores in [p] a new
    block in unified memory, nothing written in it.  A request for zero
    bytes and a refused request make the call return an error code, which
    the source does not read; the CUDA documentation does not say what [p]
    holds then, and the embedding does not follow such a run. *)
Definition cudaMallocManaged (bytes : Z) : Mem pointer := λ m,
  if decide (bytes = 0) then Fault AllocationError
  else if granted m then
    let b := fresh_block m in
    Done (At b 0)
      (set_blocks (insert b (replicate (capacity bytes) None)) (answered m))
  else Fault AllocationError.

(** [::free(p)]: nothing for a null [p]; otherwise [p] has to be the start
    of a live block. *)
Definition free_block (p : pointer) : Mem unit := λ m,
  if decide (p = null) then Done tt m
  else match blocks m !! block p with
       | Some _ =>
           if decide (index p = 0) then Done tt (set_blocks (delete (block p)) m)
           else Fault (InvalidFree p)
       | None => Fault (InvalidFree p)
       end.

(** [cudaFree(p)]. *)
Definition cudaFree (p : pointer) : Mem unit := free_block p.

(** [realloc(p, bytes)]: [malloc(bytes)] for a null [p]; otherwise [p] has
    to be the start of a live block.  With [bytes] zero the block is freed
    and the null pointer is returned (what the C library of the GNU system
    does).  A refused request returns the null pointer and leaves the
    block as it is.  A granted request returns a block that begins with
    the old elements, as many as fit, followed by storage not yet
    written: the old block resized, or a new block, and then the old one
    is gone. *)
Definition realloc (p : pointer) (bytes : Z) : Mem pointer := λ m,
  if decide (p = null) then malloc bytes m
  else match blocks m !! block p with
       | Some cells =>
           if decide (index p = 0) then
             if decide (bytes = 0) then
               Done null (set_blocks (delete (block p)) m)
             else
               let n := capacity bytes in
               let resized := take n cells ++ replicate (n - length cells) None in
               match next_answer m with
               | Refused => Done null (answered m)
               | InPlace =>
                   Done p (set_blocks (insert (block p) resized) (answered m))
               | Moved =>
                   let b := fresh_block m in
                   Done (At b 0)
                     (set_blocks (insert b resized)
                        (set_blocks (delete (block p)) (answered m)))
               end
           else Fault (InvalidFree p)
       | None => Fault (InvalidFree p)
       end.

(** The elements [index p, index p + n) of the block of [p], if they all
    lie in it. *)
Definition range (p : pointer) (n : nat) (m : memory) : option (list cell) :=
  match blocks m !! block p with
  | Some cells =>
      if decide (0 ≤ index p ∧ index p + Z.of_nat n ≤ Z.of_nat (length cells))
      then Some (take n (drop (Z.to_nat (index p)) cells))
      else None
  | None => None
  end.

(** [cudaMemcpy(dst, src, bytes, cudaMemcpyDefault)]: nothing for an empty
    copy; otherwise both ranges have to lie in live blocks. *)
Definition cudaMemcpy (dst src : pointer) (bytes : Z) : Mem unit := λ m,
  let n := capacity bytes in
  if decide (n = O) then Done tt m
  else match range src n m with
       | None => Fault (OutOfBounds src)
       | Some from =>
           match range dst n m, blocks m !! block dst with
           | Some _, Some to =>
               let i := Z.to_nat (index dst) in
               Done tt (set_blocks
                          (insert (block dst)
                             (take i to ++ from ++ drop (i + n) to)) m)
           | _, _ => Fault (OutOfBounds dst)
           end
       end.

(** [cudaDeviceSynchronize()]. *)
Definition cudaDeviceSynchronize : Mem unit := λ m,
  Done tt (Memory (blocks m) (S (synchronisations m)) (allocator m)).

(** Reading and writing the lvalue [*p]. *)
Definition load (p : pointer) : Mem Z := λ m,
  match blocks m !! block p with
  | Some cells =>
      if decide (0 ≤ index p) then
        match cells !! Z.to_nat (index p) with
        | Some (Some v) => Done v m
        | Some None => Fault (IndeterminateRead p)
        | None => Fault (OutOfBounds p)
        end
      else Fault (OutOfBounds p)
  | None => Fault (OutOfBounds p)
  end.

Definition store (p : pointer) (v : Z) : Mem unit := λ m,
  match blocks m !! block p with
  | Some cells =>
      if decide (0 ≤ index p ∧ index p < Z.of_nat (length cells)) then
        Done tt (set_blocks
                   (insert (block p) (<[Z.to_nat (index p) := Some v]> cells)) m)
      else Fault (OutOfBounds p)
  | None => Fault (OutOfBounds p)
  end.

Record ManagedArray := Build {
  m_active_pointer : pointer;   (* T* m_active_pointer *)
  m_resource_manager : Z;       (* ArrayManager* m_resource_manager *)
  m_elems : Z;                  (* size_t m_elems *)
  m_offset : Z;                 (* size_t m_offset *)
  m_is_slice : bool             (* bool m_is_slice *)
}.

(** [ManagedArray()] and [ManagedArray(std::nullptr_t)]. *)
Definition ManagedArray_default : ManagedArray := Build null nullptr 0 0 false.
Definition ManagedArray_nullptr : ManagedArray := Build null nullptr 0 0 false.

(** [ManagedArray(ManagedArray const& other)]. *)
Definition ManagedArray_copy (other : ManagedArray) : ManagedArray :=
  Build (m_active_pointer other) (m_resource_manager other) (m_elems other)
    (m_offset other) (m_is_slice other).

(** [ManagedArray(T* data, ArrayManager* array_manager, size_t elems,
    PointerRecord* pointer_record)]. *)
Definition ManagedArray_data (data : pointer) (array_manager elems : Z)
  (pointer_record : Z) : ManagedArray :=
  Build data array_manager elems 0 false.

Definition size (this : ManagedArray) : Z := m_elems this.

(** [slice(size_t offset, size_t elems)]; the sum is a [size_t].  The
    rejected request is logged with [CHAI_LOG]. *)
Definition slice (this : ManagedArray) (offset elems : Z) : ManagedArray :=
  let slice := ManagedArray_default in
  if decide (size_wrap (offset + elems) > size this) then slice
  else Build (pointer_add (m_active_pointer this) offset)
         (m_resource_manager slice) elems (m_offset slice) true.

(** [allocate(size_t elems, ExecutionSpace space, UserCallback const&)];
    the space is only logged, the callback is not used.  The result is
    the new value of [*this]. *)
Definition allocate (this : ManagedArray) (elems : Z) : Mem ManagedArray :=
  if negb (m_is_slice this) then
    let+ p := (if um then cudaMallocManaged (size_wrap (sizeof_T * elems))
               else malloc (size_wrap (sizeof_T * elems))) in
    ret (Build p (m_resource_manager this) elems (m_offset this)
           (m_is_slice this))
  else ret this.

(** [ManagedArray(size_t elems, ExecutionSpace space)]. *)
Definition ManagedArray_elems (elems : Z) : Mem ManagedArray :=
  allocate (Build null nullptr elems 0 false) elems.

(** [reallocate(size_t new_elems)]. *)
Definition reallocate (this : ManagedArray) (new_elems : Z) : Mem ManagedArray :=
  if negb (m_is_slice this) then
    let+ new_ptr :=
      (if um then
         let+ new_ptr := cudaMallocManaged (size_wrap (sizeof_T * new_elems)) in
         cudaMemcpy new_ptr (m_active_pointer this)
           (size_wrap (sizeof_T * m_elems this)) ;+
         cudaFree (m_active_pointer this) ;+
         ret new_ptr
       else realloc (m_active_pointer this) (size_wrap (sizeof_T * new_elems))) in
    ret (Build new_ptr (m_resource_manager this) new_elems (m_offset this)
           (m_is_slice this))
  else ret this.

(** [free()]: no member is changed. *)
Definition free (this : ManagedArray) : Mem unit :=
  if negb (m_is_slice this) then
    (if um then cudaFree (m_active_pointer this)
     else free_block (m_active_pointer this))
  else ret tt.

(** [reset()]. *)
Definition reset (this : ManagedArray) : Mem unit := ret tt.

(** [operator[](i)]: the lvalue [m_active_pointer[i]]. *)
Definition operator_index (this : ManagedArray) (i : Z) : pointer :=
  pointer_add (m_active_pointer this) i.

(** The [cudaDeviceSynchronize()] of [pick] and [set], compiled in under
    [!defined(__CUDA_ARCH__) && defined(CHAI_ENABLE_UM)]. *)
Definition synchronize (ctx : context) : Mem unit :=
  match ctx with
  | HostCode => if um then cudaDeviceSynchronize else ret tt
  | DeviceCode => ret tt
  end.

(** [pick(i)] and [set(i, val)] of [CHAI_ENABLE_PICK]. *)
Definition pick (ctx : context) (this : ManagedArray) (i : Z) : Mem Z :=
  synchronize ctx ;+ load (pointer_add (m_active_pointer this) i).

Definition set (ctx : context) (this : ManagedArray) (i val : Z) : Mem unit :=
  synchronize ctx ;+ store (pointer_add (m_active_pointer this) i) val.

(** [operator T*()] of [CHAI_ENABLE_IMPLICIT_CONVERSIONS]. *)
Definition operator_Tptr (this : ManagedArray) : pointer := m_active_pointer this.

(** [operator ManagedArray<const T>()]. *)
Definition operator_const (this : ManagedArray) : ManagedArray :=
  ManagedArray_data (m_active_pointer this) (m_resource_manager this)
    (m_elems this) nullptr.

(** [operator=(std::nullptr_t)]; the result is the new value of [*this]. *)
Definition operator_assign_nullptr (this : ManagedArray) : ManagedArray :=
  Build null (m_resource_manager this) 0 (m_offset this) (m_is_slice this).

(** An array that holds a whole live block of [m_elems] elements, as
    [allocate] leaves it. *)
Definition owns (this : ManagedArray) (cells : list cell) (m : memory) : Prop :=
  block (m_active_pointer this) ≠ 0 ∧ index (m_active_pointer this) = 0 ∧
  blocks m !! block (m_active_pointer this) = Some cells ∧
  Z.of_nat (length cells) = m_elems this.

End Thin.

End ManagedArrayThin.

(** * Properties *)

(** ** The monad and the free stores *)

Lemma bind_Ok {A B} (m : M A) (k : A → M B) s a s' :
  m s = Ok a s' → bind m k s = k a s'.
Proof. intros H. unfold bind. now rewrite H. Qed.

Lemma bind_assoc {A B C} (m : M A) (k : A → M B) (k' : B → M C) s :
  bind (bind m k) k' s = bind m (λ a, bind (k a) k') s.
Proof. unfold bind. now destruct (m s). Qed.

Lemma bind_Undefined {A B} (m : M A) (k : A → M B) s u :
  m s = Undefined u → bind m k s = Undefined u.
Proof. intros H. unfold bind. now rewrite H. Qed.

Lemma new_addr_fresh (used : gset Z) :
  (new_addr used ∉ used) ∧ new_addr used ≠ nullptr.
Proof.
  unfold new_addr.
  pose proof (is_fresh ({[nullptr]} ∪ used)) as H.
  split; [set_solver | intros E; rewrite E in H; set_solver].
Qed.

Lemma new_addr_counters s : counters s !! new_addr (host_used s) = None.
Proof.
  apply not_elem_of_dom. pose proof (new_addr_fresh (host_used s)) as [H _].
  unfold host_used in H. set_solver.
Qed.

Lemma new_addr_objects s : objects s !! new_addr (host_used s) = None.
Proof.
  apply not_elem_of_dom. pose proof (new_addr_fresh (host_used s)) as [H _].
  unfold host_used in H. set_solver.
Qed.

Lemma new_addr_tuples s : tuples s !! new_addr (host_used s) = None.
Proof.
  apply not_elem_of_dom. pose proof (new_addr_fresh (host_used s)) as [H _].
  unfold host_used in H. set_solver.
Qed.

Lemma new_addr_device s : device s !! new_addr (dom (device s)) = None.
Proof.
  apply not_elem_of_dom. apply new_addr_fresh.
Qed.

Lemma load_counter_Ok s c n :
  counters s !! c = Some n → load_counter c s = Ok n s.
Proof. intros H. unfold load_counter. now rewrite H. Qed.

Lemma store_counter_Ok s c n m :
  counters s !! c = Some n →
  store_counter c m s = Ok tt (set_counters (insert c m) s).
Proof. intros H. unfold store_counter. now rewrite H. Qed.

Lemma delete_counter_Ok s c n :
  counters s !! c = Some n →
  delete_counter c s = Ok tt (log (EvDeleteCounter c) (set_counters (delete c) s)).
Proof. intros H. unfold delete_counter. now rewrite H. Qed.

Lemma size_wrap_small n : 0 ≤ n ≤ SIZE_MAX → size_wrap n = n.
Proof. unfold size_wrap, SIZE_MAX. intros H. apply Z.mod_small. lia. Qed.

Lemma size_wrap_overflow : size_wrap (SIZE_MAX + 1) = 0.
Proof. reflexivity. Qed.

(** ** Host strategy: the counter *)

Lemma host_use_count_Ok p s n :
  Host.m_numReferences p ≠ nullptr →
  counters s !! Host.m_numReferences p = Some n →
  Host.use_count p s = Ok n s.
Proof.
  intros Hc Hn. unfold Host.use_count.
  rewrite decide_True by done. now apply load_counter_Ok.
Qed.

Lemma host_use_count_inv p s n s' :
  Host.m_numReferences p ≠ nullptr →
  Host.use_count p s = Ok n s' →
  counters s !! Host.m_numReferences p = Some n ∧ s' = s.
Proof.
  intros Hc. unfold Host.use_count, load_counter.
  rewrite decide_True by done.
  destruct (counters s !! Host.m_numReferences p); [|discriminate].
  intros [= -> ->]. done.
Qed.

Lemma host_increment_Ok p s n :
  Host.m_numReferences p ≠ nullptr →
  counters s !! Host.m_numReferences p = Some n →
  Host.incrementReferenceCount p s =
    Ok tt (set_counters (insert (Host.m_numReferences p) (size_wrap (n + 1))) s).
Proof.
  intros Hc Hn. unfold Host.incrementReferenceCount.
  rewrite decide_True by done.
  rewrite (bind_Ok _ _ _ _ _ (load_counter_Ok _ _ _ Hn)).
  now apply store_counter_Ok with n.
Qed.

Lemma host_decrement_keep p s n :
  Host.m_numReferences p ≠ nullptr →
  counters s !! Host.m_numReferences p = Some n →
  size_wrap (n - 1) ≠ 0 →
  Host.decrementReferenceCount p s =
    Ok tt (set_counters (insert (Host.m_numReferences p) (size_wrap (n - 1))) s).
Proof.
  intros Hc Hn Hw. unfold Host.decrementReferenceCount.
  rewrite decide_True by done.
  rewrite (bind_Ok _ _ _ _ _ (load_counter_Ok _ _ _ Hn)).
  rewrite (bind_Ok _ _ _ _ _ (store_counter_Ok _ _ _ _ Hn)).
  erewrite bind_Ok; last (apply load_counter_Ok; simpl; apply lookup_insert_eq).
  now rewrite decide_False.
Qed.

Lemma host_decrement_release p s n :
  Host.m_numReferences p ≠ nullptr →
  counters s !! Host.m_numReferences p = Some n →
  size_wrap (n - 1) = 0 →
  Host.decrementReferenceCount p s =
    delete_host (Host.m_cpu p)
      (log (EvDeleteCounter (Host.m_numReferences p))
         (set_counters (delete (Host.m_numReferences p)) s)).
Proof.
  intros Hc Hn Hw. unfold Host.decrementReferenceCount.
  rewrite decide_True by done.
  rewrite (bind_Ok _ _ _ _ _ (load_counter_Ok _ _ _ Hn)).
  rewrite (bind_Ok _ _ _ _ _ (store_counter_Ok _ _ _ _ Hn)).
  erewrite bind_Ok; last (apply load_counter_Ok; simpl; apply lookup_insert_eq).
  rewrite decide_True by done.
  erewrite bind_Ok; last (eapply delete_counter_Ok; simpl; apply lookup_insert_eq).
  f_equal. unfold log, set_counters; simpl. f_equal.
  now rewrite delete_insert_eq.
Qed.

Lemma set_counters_insert_twice c n m s :
  set_counters (insert c n) (set_counters (insert c m) s) =
  set_counters (insert c n) s.
Proof. unfold set_counters; simpl. now rewrite insert_insert_eq. Qed.

Lemma set_counters_insert_same c n s :
  counters s !! c = Some n → set_counters (insert c n) s = s.
Proof.
  intros H. destruct s; unfold set_counters; simpl in *.
  now rewrite insert_id.
Qed.

Lemma host_copy_eta p : Host.Build (Host.m_cpu p) (Host.m_numReferences p) = p.
Proof. now destruct p. Qed.

Lemma host_make_managed_Ok args s :
  let c := new_addr (host_used (set_objects (insert (new_addr (host_used s)) args) s)) in
  Host.make_managed args s =
    Ok (Host.Build (new_addr (host_used s)) c)
       (set_counters (insert c 1)
          (set_objects (insert (new_addr (host_used s)) args) s)).
Proof. reflexivity. Qed.

Lemma host_copy_Ok p s n :
  Host.m_numReferences p ≠ nullptr →
  counters s !! Host.m_numReferences p = Some n →
  Host.managed_ptr_copy p s =
    Ok p (set_counters (insert (Host.m_numReferences p) (size_wrap (n + 1))) s).
Proof.
  intros Hc Hn. unfold Host.managed_ptr_copy. rewrite host_copy_eta.
  now rewrite (bind_Ok _ _ _ _ _ (host_increment_Ok _ _ _ Hc Hn)).
Qed.

Lemma host_copies_Ok N : ∀ p s n,
  Host.m_numReferences p ≠ nullptr →
  counters s !! Host.m_numReferences p = Some n →
  0 ≤ n → n + Z.of_nat N ≤ SIZE_MAX →
  host_copies N p s =
    Ok (replicate N p)
       (set_counters (insert (Host.m_numReferences p) (n + Z.of_nat N)) s).
Proof.
  induction N as [|N IH]; intros p s n Hc Hn H0 Hmax.
  - simpl. unfold ret. f_equal. rewrite Z.add_0_r.
    symmetry. now apply set_counters_insert_same.
  - cbn [host_copies replicate].
    rewrite (bind_Ok _ _ _ _ _ (host_copy_Ok _ _ _ Hc Hn)).
    rewrite size_wrap_small by lia.
    erewrite bind_Ok; last (apply (IH p _ (n + 1)); simpl;
      [done | apply lookup_insert_eq | lia | lia]).
    unfold ret. f_equal. rewrite set_counters_insert_twice. do 2 f_equal. lia.
Qed.

Lemma host_dtor_keep p s n :
  Host.m_numReferences p ≠ nullptr →
  counters s !! Host.m_numReferences p = Some n →
  2 ≤ n ≤ SIZE_MAX →
  Host.managed_ptr_dtor p s =
    Ok tt (set_counters (insert (Host.m_numReferences p) (n - 1)) s).
Proof.
  intros Hc Hn Hb. unfold Host.managed_ptr_dtor.
  rewrite (host_decrement_keep _ _ _ Hc Hn); rewrite size_wrap_small; (done || lia).
Qed.

Lemma host_dtor_last p s :
  Host.m_numReferences p ≠ nullptr →
  counters s !! Host.m_numReferences p = Some 1 →
  Host.managed_ptr_dtor p s =
    delete_host (Host.m_cpu p)
      (log (EvDeleteCounter (Host.m_numReferences p))
         (set_counters (delete (Host.m_numReferences p)) s)).
Proof.
  intros Hc Hn. unfold Host.managed_ptr_dtor.
  now rewrite (host_decrement_release _ _ _ Hc Hn).
Qed.

Lemma host_destroy_Ok K : ∀ p s n,
  Host.m_numReferences p ≠ nullptr →
  counters s !! Host.m_numReferences p = Some n →
  Z.of_nat K < n → n ≤ SIZE_MAX →
  host_destroy (replicate K p) s =
    Ok tt (set_counters (insert (Host.m_numReferences p) (n - Z.of_nat K)) s).
Proof.
  induction K as [|K IH]; intros p s n Hc Hn HK Hmax.
  - simpl. unfold ret. f_equal. rewrite Z.sub_0_r.
    symmetry. now apply set_counters_insert_same.
  - cbn [host_destroy replicate].
    erewrite bind_Ok; last (apply (host_dtor_keep _ _ n); (done || lia)).
    rewrite (IH p _ (n - 1)); simpl;
      [| done | apply lookup_insert_eq | lia | lia].
    rewrite set_counters_insert_twice. do 3 f_equal. lia.
Qed.

Lemma delete_host_counters a s :
  ∃ s', delete_host a s = Ok tt s' ∧ counters s' = counters s.
Proof.
  unfold delete_host. destruct (decide (a = nullptr)); eexists; split; reflexivity.
Qed.

(** A decrement succeeds on a pointer with an allocated counter and leaves
    every other counter as it was. *)
Lemma host_decrement_frame p s :
  Host.counter_ok p s →
  ∃ s', Host.decrementReferenceCount p s = Ok tt s' ∧
        ∀ c, c ≠ Host.m_numReferences p → counters s' !! c = counters s !! c.
Proof.
  intros [Hnull | [m Hm]].
  - exists s. unfold Host.decrementReferenceCount.
    rewrite decide_False by (intros H; done). done.
  - destruct (decide (Host.m_numReferences p = nullptr)) as [Hnull | Hc].
    { exists s. unfold Host.decrementReferenceCount.
      rewrite decide_False by (intros H; done). done. }
    destruct (decide (size_wrap (m - 1) = 0)) as [Hz | Hz].
    + rewrite (host_decrement_release _ _ _ Hc Hm Hz).
      destruct (delete_host_counters (Host.m_cpu p)
        (log (EvDeleteCounter (Host.m_numReferences p))
           (set_counters (delete (Host.m_numReferences p)) s))) as (s' & -> & Hs').
      exists s'. split; [done|]. intros c Hne. rewrite Hs'. simpl.
      now rewrite lookup_delete_ne.
    + rewrite (host_decrement_keep _ _ _ Hc Hm Hz).
      eexists. split; [done|]. intros c Hne. simpl.
      now rewrite lookup_insert_ne.
Qed.

Lemma host_increment_frame p s :
  Host.counter_ok p s →
  ∃ s', Host.incrementReferenceCount p s = Ok tt s' ∧
        ∀ c, c ≠ Host.m_numReferences p → counters s' !! c = counters s !! c.
Proof.
  intros [Hnull | [m Hm]].
  - exists s. unfold Host.incrementReferenceCount.
    rewrite decide_False by (intros H; done). done.
  - destruct (decide (Host.m_numReferences p = nullptr)) as [Hnull | Hc].
    { exists s. unfold Host.incrementReferenceCount.
      rewrite decide_False by (intros H; done). done. }
    rewrite (host_increment_Ok _ _ _ Hc Hm).
    eexists. split; [done|]. intros c Hne. simpl.
    now rewrite lookup_insert_ne.
Qed.

Lemma host_assign_in x p s n :
  Host.m_numReferences p ≠ nullptr →
  counters s !! Host.m_numReferences p = Some n →
  0 ≤ n < SIZE_MAX →
  Host.counter_ok x s →
  Host.m_numReferences x ≠ Host.m_numReferences p →
  ∃ s', Host.operator_assign false x p s = Ok p s' ∧
        counters s' !! Host.m_numReferences p = Some (n + 1).
Proof.
  intros Hc Hn Hb Hx Hne.
  destruct (host_decrement_frame x s Hx) as (s1 & Hdec & Hframe).
  unfold Host.operator_assign. simpl.
  rewrite (bind_Ok _ _ _ _ _ Hdec), host_copy_eta.
  assert (counters s1 !! Host.m_numReferences p = Some n) as Hn1
    by (rewrite Hframe; [done | congruence]).
  rewrite (bind_Ok _ _ _ _ _ (host_increment_Ok _ _ _ Hc Hn1)).
  eexists. split; [reflexivity|]. simpl.
  rewrite lookup_insert_eq, size_wrap_small by lia. done.
Qed.

Lemma host_assign_away q y s n :
  Host.m_numReferences q ≠ nullptr →
  counters s !! Host.m_numReferences q = Some n →
  2 ≤ n ≤ SIZE_MAX →
  Host.counter_ok y s →
  Host.m_numReferences y ≠ Host.m_numReferences q →
  ∃ s', Host.operator_assign false q y s = Ok y s' ∧
        counters s' !! Host.m_numReferences q = Some (n - 1).
Proof.
  intros Hc Hn Hb Hy Hne.
  unfold Host.operator_assign. simpl.
  erewrite bind_Ok; last (apply (host_decrement_keep _ _ n);
    [done | done | rewrite size_wrap_small; lia]).
  rewrite size_wrap_small by lia. rewrite host_copy_eta.
  set (s1 := set_counters _ s).
  assert (Host.counter_ok y s1) as Hy1.
  { destruct Hy as [Hy | [m Hm]]; [now left | right].
    exists m. subst s1. simpl. now rewrite lookup_insert_ne. }
  destruct (host_increment_frame y s1 Hy1) as (s2 & Hinc & Hframe).
  rewrite (bind_Ok _ _ _ _ _ Hinc).
  eexists. split; [reflexivity|].
  rewrite Hframe by congruence. subst s1. simpl. apply lookup_insert_eq.
Qed.

Lemma host_aliasing_Ok p a s n :
  Host.m_numReferences p ≠ nullptr →
  counters s !! Host.m_numReferences p = Some n →
  Host.managed_ptr_aliasing p a s =
    Ok (Host.Build a (Host.m_numReferences p))
       (set_counters (insert (Host.m_numReferences p) (size_wrap (n + 1))) s).
Proof.
  intros Hc Hn. unfold Host.managed_ptr_aliasing.
  erewrite bind_Ok; last (apply (host_increment_Ok _ _ n); done). done.
Qed.

Lemma host_converting_Ok conv p s n :
  Host.m_numReferences p ≠ nullptr →
  counters s !! Host.m_numReferences p = Some n →
  Host.managed_ptr_converting conv p s =
    Ok (Host.Build (conv (Host.m_cpu p)) (Host.m_numReferences p))
       (set_counters (insert (Host.m_numReferences p) (size_wrap (n + 1))) s).
Proof.
  intros Hc Hn. unfold Host.managed_ptr_converting.
  erewrite bind_Ok; last (apply (host_increment_Ok _ _ n); done). done.
Qed.

Lemma host_assign_converting_in conv x p s n :
  Host.m_numReferences p ≠ nullptr →
  counters s !! Host.m_numReferences p = Some n →
  0 ≤ n < SIZE_MAX →
  Host.counter_ok x s →
  Host.m_numReferences x ≠ Host.m_numReferences p →
  ∃ s', Host.operator_assign_converting conv x p s =
          Ok (Host.Build (conv (Host.m_cpu p)) (Host.m_numReferences p)) s' ∧
        counters s' !! Host.m_numReferences p = Some (n + 1).
Proof.
  intros Hc Hn Hb Hx Hne.
  destruct (host_decrement_frame x s Hx) as (s1 & Hdec & Hframe).
  unfold Host.operator_assign_converting.
  rewrite (bind_Ok _ _ _ _ _ Hdec).
  assert (counters s1 !! Host.m_numReferences p = Some n) as Hn1
    by (rewrite Hframe; [done | congruence]).
  erewrite bind_Ok; last (apply (host_increment_Ok _ _ n); done).
  eexists. split; [reflexivity|]. simpl.
  rewrite lookup_insert_eq, size_wrap_small by lia. done.
Qed.

(** ** Managed strategy: the counter and the callbacks *)

Lemma managed_use_count_Ok p s n :
  Managed.m_numReferences p ≠ nullptr →
  counters s !! Managed.m_numReferences p = Some n →
  Managed.use_count p s = Ok n s.
Proof.
  intros Hc Hn. unfold Managed.use_count.
  rewrite decide_True by done. now apply load_counter_Ok.
Qed.

Lemma call_copier_Ok a s :
  is_Some (tuples s !! a) → call FnCopier a s = Ok tt (log (EvCopier a) s).
Proof. intros [t Ht]. unfold call. now rewrite Ht. Qed.

Lemma call_deleter_Ok a s :
  a ≠ nullptr → is_Some (tuples s !! a) →
  call FnDeleter a s = Ok tt (log (EvDeleter a) (set_tuples (delete a) s)).
Proof. intros Ha [t Ht]. unfold call. now rewrite decide_False, Ht. Qed.

Lemma managed_increment_Ok p s n :
  Managed.m_numReferences p ≠ nullptr →
  counters s !! Managed.m_numReferences p = Some n →
  Managed.registered p s →
  Managed.incrementReferenceCount p s =
    Ok tt (log (EvCopier (Managed.m_copyArguments p))
             (set_counters
                (insert (Managed.m_numReferences p) (size_wrap (n + 1))) s)).
Proof.
  intros Hc Hn (Hcop & _ & _ & Ht). unfold Managed.incrementReferenceCount.
  rewrite decide_True by done.
  rewrite (bind_Ok _ _ _ _ _ (load_counter_Ok _ _ _ Hn)).
  rewrite (bind_Ok _ _ _ _ _ (store_counter_Ok _ _ _ _ Hn)).
  rewrite Hcop. now apply call_copier_Ok.
Qed.

Lemma managed_increment_null p s :
  Managed.m_numReferences p = nullptr →
  Managed.incrementReferenceCount p s = Ok tt s.
Proof.
  intros Hc. unfold Managed.incrementReferenceCount.
  now rewrite decide_False by (intros H; done).
Qed.

Lemma managed_decrement_null p s :
  Managed.m_numReferences p = nullptr →
  Managed.decrementReferenceCount p s = Ok tt s.
Proof.
  intros Hc. unfold Managed.decrementReferenceCount.
  now rewrite decide_False by (intros H; done).
Qed.

Lemma managed_decrement_keep p s n :
  Managed.m_numReferences p ≠ nullptr →
  counters s !! Managed.m_numReferences p = Some n →
  size_wrap (n - 1) ≠ 0 →
  Managed.decrementReferenceCount p s =
    Ok tt (set_counters
             (insert (Managed.m_numReferences p) (size_wrap (n - 1))) s).
Proof.
  intros Hc Hn Hw. unfold Managed.decrementReferenceCount.
  rewrite decide_True by done.
  rewrite (bind_Ok _ _ _ _ _ (load_counter_Ok _ _ _ Hn)).
  rewrite (bind_Ok _ _ _ _ _ (store_counter_Ok _ _ _ _ Hn)).
  erewrite bind_Ok; last (apply load_counter_Ok; simpl; apply lookup_insert_eq).
  now rewrite decide_False.
Qed.

(** The state in which the release code starts: the counter has just been
    written with zero and deleted. *)
Lemma managed_decrement_zero p s n :
  Managed.m_numReferences p ≠ nullptr →
  counters s !! Managed.m_numReferences p = Some n →
  size_wrap (n - 1) = 0 →
  Managed.decrementReferenceCount p s =
    (let* registered := is_set (Managed.m_deleter p) in
     (if registered then call (Managed.m_deleter p) (Managed.m_copyArguments p)
      else ret tt) ;;
     delete_host (Managed.m_cpu p) ;;
     destroy_on_device (Managed.m_gpu p) ;;
     cudaDeviceSynchronize)
      (log (EvDeleteCounter (Managed.m_numReferences p))
         (set_counters (delete (Managed.m_numReferences p)) s)).
Proof.
  intros Hc Hn Hw. unfold Managed.decrementReferenceCount.
  rewrite decide_True by done.
  rewrite (bind_Ok _ _ _ _ _ (load_counter_Ok _ _ _ Hn)).
  rewrite (bind_Ok _ _ _ _ _ (store_counter_Ok _ _ _ _ Hn)).
  erewrite bind_Ok; last (apply load_counter_Ok; simpl; apply lookup_insert_eq).
  rewrite decide_True by done.
  erewrite bind_Ok; last (eapply delete_counter_Ok; simpl; apply lookup_insert_eq).
  f_equal. unfold log, set_counters; simpl. f_equal.
  now rewrite delete_insert_eq.
Qed.

(** The state a release leaves behind. *)
Lemma managed_release_registered p s n :
  Managed.m_numReferences p ≠ nullptr →
  counters s !! Managed.m_numReferences p = Some n →
  size_wrap (n - 1) = 0 →
  Managed.m_deleter p = FnDeleter →
  Managed.m_copyArguments p ≠ nullptr →
  is_Some (tuples s !! Managed.m_copyArguments p) →
  Managed.decrementReferenceCount p s =
    Ok tt (State (delete (Managed.m_numReferences p) (counters s))
             (if decide (Managed.m_cpu p = nullptr) then objects s
              else delete (Managed.m_cpu p) (objects s))
             (delete (Managed.m_copyArguments p) (tuples s))
             (if decide (Managed.m_gpu p = nullptr) then device s
              else delete (Managed.m_gpu p) (device s))
             (trace s ++ Managed.release_events p)).
Proof.
  intros Hc Hn Hw Hd Ha [t Ht].
  rewrite (managed_decrement_zero _ _ _ Hc Hn Hw).
  unfold Managed.release_events. rewrite Hd.
  unfold is_set, call, delete_host, destroy_on_device, launch,
    cudaDeviceSynchronize, emit, delete_device, bind, ret, log, set_objects,
    set_device, set_tuples, set_counters.
  rewrite (decide_False (P := Managed.m_copyArguments p = nullptr)) by done.
  simpl. rewrite Ht.
  destruct (decide (Managed.m_cpu p = nullptr)),
    (decide (Managed.m_gpu p = nullptr)); simpl;
    (rewrite ?decide_True by done); (rewrite ?decide_False by tauto); simpl;
    repeat rewrite <- app_assoc; reflexivity.
Qed.

Lemma managed_copy_eta p :
  Managed.Build (Managed.m_cpu p) (Managed.m_gpu p) (Managed.m_numReferences p)
    (Managed.m_copyArguments p) (Managed.m_copier p) (Managed.m_deleter p) = p.
Proof. now destruct p. Qed.

Lemma managed_registerArguments_Ok this args s :
  let a := new_addr (host_used s) in
  Managed.registerArguments this args s =
    Ok (Managed.Build (Managed.m_cpu this) (Managed.m_gpu this)
          (Managed.m_numReferences this) a FnCopier FnDeleter)
       (set_tuples (insert a args) s).
Proof. reflexivity. Qed.

Lemma managed_make_managed_Ok args s :
  let h := new_addr (host_used s) in
  let s1 := set_objects (insert h args) s in
  let d := new_addr (dom (device s1)) in
  let s2 := log EvSynchronize
              (set_device (insert d args) (log (EvLaunch K_make_on_device) s1)) in
  let c := new_addr (host_used s2) in
  let s3 := set_counters (insert c 1) s2 in
  let t := new_addr (host_used s3) in
  Managed.make_managed args s =
    Ok (Managed.Build h d c t FnCopier FnDeleter) (set_tuples (insert t args) s3).
Proof. reflexivity. Qed.

(** ** The class invariant *)

Lemma bind_inv {A B} (m : M A) (k : A → M B) s b s' :
  bind m k s = Ok b s' → ∃ a s1, m s = Ok a s1 ∧ k a s1 = Ok b s'.
Proof.
  unfold bind. destruct (m s) as [a s1|u]; [|discriminate]. eauto.
Qed.

Lemma ret_inv {A} (a b : A) s s' : ret a s = Ok b s' → b = a ∧ s' = s.
Proof. unfold ret. now intros [= -> ->]. Qed.

(** Runs a monadic equation backwards down to the value it returns. *)
Ltac unwind H :=
  repeat match type of H with
  | bind _ _ _ = Ok _ _ =>
      let a := fresh "a" in let s := fresh "s" in let Hm := fresh "Hm" in
      apply bind_inv in H as (a & s & Hm & H)
  | ret _ _ = Ok _ _ => apply ret_inv in H as [-> ->]
  end.

Lemma cast_nonnull (cast : pointer_cast) a : cast a ≠ nullptr → a ≠ nullptr.
Proof. intros H ->. apply H, cast_null. Qed.

Lemma host_raw_counter conv hostPtr s p s' :
  Host.managed_ptr_raw conv hostPtr s = Ok p s' →
  Host.m_numReferences p ≠ nullptr.
Proof.
  unfold Host.managed_ptr_raw. intros H. unwind H.
  unfold new_counter in Hm. injection Hm as <- <-. simpl. apply new_addr_fresh.
Qed.

Lemma host_aliasing_shape other hostPtr s p s' :
  Host.managed_ptr_aliasing other hostPtr s = Ok p s' →
  p = Host.Build hostPtr (Host.m_numReferences other).
Proof. unfold Host.managed_ptr_aliasing. intros H. now unwind H. Qed.

Lemma host_invariant_cast (cast : pointer_cast) other :
  Host.invariant other →
  Host.invariant (Host.Build (cast (Host.get other)) (Host.m_numReferences other)).
Proof.
  unfold Host.invariant. simpl. intros Hinv Hp. now apply Hinv, (cast_nonnull cast).
Qed.

Lemma host_produced_invariant p : Host.produced false p → Host.invariant p.
Proof.
  induction 1 as
    [ | | conv hostPtr s p s' Hrun
    | other s p s' _ IH Hrun
    | conv other s p s' _ IH Hrun
    | other hostPtr s p s' Hflag _ _ _
    | self this other s p s' _ IHthis _ IHother Hrun
    | conv this other s p s' _ _ _ IHother Hrun
    | args s p s' Hrun
    | conv f args s p s' Hrun
    | cast other s p s' _ IH Hrun
    | cast other s p s' _ IH Hrun
    | cast other s p s' _ IH Hrun
    | cast other s p s' _ IH Hrun ].
  - intros H. done.
  - intros H. done.
  - intros _. eapply host_raw_counter, Hrun.
  - unfold Host.managed_ptr_copy in Hrun. unwind Hrun.
    now rewrite host_copy_eta.
  - unfold Host.managed_ptr_converting in Hrun. unwind Hrun.
    now apply host_invariant_cast.
  - discriminate.
  - unfold Host.operator_assign in Hrun. destruct self; simpl in Hrun.
    + now unwind Hrun.
    + unwind Hrun. now rewrite host_copy_eta.
  - unfold Host.operator_assign_converting in Hrun. unwind Hrun.
    now apply host_invariant_cast.
  - unfold Host.make_managed in Hrun. unwind Hrun.
    intros _. eapply host_raw_counter, Hrun.
  - unfold Host.make_managed_from_factory in Hrun. unwind Hrun.
    intros _. eapply host_raw_counter, Hrun.
  - apply host_aliasing_shape in Hrun as ->. now apply host_invariant_cast.
  - unfold Host.dynamic_pointer_cast in Hrun.
    destruct (decide _) in Hrun.
    + apply host_aliasing_shape in Hrun as ->. now apply host_invariant_cast.
    + unwind Hrun. intros H. done.
  - apply host_aliasing_shape in Hrun as ->. now apply host_invariant_cast.
  - apply host_aliasing_shape in Hrun as ->. now apply host_invariant_cast.
Qed.

Lemma managed_raw_shape conv_host conv_device hostPtr devicePtr s p s' :
  Managed.managed_ptr_raw conv_host conv_device hostPtr devicePtr s = Ok p s' →
  Managed.m_numReferences p ≠ nullptr ∧
  Managed.m_cpu p = conv_host hostPtr ∧ Managed.m_gpu p = conv_device devicePtr.
Proof.
  unfold Managed.managed_ptr_raw. intros H. unwind H.
  unfold new_counter in Hm. injection Hm as <- <-. simpl.
  split; [apply new_addr_fresh | done].
Qed.

Lemma managed_registerArguments_shape this args s p s' :
  Managed.registerArguments this args s = Ok p s' →
  Managed.m_cpu p = Managed.m_cpu this ∧ Managed.m_gpu p = Managed.m_gpu this ∧
  Managed.m_numReferences p = Managed.m_numReferences this.
Proof. unfold Managed.registerArguments. intros H. now unwind H. Qed.

Lemma managed_aliasing_shape ctx other hostPtr devicePtr s p s' :
  Managed.managed_ptr_aliasing ctx other hostPtr devicePtr s = Ok p s' →
  Managed.m_cpu p = hostPtr ∧ Managed.m_gpu p = devicePtr ∧
  Managed.m_numReferences p = Managed.m_numReferences other.
Proof. unfold Managed.managed_ptr_aliasing. intros H. now unwind H. Qed.

Lemma managed_pointer_cast_on_device_value k cast other s d s' :
  Managed.pointer_cast_on_device k cast other s = Ok d s' →
  d = cast (Managed.m_gpu other).
Proof.
  unfold Managed.pointer_cast_on_device, launch. intros H.
  apply bind_inv in H as (a & s1 & Hkernel & H).
  unwind Hkernel. now unwind H.
Qed.

Lemma managed_invariant_by_fields (cast_host cast_device : pointer_cast) other p :
  Managed.invariant other →
  Managed.m_cpu p = cast_host (Managed.m_cpu other) →
  Managed.m_gpu p = cast_device (Managed.m_gpu other) →
  Managed.m_numReferences p = Managed.m_numReferences other →
  Managed.invariant p.
Proof.
  intros Hinv Hcpu Hgpu Hc ctx Hp. rewrite Hc. apply (Hinv ctx).
  destruct ctx; simpl in *.
  - rewrite Hcpu in Hp. now apply (cast_nonnull cast_host).
  - rewrite Hgpu in Hp. now apply (cast_nonnull cast_device).
Qed.

Lemma managed_invariant_counter p :
  Managed.m_numReferences p ≠ nullptr → Managed.invariant p.
Proof. now intros H ctx _. Qed.

Lemma managed_invariant_cast_run k cast other s p s' :
  Managed.invariant other →
  (let* devicePtr := Managed.pointer_cast_on_device k cast other in
   Managed.managed_ptr_aliasing HostCode other
     (cast (Managed.get HostCode other)) devicePtr) s = Ok p s' →
  Managed.invariant p.
Proof.
  intros Hinv Hrun. unwind Hrun.
  apply managed_pointer_cast_on_device_value in Hm as ->.
  apply managed_aliasing_shape in Hrun as (Hcpu & Hgpu & Hc).
  now apply (managed_invariant_by_fields cast cast other).
Qed.

Lemma managed_produced_invariant p :
  Managed.produced false p → Managed.invariant p.
Proof.
  induction 1 as
    [ | | conv_host conv_device hostPtr devicePtr s p s' Hrun
    | ctx other s p s' _ IH Hrun
    | ctx conv other s p s' _ IH Hrun
    | ctx other hostPtr devicePtr s p s' Hflag _ _ _
    | ctx self this other s p s' _ IHthis _ IHother Hrun
    | ctx conv this other s p s' _ _ _ IHother Hrun
    | this args s p s' _ IH Hrun
    | args s p s' Hrun
    | conv f f_device args s p s' Hrun
    | cast other s p s' _ IH Hrun
    | other s p s' _ _ Hrun
    | cast other s p s' _ IH Hrun
    | cast other s p s' _ IH Hrun ].
  - intros [] H; done.
  - intros [] H; done.
  - apply managed_raw_shape in Hrun as (Hc & _). now apply managed_invariant_counter.
  - unfold Managed.managed_ptr_copy in Hrun. unwind Hrun.
    now rewrite managed_copy_eta.
  - unfold Managed.managed_ptr_converting in Hrun. unwind Hrun.
    now apply (managed_invariant_by_fields conv conv other).
  - discriminate.
  - unfold Managed.operator_assign in Hrun. destruct self; simpl in Hrun.
    + now unwind Hrun.
    + unwind Hrun. now rewrite managed_copy_eta.
  - unfold Managed.operator_assign_converting in Hrun. unwind Hrun.
    now apply (managed_invariant_by_fields conv conv other).
  - apply managed_registerArguments_shape in Hrun as (Hcpu & Hgpu & Hc).
    now apply (managed_invariant_by_fields same_address same_address this).
  - unfold Managed.make_managed in Hrun. unwind Hrun.
    apply managed_registerArguments_shape in Hrun as (_ & _ & Hc).
    apply managed_raw_shape in Hm1 as (Hc' & _).
    apply managed_invariant_counter. congruence.
  - unfold Managed.make_managed_from_factory in Hrun. unwind Hrun.
    apply managed_registerArguments_shape in Hrun as (_ & _ & Hc).
    apply managed_raw_shape in Hm1 as (Hc' & _).
    apply managed_invariant_counter. congruence.
  - now apply (managed_invariant_cast_run _ _ _ _ _ _ IH Hrun).
  - discriminate.
  - now apply (managed_invariant_cast_run _ _ _ _ _ _ IH Hrun).
  - now apply (managed_invariant_cast_run _ _ _ _ _ _ IH Hrun).
Qed.

Lemma device_raw_counter conv devicePtr s p s' :
  Device.managed_ptr_raw conv devicePtr s = Ok p s' →
  Device.m_numReferences p ≠ nullptr.
Proof.
  unfold Device.managed_ptr_raw. intros H. unwind H.
  unfold new_counter in Hm. injection Hm as <- <-. simpl. apply new_addr_fresh.
Qed.

Lemma device_copy_eta p :
  Device.Build (Device.m_gpu p) (Device.m_numReferences p) = p.
Proof. now destruct p. Qed.

Lemma device_invariant_cast (cast : pointer_cast) other :
  Device.invariant other →
  Device.invariant
    (Device.Build (cast (Device.get other)) (Device.m_numReferences other)).
Proof.
  unfold Device.invariant. simpl. intros Hinv Hp. now apply Hinv, (cast_nonnull cast).
Qed.

Lemma device_invariant_cast_run k cast other s p s' :
  Device.invariant other →
  (let* devicePtr := Device.pointer_cast_on_device k cast other in
   Device.managed_ptr_aliasing HostCode other devicePtr) s = Ok p s' →
  Device.invariant p.
Proof.
  intros Hinv Hrun. unwind Hrun.
  unfold Device.pointer_cast_on_device, launch in Hm.
  apply bind_inv in Hm as (a' & s1 & Hkernel & Hm).
  unwind Hkernel. unwind Hm.
  unfold Device.managed_ptr_aliasing in Hrun. unwind Hrun.
  now apply device_invariant_cast.
Qed.

Lemma device_produced_invariant p :
  Device.produced false p → Device.invariant p.
Proof.
  induction 1 as
    [ | | conv devicePtr s p s' Hrun
    | ctx other s p s' _ IH Hrun
    | ctx conv other s p s' _ IH Hrun
    | ctx other devicePtr s p s' Hflag _ _ _
    | ctx self this other s p s' _ IHthis _ IHother Hrun
    | ctx conv this other s p s' _ _ _ IHother Hrun
    | cast other s p s' _ IH Hrun
    | other s p s' _ _ Hrun
    | cast other s p s' _ IH Hrun
    | cast other s p s' _ IH Hrun ].
  - intros H; done.
  - intros H; done.
  - intros _. eapply device_raw_counter, Hrun.
  - unfold Device.managed_ptr_copy in Hrun. unwind Hrun.
    now rewrite device_copy_eta.
  - unfold Device.managed_ptr_converting in Hrun. unwind Hrun.
    now apply device_invariant_cast.
  - discriminate.
  - unfold Device.operator_assign in Hrun. destruct self; simpl in Hrun.
    + now unwind Hrun.
    + unwind Hrun. now rewrite device_copy_eta.
  - unfold Device.operator_assign_converting in Hrun. unwind Hrun.
    now apply device_invariant_cast.
  - now apply (device_invariant_cast_run _ _ _ _ _ _ IH Hrun).
  - discriminate.
  - now apply (device_invariant_cast_run _ _ _ _ _ _ IH Hrun).
  - now apply (device_invariant_cast_run _ _ _ _ _ _ IH Hrun).
Qed.

(** ** Ownership accounting *)

Section OwnersFacts.
Context {H : Type} (ctr : H → Z) (null : H) (null_ctr : ctr null = nullptr).

Lemma owners_bounds c (l : list H) : 0 ≤ owners ctr c l ≤ Z.of_nat (length l).
Proof.
  induction l as [|h t IH]; simpl; [lia|]. destruct (decide (ctr h = c)); lia.
Qed.

Lemma owners_elem h (l : list H) : h ∈ l → 1 ≤ owners ctr (ctr h) l.
Proof.
  induction l as [|h' t IH]; [by intros ?%elem_of_nil|].
  intros [-> | Hin]%elem_of_cons; simpl.
  - rewrite decide_True by done. pose proof (owners_bounds (ctr h') t). lia.
  - specialize (IH Hin). destruct (decide (ctr h' = ctr h)); lia.
Qed.

Lemma owners_insert c (l : list H) i h h' :
  l !! i = Some h →
  owners ctr c (<[i := h']> l) =
  owners ctr c l - (if decide (ctr h = c) then 1 else 0)
                 + (if decide (ctr h' = c) then 1 else 0).
Proof.
  revert i. induction l as [|x t IH]; intros i Hi; [done|].
  destruct i as [|i]; simpl in *.
  - injection Hi as ->. lia.
  - rewrite (IH i Hi). lia.
Qed.

Lemma owners_delete c (l : list H) i h :
  l !! i = Some h →
  owners ctr c (delete i l) =
  owners ctr c l - (if decide (ctr h = c) then 1 else 0).
Proof.
  revert i. induction l as [|x t IH]; intros i Hi; [done|].
  destruct i as [|i]; simpl in *.
  - injection Hi as ->. lia.
  - rewrite (IH i Hi). lia.
Qed.

Lemma elem_of_insert_inv (l : list H) i x y :
  x ∈ <[i := y]> l → x = y ∨ x ∈ l.
Proof.
  revert i. induction l as [|h t IH]; intros i; [by intros ?%elem_of_nil|].
  destruct i as [|i]; simpl.
  - intros [-> | Hin]%elem_of_cons; [by left | right; by apply list_elem_of_further].
  - intros [-> | Hin]%elem_of_cons; [right; apply list_elem_of_here|].
    destruct (IH i Hin); [by left | right; by apply list_elem_of_further].
Qed.

(** A counter without an allocation has no owner. *)
Lemma counted_unallocated (l : list H) cs c :
  counted ctr l cs → c ≠ nullptr → cs !! c = None → owners ctr c l = 0.
Proof.
  intros (_ & _ & Halloc) Hc Hnone.
  induction l as [|h t IH]; [done|]. simpl.
  rewrite IH by (intros h' Hin; apply Halloc; by apply list_elem_of_further).
  destruct (decide (ctr h = c)) as [E|]; [|done].
  destruct (Halloc h (list_elem_of_here _ _)) as [n Hn]; congruence.
Qed.

(** A pointer without a counter comes into being. *)
Lemma counted_cons_null (l : list H) cs h :
  counted ctr l cs → ctr h = nullptr → counted ctr (h :: l) cs.
Proof.
  intros (Hnull & Hcount & Halloc) Hh. split; [done|]. split.
  - intros c n Hn. simpl. rewrite decide_False by congruence.
    now apply Hcount.
  - intros h' [-> | Hin]%elem_of_cons Hc; [done | by apply Halloc].
Qed.

(** A pointer without a counter goes away. *)
Lemma counted_delete_null (l : list H) cs i h :
  counted ctr l cs → l !! i = Some h → ctr h = nullptr →
  counted ctr (delete i l) cs.
Proof.
  intros (Hnull & Hcount & Halloc) Hi Hh. split; [done|]. split.
  - intros c n Hn. rewrite (owners_delete c l i h Hi).
    rewrite decide_False by congruence. rewrite Z.sub_0_r. now apply Hcount.
  - intros h' Hin Hc. apply Halloc; [|done]. eapply list_elem_of_delete_inv, Hin.
Qed.

(** The pointer at [i] lets go of its counter. *)
Lemma counted_detach (l : list H) cs i h :
  counted ctr l cs → l !! i = Some h →
  counted ctr (<[i := null]> l) (dec_map (ctr h) cs).
Proof.
  intros (Hnull & Hcount & Halloc) Hi.
  assert (∀ c, c ≠ nullptr →
            owners ctr c (<[i := null]> l) =
            owners ctr c l - (if decide (ctr h = c) then 1 else 0)) as Hown.
  { intros c Hc. rewrite (owners_insert c l i h null Hi).
    rewrite (decide_False (P := ctr null = c)) by congruence. lia. }
  assert (∀ h', h' ∈ <[i := null]> l → ctr h' ≠ nullptr → h' ∈ l) as Hin.
  { intros h' [-> | Hin]%elem_of_insert_inv Hc; done. }
  unfold dec_map. destruct (decide (ctr h = nullptr)) as [Hh | Hh].
  { split; [done|]. split.
    - intros c n Hn. rewrite Hown by congruence.
      rewrite decide_False by congruence. rewrite Z.sub_0_r. now apply Hcount.
    - intros h' Hh' Hc. apply Halloc; [by apply Hin | done]. }
  destruct (Halloc h (list_elem_of_lookup_2 _ _ _ Hi) Hh) as [n Hn].
  rewrite Hn. destruct (Hcount _ _ Hn) as [Hn_owners Hn_pos].
  destruct (decide (n = 1)) as [-> | Hn1].
  - split; [by rewrite lookup_delete_ne|]. split.
    + intros c m Hm. apply lookup_delete_Some in Hm as [Hne Hm].
      rewrite Hown by congruence. rewrite decide_False by done.
      rewrite Z.sub_0_r. now apply Hcount.
    + intros h' Hh' Hc. rewrite lookup_delete_ne; [apply Halloc; auto|].
      intros E. pose proof (owners_elem h' _ Hh') as Hpos.
      rewrite Hown, <- E, decide_True in Hpos by done. lia.
  - split; [by rewrite lookup_insert_ne|]. split.
    + intros c m Hm. destruct (decide (ctr h = c)) as [<- | Hne].
      * rewrite lookup_insert_eq in Hm. injection Hm as <-.
        rewrite Hown, decide_True by done. lia.
      * rewrite lookup_insert_ne in Hm by done.
        rewrite Hown by congruence. rewrite decide_False by done.
        rewrite Z.sub_0_r. now apply Hcount.
    + intros h' Hh' Hc. apply lookup_insert_is_Some'. right.
      apply Halloc; auto.
Qed.

(** The pointer at [i], which holds no counter, takes a share of an
    allocated one. *)
Lemma counted_attach (l : list H) cs i h0 p :
  counted ctr l cs → l !! i = Some h0 → ctr h0 = nullptr →
  (ctr p = nullptr ∨ is_Some (cs !! ctr p)) →
  counted ctr (<[i := p]> l) (inc_map (ctr p) cs).
Proof.
  intros (Hnull & Hcount & Halloc) Hi Hh0 Hp.
  assert (∀ c, c ≠ nullptr →
            owners ctr c (<[i := p]> l) =
            owners ctr c l + (if decide (ctr p = c) then 1 else 0)) as Hown.
  { intros c Hc. rewrite (owners_insert c l i h0 p Hi).
    rewrite (decide_False (P := ctr h0 = c)) by congruence. lia. }
  unfold inc_map. destruct (decide (ctr p = nullptr)) as [Hpn | Hpn].
  { split; [done|]. split.
    - intros c n Hn. rewrite Hown by congruence.
      rewrite decide_False by congruence. rewrite Z.add_0_r. now apply Hcount.
    - intros h' [-> | Hin]%elem_of_insert_inv Hc; [done | by apply Halloc]. }
  destruct Hp as [Hp | [n Hn]]; [done|]. rewrite Hn.
  destruct (Hcount _ _ Hn) as [Hn_owners Hn_pos].
  split; [by rewrite lookup_insert_ne|]. split.
  - intros c m Hm. destruct (decide (ctr p = c)) as [<- | Hne].
    + rewrite lookup_insert_eq in Hm. injection Hm as <-.
      rewrite Hown, decide_True by done. lia.
    + rewrite lookup_insert_ne in Hm by done.
      rewrite Hown by congruence. rewrite decide_False by done.
      rewrite Z.add_0_r. now apply Hcount.
  - intros h' Hh' Hc. apply lookup_insert_is_Some'.
    apply elem_of_insert_inv in Hh' as [-> | Hin]; [by left | right; by apply Halloc].
Qed.

(** The pointer at [i], which holds no counter, takes a new counter. *)
Lemma counted_attach_fresh (l : list H) cs i h0 p :
  counted ctr l cs → l !! i = Some h0 → ctr h0 = nullptr →
  ctr p ≠ nullptr → cs !! ctr p = None →
  counted ctr (<[i := p]> l) (<[ctr p := 1]> cs).
Proof.
  intros Hcounted Hi Hh0 Hp Hfresh.
  pose proof (counted_unallocated l cs (ctr p) Hcounted Hp Hfresh) as Hzero.
  destruct Hcounted as (Hnull & Hcount & Halloc).
  assert (∀ c, c ≠ nullptr →
            owners ctr c (<[i := p]> l) =
            owners ctr c l + (if decide (ctr p = c) then 1 else 0)) as Hown.
  { intros c Hc. rewrite (owners_insert c l i h0 p Hi).
    rewrite (decide_False (P := ctr h0 = c)) by congruence. lia. }
  split; [by rewrite lookup_insert_ne|]. split.
  - intros c m Hm. destruct (decide (ctr p = c)) as [<- | Hne].
    + rewrite lookup_insert_eq in Hm. injection Hm as <-.
      rewrite Hown, decide_True by done. lia.
    + rewrite lookup_insert_ne in Hm by done.
      rewrite Hown by congruence. rewrite decide_False by done.
      rewrite Z.add_0_r. now apply Hcount.
  - intros h' Hh' Hc. apply lookup_insert_is_Some'.
    apply elem_of_insert_inv in Hh' as [-> | Hin]; [by left | right; by apply Halloc].
Qed.

(** A new pointer that shares an allocated counter, or holds none. *)
Lemma counted_cons_share (l : list H) cs p :
  counted ctr l cs → (ctr p = nullptr ∨ is_Some (cs !! ctr p)) →
  counted ctr (p :: l) (inc_map (ctr p) cs).
Proof.
  intros Hcounted Hp.
  apply (counted_attach (null :: l) cs 0 null p); [|done|done|done].
  now apply counted_cons_null.
Qed.

(** A new pointer with a new counter. *)
Lemma counted_cons_fresh (l : list H) cs p :
  counted ctr l cs → ctr p ≠ nullptr → cs !! ctr p = None →
  counted ctr (p :: l) (<[ctr p := 1]> cs).
Proof.
  intros Hcounted Hp Hfresh.
  apply (counted_attach_fresh (null :: l) cs 0 null p); [|done|done|done|done].
  now apply counted_cons_null.
Qed.

(** The pointer at [i] is destroyed. *)
Lemma counted_delete (l : list H) cs i h :
  counted ctr l cs → l !! i = Some h →
  counted ctr (delete i l) (dec_map (ctr h) cs).
Proof.
  intros Hcounted Hi.
  pose proof (counted_detach l cs i h Hcounted Hi) as Hdetached.
  assert (delete i (<[i := null]> l) = delete i l) as <-.
  { clear -Hi. revert i Hi. induction l as [|x t IH]; intros [|i] Hi; simpl in *;
      try done. f_equal. now apply IH. }
  apply (counted_delete_null _ _ i null); [done| |done].
  apply list_lookup_insert_eq. eapply lookup_lt_Some, Hi.
Qed.

(** The pointer at [i] is assigned the counter of [p]. *)
Lemma counted_assign (l : list H) cs i h p :
  counted ctr l cs → l !! i = Some h →
  (ctr p = nullptr ∨ is_Some (dec_map (ctr h) cs !! ctr p)) →
  counted ctr (<[i := p]> l) (inc_map (ctr p) (dec_map (ctr h) cs)).
Proof.
  intros Hcounted Hi Hp.
  pose proof (counted_detach l cs i h Hcounted Hi) as Hdetached.
  rewrite <- (list_insert_insert_eq l i p null).
  apply (counted_attach _ _ i null p); [done| |done|done].
  apply list_lookup_insert_eq. eapply lookup_lt_Some, Hi.
Qed.

End OwnersFacts.

Lemma counted_lookup {H : Type} (ctr : H → Z) (l : list H) cs h :
  counted ctr l cs → h ∈ l → ctr h ≠ nullptr →
  ∃ n, cs !! ctr h = Some n ∧ n = owners ctr (ctr h) l ∧
       1 ≤ n ≤ Z.of_nat (length l).
Proof.
  intros (_ & Hcount & Halloc) Hin Hc.
  destruct (Halloc h Hin Hc) as [n Hn]. exists n.
  destruct (Hcount _ _ Hn) as [-> Hpos].
  pose proof (owners_bounds ctr (ctr h) l). repeat split; (done || lia).
Qed.

(** ** Clients of the Host strategy: the counters count the owners *)

Lemma host_increment_map p s :
  (Host.m_numReferences p = nullptr ∨
   ∃ n, counters s !! Host.m_numReferences p = Some n ∧ 0 ≤ n < SIZE_MAX) →
  ∃ s', Host.incrementReferenceCount p s = Ok tt s' ∧
        counters s' = inc_map (Host.m_numReferences p) (counters s).
Proof.
  unfold inc_map. destruct (decide (Host.m_numReferences p = nullptr)) as [Hc | Hc].
  - intros _. exists s. unfold Host.incrementReferenceCount.
    now rewrite decide_False by (intros H; done).
  - intros [Hnull | (n & Hn & Hb)]; [done|]. rewrite Hn.
    rewrite (host_increment_Ok _ _ _ Hc Hn), size_wrap_small by lia.
    eexists. split; reflexivity.
Qed.

Lemma host_decrement_map p s :
  (Host.m_numReferences p = nullptr ∨
   ∃ n, counters s !! Host.m_numReferences p = Some n ∧ 1 ≤ n ≤ SIZE_MAX) →
  ∃ s', Host.decrementReferenceCount p s = Ok tt s' ∧
        counters s' = dec_map (Host.m_numReferences p) (counters s).
Proof.
  unfold dec_map. destruct (decide (Host.m_numReferences p = nullptr)) as [Hc | Hc].
  - intros _. exists s. unfold Host.decrementReferenceCount.
    now rewrite decide_False by (intros H; done).
  - intros [Hnull | (n & Hn & Hb)]; [done|]. rewrite Hn.
    destruct (decide (n = 1)) as [-> | Hn1].
    + rewrite (host_decrement_release _ _ _ Hc Hn) by reflexivity.
      destruct (delete_host_counters (Host.m_cpu p)
        (log (EvDeleteCounter (Host.m_numReferences p))
           (set_counters (delete (Host.m_numReferences p)) s))) as (s' & -> & Hs').
      exists s'. split; [done|]. now rewrite Hs'.
    + rewrite (host_decrement_keep _ _ _ Hc Hn);
        rewrite size_wrap_small by lia; [|lia].
      eexists. split; reflexivity.
Qed.

(** What the owner-adding constructors and the casts have in common. *)
Lemma host_build_shares a h s :
  (Host.m_numReferences h = nullptr ∨
   ∃ n, counters s !! Host.m_numReferences h = Some n ∧ 0 ≤ n < SIZE_MAX) →
  ∃ s', (Host.incrementReferenceCount (Host.Build a (Host.m_numReferences h)) ;;
         ret (Host.Build a (Host.m_numReferences h))) s =
          Ok (Host.Build a (Host.m_numReferences h)) s' ∧
        counters s' = inc_map (Host.m_numReferences h) (counters s).
Proof.
  intros Hpre.
  destruct (host_increment_map (Host.Build a (Host.m_numReferences h)) s Hpre)
    as (s' & Hinc & Hmap).
  exists s'. now rewrite (bind_Ok _ _ _ _ _ Hinc).
Qed.

Lemma host_counted_pre l s h :
  counted Host.m_numReferences l (counters s) →
  Z.of_nat (length l) < SIZE_MAX → h ∈ l →
  (Host.m_numReferences h = nullptr ∨
   ∃ n, counters s !! Host.m_numReferences h = Some n ∧ 1 ≤ n < SIZE_MAX).
Proof.
  intros Hcounted Hlen Hin.
  destruct (decide (Host.m_numReferences h = nullptr)) as [|Hc]; [by left | right].
  destruct (counted_lookup _ l _ h Hcounted Hin Hc) as (n & Hn & _ & Hb).
  exists n. split; [done | lia].
Qed.

Lemma host_pre_weaken_inc (c : Z) (cs : gmap Z Z) :
  (c = nullptr ∨ ∃ n, cs !! c = Some n ∧ 1 ≤ n < SIZE_MAX) →
  (c = nullptr ∨ ∃ n, cs !! c = Some n ∧ 0 ≤ n < SIZE_MAX).
Proof. intros [?|(n & ? & ?)]; [by left | right; exists n; split; [done | lia]]. Qed.

Lemma host_pre_weaken_dec (c : Z) (cs : gmap Z Z) :
  (c = nullptr ∨ ∃ n, cs !! c = Some n ∧ 1 ≤ n < SIZE_MAX) →
  (c = nullptr ∨ ∃ n, cs !! c = Some n ∧ 1 ≤ n ≤ SIZE_MAX).
Proof. intros [?|(n & ? & ?)]; [by left | right; exists n; split; [done | lia]]. Qed.

Lemma host_pre_allocated (c : Z) (cs : gmap Z Z) :
  (c = nullptr ∨ ∃ n, cs !! c = Some n ∧ 1 ≤ n < SIZE_MAX) →
  (c = nullptr ∨ is_Some (cs !! c)).
Proof. intros [?|(n & ? & ?)]; [by left | right; by exists n]. Qed.

(** A new owner built from the pointer at [i]. *)
Lemma host_construct_counted a l s i h :
  counted Host.m_numReferences l (counters s) →
  Z.of_nat (length l) < SIZE_MAX → l !! i = Some h →
  ∃ s', (Host.incrementReferenceCount (Host.Build a (Host.m_numReferences h)) ;;
         ret (Host.Build a (Host.m_numReferences h))) s =
          Ok (Host.Build a (Host.m_numReferences h)) s' ∧
        counted Host.m_numReferences
          (Host.Build a (Host.m_numReferences h) :: l) (counters s').
Proof.
  intros Hcounted Hlen Hi.
  pose proof (host_counted_pre l s h Hcounted Hlen
                (list_elem_of_lookup_2 _ _ _ Hi)) as Hpre.
  destruct (host_build_shares a h s (host_pre_weaken_inc _ _ Hpre))
    as (s' & Hrun & Hmap).
  exists s'. split; [done|]. rewrite Hmap.
  apply (counted_cons_share Host.m_numReferences Host.managed_ptr_default eq_refl
           l (counters s) (Host.Build a (Host.m_numReferences h)) Hcounted).
  now apply host_pre_allocated.
Qed.

Lemma host_new_object_counters args s a s' :
  new_object args s = Ok a s' → counters s' = counters s.
Proof. unfold new_object. now intros [= <- <-]. Qed.

Lemma host_raw_counted conv hostPtr l s :
  counted Host.m_numReferences l (counters s) →
  ∃ p s', Host.managed_ptr_raw conv hostPtr s = Ok p s' ∧
          counted Host.m_numReferences (p :: l) (counters s').
Proof.
  intros Hcounted. eexists _, _. split; [reflexivity|]. simpl.
  apply (counted_cons_fresh Host.m_numReferences Host.managed_ptr_default eq_refl
           l (counters s) (Host.Build _ _) Hcounted); simpl.
  - apply new_addr_fresh.
  - apply new_addr_counters.
Qed.

(** [l[i] = l[j]] for two different objects: the old value of [l[i]]
    lets go, then the new value takes a share of the counter of [l[j]]. *)
Lemma host_assign_counted l s i j this other p :
  counted Host.m_numReferences l (counters s) →
  Z.of_nat (length l) < SIZE_MAX →
  l !! i = Some this → l !! j = Some other → i ≠ j →
  Host.m_numReferences p = Host.m_numReferences other →
  ∃ l' s',
    (let* p' := (Host.decrementReferenceCount this ;;
                 Host.incrementReferenceCount p ;; ret p) in
     ret (<[i := p']> l)) s = Ok l' s' ∧
    counted Host.m_numReferences l' (counters s') ∧
    (length l' ≤ S (length l))%nat.
Proof.
  intros Hcounted Hlen Hi Hj Hij Hp.
  pose proof (host_counted_pre l s this Hcounted Hlen
                (list_elem_of_lookup_2 _ _ _ Hi)) as Hpre.
  destruct (host_decrement_map this s (host_pre_weaken_dec _ _ Hpre))
    as (s1 & Hdec & Hmap1).
  pose proof (counted_detach Host.m_numReferences Host.managed_ptr_default eq_refl
                l (counters s) i this Hcounted Hi) as Hdetached.
  rewrite <- Hmap1 in Hdetached.
  set (l1 := <[i := Host.managed_ptr_default]> l) in Hdetached.
  assert (length l1 = length l) as Hlen1 by apply length_insert.
  assert (l1 !! j = Some other) as Hj1
    by (subst l1; now rewrite list_lookup_insert_ne).
  pose proof (host_counted_pre l1 s1 other Hdetached ltac:(lia)
                (list_elem_of_lookup_2 _ _ _ Hj1)) as Hpre1.
  rewrite <- Hp in Hpre1.
  destruct (host_increment_map p s1 (host_pre_weaken_inc _ _ Hpre1))
    as (s2 & Hinc & Hmap2).
  exists (<[i := p]> l), s2.
  unfold bind at 1. unfold bind at 1. rewrite Hdec.
  unfold bind at 1. rewrite Hinc. split; [done|]. split.
  - rewrite Hmap2. rewrite <- (list_insert_insert_eq l i p Host.managed_ptr_default).
    apply (counted_attach Host.m_numReferences l1 _ i Host.managed_ptr_default p);
      [done | | done | now apply host_pre_allocated].
    subst l1. apply list_lookup_insert_eq. eapply lookup_lt_Some, Hi.
  - rewrite length_insert. lia.
Qed.

(** One statement of a client runs to the end and keeps the accounting. *)
Lemma host_step_counted op l s :
  counted Host.m_numReferences l (counters s) →
  Z.of_nat (length l) < SIZE_MAX →
  ∃ l' s', host_step op l s = Ok l' s' ∧
           counted Host.m_numReferences l' (counters s') ∧
           (length l' ≤ S (length l))%nat.
Proof.
  intros Hcounted Hlen.
  assert (∀ a i h, l !! i = Some h →
            ∃ l' s',
              (let* p := (Host.incrementReferenceCount
                            (Host.Build a (Host.m_numReferences h)) ;;
                          ret (Host.Build a (Host.m_numReferences h))) in
               ret (p :: l)) s = Ok l' s' ∧
              counted Host.m_numReferences l' (counters s') ∧
              (length l' ≤ S (length l))%nat) as Hconstruct.
  { intros a i h Hi.
    destruct (host_construct_counted a l s i h Hcounted Hlen Hi) as (s' & Hrun & Hc).
    eexists _, s'. rewrite (bind_Ok _ _ _ _ _ Hrun). split; [reflexivity|].
    split; [done | simpl; lia]. }
  assert (∃ l' s', ret l s = Ok l' s' ∧
            counted Host.m_numReferences l' (counters s') ∧
            (length l' ≤ S (length l))%nat) as Hskip.
  { exists l, s. split; [done|]. split; [done | lia]. }
  destruct op as [args | | conv hostPtr | i | conv i | i hostPtr | cast i | cast i
                 | cast i | cast i | i j | conv i j | i]; simpl.
  - (* make_managed *)
    unfold Host.make_managed.
    destruct (host_raw_counted same_address (new_addr (host_used s)) l
                (set_objects (insert (new_addr (host_used s)) args) s) Hcounted)
      as (p & s' & Hrun & Hc).
    exists (p :: l), s'. split; [|split; [done | simpl; lia]].
    unfold bind at 1. unfold bind at 1. unfold new_object.
    now rewrite Hrun.
  - (* default constructor *)
    eexists _, s. split; [reflexivity|]. split; [|simpl; lia].
    now apply counted_cons_null.
  - (* raw-pointer constructor *)
    destruct (host_raw_counted conv hostPtr l s Hcounted) as (p & s' & Hrun & Hc).
    exists (p :: l), s'. rewrite (bind_Ok _ _ _ _ _ Hrun).
    split; [done|]. split; [done | simpl; lia].
  - destruct (l !! i) as [h|] eqn:Hi; [|done].
    apply (Hconstruct (Host.m_cpu h) i h Hi).
  - destruct (l !! i) as [h|] eqn:Hi; [|done].
    apply (Hconstruct (conv (Host.m_cpu h)) i h Hi).
  - destruct (l !! i) as [h|] eqn:Hi; [|done].
    apply (Hconstruct hostPtr i h Hi).
  - destruct (l !! i) as [h|] eqn:Hi; [|done].
    apply (Hconstruct (cast (Host.get h)) i h Hi).
  - destruct (l !! i) as [h|] eqn:Hi; [|done].
    unfold Host.dynamic_pointer_cast.
    destruct (decide (cast (Host.get h) ≠ nullptr)).
    + apply (Hconstruct (cast (Host.get h)) i h Hi).
    + eexists _, s. split; [reflexivity|]. split; [|simpl; lia].
      now apply counted_cons_null.
  - destruct (l !! i) as [h|] eqn:Hi; [|done].
    apply (Hconstruct (cast (Host.get h)) i h Hi).
  - destruct (l !! i) as [h|] eqn:Hi; [|done].
    apply (Hconstruct (cast (Host.get h)) i h Hi).
  - (* copy assignment *)
    destruct (l !! i) as [this|] eqn:Hi; [|done].
    destruct (l !! j) as [other|] eqn:Hj; [|done].
    destruct (decide (i = j)) as [-> | Hij].
    { rewrite bool_decide_eq_true_2 by done. unfold Host.operator_assign. simpl.
      exists l, s. unfold bind, ret. rewrite list_insert_id by done.
      split; [done|]. split; [done | lia]. }
    rewrite bool_decide_eq_false_2 by done.
    unfold Host.operator_assign. simpl. rewrite host_copy_eta.
    apply (host_assign_counted l s i j this other other); try done.
  - (* converting assignment *)
    destruct (l !! i) as [this|] eqn:Hi; [|done].
    destruct (l !! j) as [other|] eqn:Hj; [|done].
    destruct (decide (i = j)) as [-> | Hij]; [done|].
    unfold Host.operator_assign_converting.
    apply (host_assign_counted l s i j this other
             (Host.Build (conv (Host.m_cpu other)) (Host.m_numReferences other)));
      try done.
  - (* destructor *)
    destruct (l !! i) as [h|] eqn:Hi; [|done].
    pose proof (host_counted_pre l s h Hcounted Hlen
                  (list_elem_of_lookup_2 _ _ _ Hi)) as Hpre.
    destruct (host_decrement_map h s (host_pre_weaken_dec _ _ Hpre))
      as (s' & Hdec & Hmap).
    exists (delete i l), s'. unfold Host.managed_ptr_dtor.
    rewrite (bind_Ok _ _ _ _ _ Hdec). split; [done|]. split.
    + rewrite Hmap.
      now apply (counted_delete Host.m_numReferences Host.managed_ptr_default eq_refl).
    + rewrite length_delete by (by eexists). lia.
Qed.

(** A whole client runs to the end and keeps the accounting. *)
Lemma host_run_counted prog : ∀ l s,
  counted Host.m_numReferences l (counters s) →
  Z.of_nat (length l) + Z.of_nat (length prog) ≤ SIZE_MAX →
  ∃ l' s', host_run prog l s = Ok l' s' ∧
           counted Host.m_numReferences l' (counters s').
Proof.
  induction prog as [|op rest IH]; intros l s Hcounted Hlen.
  - exists l, s. done.
  - simpl in Hlen.
    destruct (host_step_counted op l s Hcounted ltac:(lia))
      as (l1 & s1 & Hstep & Hcounted1 & Hlen1).
    destruct (IH l1 s1 Hcounted1 ltac:(lia)) as (l' & s' & Hrun & Hcounted').
    exists l', s'. simpl. now rewrite (bind_Ok _ _ _ _ _ Hstep).
Qed.

Lemma counted_initial {H : Type} (ctr : H → Z) : counted ctr [] (counters initial).
Proof.
  split; [done|]. split; [intros c n Hn; done | intros h Hin; by apply elem_of_nil in Hin].
Qed.

(** In every state a client can reach, [use_count()] of a live pointer
    with a counter is the number of live pointers that hold that counter. *)
Lemma host_use_count_is_owners prog :
  Z.of_nat (length prog) ≤ SIZE_MAX →
  ∃ l s, host_run prog [] initial = Ok l s ∧
    ∀ p, p ∈ l → Host.m_numReferences p ≠ nullptr →
      Host.use_count p s =
        Ok (owners Host.m_numReferences (Host.m_numReferences p) l) s ∧
      1 ≤ owners Host.m_numReferences (Host.m_numReferences p) l.
Proof.
  intros Hlen.
  destruct (host_run_counted prog [] initial (counted_initial _) ltac:(simpl; lia))
    as (l & s & Hrun & Hcounted).
  exists l, s. split; [done|]. intros p Hin Hc.
  destruct (counted_lookup _ l _ p Hcounted Hin Hc) as (n & Hn & -> & Hb).
  split; [now apply host_use_count_Ok | lia].
Qed.

(** ** Managed strategy: the life of one lineage *)

Lemma managed_copy_Ok p s n :
  Managed.m_numReferences p ≠ nullptr →
  counters s !! Managed.m_numReferences p = Some n →
  Managed.registered p s →
  Managed.managed_ptr_copy HostCode p s =
    Ok p (log (EvCopier (Managed.m_copyArguments p))
            (set_counters
               (insert (Managed.m_numReferences p) (size_wrap (n + 1))) s)).
Proof.
  intros Hc Hn Hreg. unfold Managed.managed_ptr_copy. rewrite managed_copy_eta.
  simpl. now rewrite (bind_Ok _ _ _ _ _ (managed_increment_Ok _ _ _ Hc Hn Hreg)).
Qed.

Lemma managed_copies_Ok N : ∀ p s n,
  Managed.m_numReferences p ≠ nullptr →
  counters s !! Managed.m_numReferences p = Some n →
  Managed.registered p s →
  0 ≤ n → n + Z.of_nat N ≤ SIZE_MAX →
  managed_copies N p s =
    Ok (replicate N p)
       (State (<[Managed.m_numReferences p := n + Z.of_nat N]> (counters s))
          (objects s) (tuples s) (device s)
          (trace s ++ replicate N (EvCopier (Managed.m_copyArguments p)))).
Proof.
  induction N as [|N IH]; intros p s n Hc Hn Hreg H0 Hmax.
  - simpl. unfold ret. f_equal. rewrite Z.add_0_r, app_nil_r.
    rewrite insert_id by done. now destruct s.
  - cbn [managed_copies replicate].
    rewrite (bind_Ok _ _ _ _ _ (managed_copy_Ok _ _ _ Hc Hn Hreg)).
    rewrite size_wrap_small by lia.
    erewrite bind_Ok; last (apply (IH p _ (n + 1)); simpl;
      [done | apply lookup_insert_eq | exact Hreg | lia | lia]).
    unfold ret. simpl. f_equal. f_equal.
    + rewrite insert_insert_eq. f_equal. lia.
    + now rewrite <- app_assoc.
Qed.

Lemma managed_dtor_keep p s n :
  Managed.m_numReferences p ≠ nullptr →
  counters s !! Managed.m_numReferences p = Some n →
  2 ≤ n ≤ SIZE_MAX →
  Managed.managed_ptr_dtor HostCode p s =
    Ok tt (set_counters (insert (Managed.m_numReferences p) (n - 1)) s).
Proof.
  intros Hc Hn Hb. unfold Managed.managed_ptr_dtor. simpl.
  rewrite (managed_decrement_keep _ _ _ Hc Hn); rewrite size_wrap_small; (done || lia).
Qed.

Lemma managed_destroy_keep K : ∀ p s n,
  Managed.m_numReferences p ≠ nullptr →
  counters s !! Managed.m_numReferences p = Some n →
  Z.of_nat K < n → n ≤ SIZE_MAX →
  managed_destroy (replicate K p) s =
    Ok tt (set_counters
             (insert (Managed.m_numReferences p) (n - Z.of_nat K)) s).
Proof.
  induction K as [|K IH]; intros p s n Hc Hn HK Hmax.
  - simpl. unfold ret. f_equal. rewrite Z.sub_0_r.
    symmetry. now apply set_counters_insert_same.
  - cbn [managed_destroy replicate].
    erewrite bind_Ok; last (apply (managed_dtor_keep _ _ n); (done || lia)).
    rewrite (IH p _ (n - 1)); simpl;
      [| done | apply lookup_insert_eq | lia | lia].
    rewrite set_counters_insert_twice. do 3 f_equal. lia.
Qed.

Lemma managed_destroy_app l1 l2 s s' :
  managed_destroy l1 s = Ok tt s' →
  managed_destroy (l1 ++ l2) s = managed_destroy l2 s'.
Proof.
  revert s. induction l1 as [|x l1 IH]; intros s H; cbn [managed_destroy app] in *.
  - unfold ret in H. now injection H as ->.
  - unfold bind in *.
    destruct (Managed.managed_ptr_dtor HostCode x s) as [[] s1|u];
      [now apply IH | discriminate H].
Qed.

(** From the factory to the last destructor: a lineage of a pointer made by
    [make_managed] and N copies of it, all destroyed in host code.  The run
    succeeds; the trace is the construction kernel, one copy callback per
    copy, and then one release: the counter, the release callback, one host
    deletion, one launch with one device deletion, one wait.  Nothing of the
    lineage is left allocated. *)
Lemma managed_lineage_lifetime args s (N : nat) :
  Z.of_nat N < SIZE_MAX →
  ∃ p s1 s2 s3,
    Managed.make_managed args s = Ok p s1 ∧
    managed_copies N p s1 = Ok (replicate N p) s2 ∧
    managed_destroy (p :: replicate N p) s2 = Ok tt s3 ∧
    trace s3 =
      trace s ++ [EvLaunch K_make_on_device; EvSynchronize] ++
      replicate N (EvCopier (Managed.m_copyArguments p)) ++
      [EvDeleteCounter (Managed.m_numReferences p);
       EvDeleter (Managed.m_copyArguments p);
       EvDeleteHost (Managed.m_cpu p);
       EvLaunch K_destroy_on_device;
       EvDeleteDevice (Managed.m_gpu p);
       EvSynchronize] ∧
    counters s3 !! Managed.m_numReferences p = None ∧
    objects s3 !! Managed.m_cpu p = None ∧
    device s3 !! Managed.m_gpu p = None ∧
    tuples s3 !! Managed.m_copyArguments p = None.
Proof.
  intros HN.
  pose proof (managed_make_managed_Ok args s) as Hmake. cbv zeta in Hmake.
  set (p := Managed.Build _ _ _ _ _ _) in Hmake.
  set (s1 := set_tuples _ _) in Hmake.
  assert (Managed.m_numReferences p ≠ nullptr) as Hc by apply new_addr_fresh.
  assert (Managed.m_cpu p ≠ nullptr) as Hcpu by apply new_addr_fresh.
  assert (Managed.m_gpu p ≠ nullptr) as Hgpu by apply new_addr_fresh.
  assert (Managed.m_copyArguments p ≠ nullptr) as Ht by apply new_addr_fresh.
  assert (counters s1 !! Managed.m_numReferences p = Some 1) as H1
    by apply lookup_insert_eq.
  assert (Managed.registered p s1) as Hreg.
  { repeat split; try done. simpl. rewrite lookup_insert_eq. by eexists. }
  pose proof (managed_copies_Ok N p s1 1 Hc H1 Hreg ltac:(lia) ltac:(lia)) as Hcopies.
  set (s2 := State _ _ _ _ _) in Hcopies.
  assert (counters s2 !! Managed.m_numReferences p = Some (1 + Z.of_nat N)) as H2
    by apply lookup_insert_eq.
  pose proof (managed_destroy_keep N p s2 _ Hc H2 ltac:(lia) ltac:(lia)) as Hkeep.
  set (s2' := set_counters _ s2) in Hkeep.
  assert (counters s2' !! Managed.m_numReferences p = Some 1) as H2'.
  { subst s2'. simpl. rewrite lookup_insert_eq. f_equal. lia. }
  assert (is_Some (tuples s2' !! Managed.m_copyArguments p)) as Halive
    by apply Hreg.
  pose proof (managed_release_registered p s2' 1 Hc H2' eq_refl eq_refl Ht Halive)
    as Hlast.
  exists p, s1, s2. eexists.
  split; [exact Hmake|]. split; [exact Hcopies|]. split.
  { change (p :: replicate N p) with (replicate (S N) p).
    rewrite replicate_S_end.
    rewrite (managed_destroy_app _ _ _ _ Hkeep). simpl.
    unfold Managed.managed_ptr_dtor. simpl.
    rewrite (bind_Ok _ _ _ _ _ Hlast). reflexivity. }
  rewrite decide_False by done. rewrite decide_False by done.
  unfold Managed.release_events.
  rewrite decide_False by done. rewrite decide_False by done.
  simpl. repeat split.
  - repeat rewrite <- app_assoc. reflexivity.
  - apply lookup_delete_eq.
  - apply lookup_delete_eq.
  - apply lookup_delete_eq.
  - apply lookup_delete_eq.
Qed.

(** ** Clients of the Managed strategy: counters and callbacks *)

Lemma managed_increment_map q s :
  (Managed.m_numReferences q = nullptr ∨
   (∃ n, counters s !! Managed.m_numReferences q = Some n ∧ 0 ≤ n < SIZE_MAX) ∧
   Managed.registered q s) →
  ∃ s', Managed.incrementReferenceCount q s = Ok tt s' ∧
        counters s' = inc_map (Managed.m_numReferences q) (counters s) ∧
        tuples s' = tuples s.
Proof.
  unfold inc_map.
  destruct (decide (Managed.m_numReferences q = nullptr)) as [Hc | Hc].
  - intros _. exists s. now rewrite managed_increment_null.
  - intros [Hnull | [(n & Hn & Hb) Hreg]]; [done|]. rewrite Hn.
    rewrite (managed_increment_Ok _ _ _ Hc Hn Hreg), size_wrap_small by lia.
    eexists. repeat split; reflexivity.
Qed.

Lemma managed_decrement_map h s :
  (Managed.m_numReferences h = nullptr ∨
   (∃ n, counters s !! Managed.m_numReferences h = Some n ∧ 1 ≤ n ≤ SIZE_MAX) ∧
   Managed.registered h s) →
  ∃ s', Managed.decrementReferenceCount h s = Ok tt s' ∧
        counters s' = dec_map (Managed.m_numReferences h) (counters s) ∧
        (tuples s' = tuples s ∨
         (Managed.m_numReferences h ≠ nullptr ∧
          counters s !! Managed.m_numReferences h = Some 1 ∧
          tuples s' = delete (Managed.m_copyArguments h) (tuples s))).
Proof.
  unfold dec_map.
  destruct (decide (Managed.m_numReferences h = nullptr)) as [Hc | Hc].
  - intros _. exists s. rewrite managed_decrement_null by done. auto.
  - intros [Hnull | [(n & Hn & Hb) (_ & Hdel & Ht & Halive)]]; [done|]. rewrite Hn.
    destruct (decide (n = 1)) as [-> | Hn1].
    + rewrite (managed_release_registered _ _ _ Hc Hn eq_refl Hdel Ht Halive).
      eexists. split; [reflexivity|]. split; [reflexivity|]. right. done.
    + rewrite (managed_decrement_keep _ _ _ Hc Hn);
        rewrite size_wrap_small by lia; [|lia].
      eexists. split; [reflexivity|]. split; [reflexivity|]. by left.
Qed.

Lemma managed_registered_ext h s s' :
  tuples s' = tuples s → Managed.registered h s → Managed.registered h s'.
Proof. unfold Managed.registered. now intros ->. Qed.

Lemma managed_inv_ext l s s' :
  counters s' = counters s → tuples s' = tuples s →
  managed_inv l s → managed_inv l s'.
Proof.
  intros Hc Ht (Hcounted & Hreg & Hown). unfold managed_inv. rewrite Hc.
  split; [done|]. split; [|done].
  intros h Hin Hh. apply (managed_registered_ext h s s' Ht). now apply Hreg.
Qed.

Lemma managed_inv_cons_null l s h :
  managed_inv l s → Managed.m_numReferences h = nullptr → managed_inv (h :: l) s.
Proof.
  intros (Hcounted & Hreg & Hown) Hh. split; [now apply counted_cons_null|]. split.
  - intros h' [-> | Hin]%elem_of_cons Hc; [done | by apply Hreg].
  - intros h1 h2 [-> | Hin1]%elem_of_cons [-> | Hin2]%elem_of_cons; try done.
    by apply Hown.
Qed.

Lemma managed_inv_delete_null l s i h :
  managed_inv l s → l !! i = Some h → Managed.m_numReferences h = nullptr →
  managed_inv (delete i l) s.
Proof.
  intros (Hcounted & Hreg & Hown) Hi Hh.
  split; [now apply (counted_delete_null _ l _ i h)|]. split.
  - intros h' Hin. apply Hreg. eapply list_elem_of_delete_inv, Hin.
  - intros h1 h2 Hin1 Hin2. apply Hown; eapply list_elem_of_delete_inv; eauto.
Qed.

(** The pointer at [i] has run its decrement. *)
Lemma managed_inv_detach l s s' i h :
  managed_inv l s → l !! i = Some h →
  counters s' = dec_map (Managed.m_numReferences h) (counters s) →
  (tuples s' = tuples s ∨
   (Managed.m_numReferences h ≠ nullptr ∧
    counters s !! Managed.m_numReferences h = Some 1 ∧
    tuples s' = delete (Managed.m_copyArguments h) (tuples s))) →
  managed_inv (<[i := Managed.managed_ptr_default]> l) s'.
Proof.
  intros (Hcounted & Hreg & Hown) Hi Hcs Hts.
  pose proof (counted_detach Managed.m_numReferences Managed.managed_ptr_default
                eq_refl l (counters s) i h Hcounted Hi) as Hdetached.
  rewrite <- Hcs in Hdetached.
  assert (∀ h', h' ∈ <[i := Managed.managed_ptr_default]> l →
                Managed.m_numReferences h' ≠ nullptr → h' ∈ l) as Hin.
  { intros h' [-> | Hin]%elem_of_insert_inv Hc; done. }
  split; [done|]. split.
  - intros h' Hh' Hc. pose proof (Hreg h' (Hin h' Hh' Hc) Hc) as Hr.
    destruct Hts as [Hts | (Hh & Hone & Hts)];
      [now apply (managed_registered_ext h' s s')|].
    destruct Hr as (Hcop & Hdel & Hnn & Halive).
    repeat split; try done. rewrite Hts.
    rewrite lookup_delete_ne; [done|]. intros E.
    assert (Managed.m_numReferences h = Managed.m_numReferences h') as Ec.
    { apply Hown; auto. eapply list_elem_of_lookup_2, Hi. }
    destruct Hdetached as (_ & _ & Halloc).
    destruct (Halloc h' Hh' Hc) as [m Hm].
    rewrite Hcs, <- Ec in Hm. unfold dec_map in Hm.
    rewrite decide_False, Hone, decide_True, lookup_delete_eq in Hm by done.
    discriminate.
  - intros h1 h2 Hin1 Hin2 Hc1 Hc2. apply Hown; auto.
Qed.

(** The pointer at [i], which holds no counter, has taken the fields of a
    live pointer [h] and run its increment. *)
Lemma managed_inv_attach l s s' i h0 h p :
  managed_inv l s → l !! i = Some h0 →
  Managed.m_numReferences h0 = nullptr →
  h ∈ l →
  Managed.m_numReferences p = Managed.m_numReferences h →
  Managed.m_copyArguments p = Managed.m_copyArguments h →
  Managed.m_copier p = Managed.m_copier h →
  Managed.m_deleter p = Managed.m_deleter h →
  counters s' = inc_map (Managed.m_numReferences p) (counters s) →
  tuples s' = tuples s →
  managed_inv (<[i := p]> l) s'.
Proof.
  intros (Hcounted & Hreg & Hown) Hi Hh0 Hh Ec Ea Ecop Edel Hcs Hts.
  split; [|split].
  - rewrite Hcs. apply (counted_attach _ l _ i h0 p); try done.
    destruct (decide (Managed.m_numReferences p = nullptr)); [by left | right].
    rewrite Ec. destruct Hcounted as (_ & _ & Halloc). apply Halloc; congruence.
  - intros h' Hh' Hc. apply (managed_registered_ext h' s s' Hts).
    apply elem_of_insert_inv in Hh' as [-> | Hin]; [|by apply Hreg].
    unfold Managed.registered. rewrite Ea, Ecop, Edel.
    apply Hreg; congruence.
  - intros h1 h2 Hin1 Hin2 Hc1 Hc2 E.
    apply elem_of_insert_inv in Hin1 as [-> | Hin1];
      apply elem_of_insert_inv in Hin2 as [-> | Hin2]; try done.
    + rewrite Ec. apply Hown; congruence.
    + rewrite Ec. symmetry. apply Hown; congruence.
    + by apply Hown.
Qed.

Lemma managed_inv_pre l s h :
  managed_inv l s → Z.of_nat (length l) < SIZE_MAX → h ∈ l →
  Managed.m_numReferences h = nullptr ∨
  (∃ n, counters s !! Managed.m_numReferences h = Some n ∧ 1 ≤ n < SIZE_MAX) ∧
  Managed.registered h s.
Proof.
  intros (Hcounted & Hreg & _) Hlen Hin.
  destruct (decide (Managed.m_numReferences h = nullptr)) as [|Hc]; [by left | right].
  destruct (counted_lookup _ l _ h Hcounted Hin Hc) as (n & Hn & _ & Hb).
  split; [exists n; split; [done | lia] | by apply Hreg].
Qed.

Lemma managed_registered_fields p h s :
  Managed.m_copyArguments p = Managed.m_copyArguments h →
  Managed.m_copier p = Managed.m_copier h →
  Managed.m_deleter p = Managed.m_deleter h →
  Managed.registered h s → Managed.registered p s.
Proof. unfold Managed.registered. now intros -> -> ->. Qed.

(** The increment of a new value [p] that took its ownership fields from
    the live pointer [h]. *)
Lemma managed_share_Ok l s h p :
  managed_inv l s → Z.of_nat (length l) < SIZE_MAX → h ∈ l →
  Managed.m_numReferences p = Managed.m_numReferences h →
  Managed.m_copyArguments p = Managed.m_copyArguments h →
  Managed.m_copier p = Managed.m_copier h →
  Managed.m_deleter p = Managed.m_deleter h →
  ∃ s', Managed.incrementReferenceCount p s = Ok tt s' ∧
        counters s' = inc_map (Managed.m_numReferences p) (counters s) ∧
        tuples s' = tuples s.
Proof.
  intros Hinv Hlen Hin Ec Ea Ecop Edel.
  apply managed_increment_map.
  destruct (managed_inv_pre l s h Hinv Hlen Hin) as [Hnull | [(n & Hn & Hb) Hreg]].
  - left. congruence.
  - right. split.
    + exists n. rewrite Ec. split; [done | lia].
    + now apply (managed_registered_fields p h).
Qed.

(** A new owner built from the pointer at [i], possibly after a cast
    kernel has run. *)
Lemma managed_construct_inv l s s0 i h p :
  managed_inv l s → Z.of_nat (length l) < SIZE_MAX → l !! i = Some h →
  counters s0 = counters s → tuples s0 = tuples s →
  Managed.m_numReferences p = Managed.m_numReferences h →
  Managed.m_copyArguments p = Managed.m_copyArguments h →
  Managed.m_copier p = Managed.m_copier h →
  Managed.m_deleter p = Managed.m_deleter h →
  ∃ s', (Managed.host_only HostCode (Managed.incrementReferenceCount p) ;;
         ret p) s0 = Ok p s' ∧
        managed_inv (p :: l) s'.
Proof.
  intros Hinv Hlen Hi Hcs Hts Ec Ea Ecop Edel.
  pose proof (managed_inv_ext l s s0 Hcs Hts Hinv) as Hinv0.
  pose proof (list_elem_of_lookup_2 _ _ _ Hi) as Hin.
  destruct (managed_share_Ok l s0 h p Hinv0 Hlen Hin Ec Ea Ecop Edel)
    as (s' & Hinc & Hcs' & Hts').
  exists s'. simpl. rewrite (bind_Ok _ _ _ _ _ Hinc). split; [done|].
  apply (managed_inv_attach (Managed.managed_ptr_default :: l) s0 s' 0
           Managed.managed_ptr_default h p); try done.
  - now apply managed_inv_cons_null.
  - by apply list_elem_of_further.
Qed.

Lemma managed_pointer_cast_on_device_Ok k cast other s :
  Managed.pointer_cast_on_device k cast other s =
    Ok (cast (Managed.m_gpu other)) (log EvSynchronize (log (EvLaunch k) s)).
Proof. reflexivity. Qed.

(** A new pointer from [make_managed]. *)
Lemma managed_make_inv l s args :
  managed_inv l s →
  ∃ p s', Managed.make_managed args s = Ok p s' ∧ managed_inv (p :: l) s'.
Proof.
  intros (Hcounted & Hreg & Hown).
  pose proof (managed_make_managed_Ok args s) as Hmake. cbv zeta in Hmake.
  set (p := Managed.Build _ _ _ _ _ _) in Hmake.
  set (s' := set_tuples _ _) in Hmake.
  exists p, s'. split; [exact Hmake|].
  set (c := Managed.m_numReferences p). set (t := Managed.m_copyArguments p).
  assert (c ≠ nullptr) as Hc by apply new_addr_fresh.
  assert (t ≠ nullptr) as Ht by apply new_addr_fresh.
  assert (counters s !! c = None) as Hcfresh.
  { subst c p. simpl. match goal with |- _ !! new_addr (host_used ?x) = _ =>
      apply (new_addr_counters x) end. }
  assert (tuples s !! t = None) as Htfresh.
  { subst t p. simpl. match goal with |- _ !! new_addr (host_used ?x) = _ =>
      apply (new_addr_tuples x) end. }
  assert (counters s' = <[c := 1]> (counters s)) as Hcs by reflexivity.
  assert (tuples s' = <[t := args]> (tuples s)) as Hts by reflexivity.
  split; [|split].
  - rewrite Hcs.
    now apply (counted_cons_fresh Managed.m_numReferences
                 Managed.managed_ptr_default eq_refl l (counters s) p).
  - intros h [-> | Hin]%elem_of_cons Hh.
    + repeat split; try done. fold t. rewrite Hts, lookup_insert_eq. by eexists.
    + destruct (Hreg h Hin Hh) as (Hcop & Hdel & Hnn & Halive).
      repeat split; try done. rewrite Hts.
      apply lookup_insert_is_Some'. by right.
  - assert (∀ h, h ∈ l → Managed.m_numReferences h ≠ nullptr →
                 Managed.m_copyArguments h ≠ t) as Hne.
    { intros h Hin Hh E. destruct (Hreg h Hin Hh) as (_ & _ & _ & [x Hx]).
      rewrite E in Hx. congruence. }
    intros h1 h2 [-> | Hin1]%elem_of_cons [-> | Hin2]%elem_of_cons Hc1 Hc2 E;
      try done.
    + exfalso. apply (Hne h2 Hin2 Hc2). now symmetry.
    + exfalso. now apply (Hne h1 Hin1 Hc1).
    + by apply Hown.
Qed.

(** [l[i] = l[j]] for two different objects. *)
Lemma managed_assign_inv l s i j this other p :
  managed_inv l s → Z.of_nat (length l) < SIZE_MAX →
  l !! i = Some this → l !! j = Some other → i ≠ j →
  Managed.m_numReferences p = Managed.m_numReferences other →
  Managed.m_copyArguments p = Managed.m_copyArguments other →
  Managed.m_copier p = Managed.m_copier other →
  Managed.m_deleter p = Managed.m_deleter other →
  ∃ l' s',
    (let* p' := (Managed.host_only HostCode (Managed.decrementReferenceCount this) ;;
                 Managed.host_only HostCode (Managed.incrementReferenceCount p) ;;
                 ret p) in
     ret (<[i := p']> l)) s = Ok l' s' ∧
    managed_inv l' s' ∧ (length l' ≤ S (length l))%nat.
Proof.
  intros Hinv Hlen Hi Hj Hij Ec Ea Ecop Edel.
  pose proof (list_elem_of_lookup_2 _ _ _ Hi) as Hin_this.
  assert (Managed.m_numReferences this = nullptr ∨
          (∃ n, counters s !! Managed.m_numReferences this = Some n ∧
                1 ≤ n ≤ SIZE_MAX) ∧ Managed.registered this s) as Hpre.
  { destruct (managed_inv_pre l s this Hinv Hlen Hin_this)
      as [? | [(n & Hn & Hb) Hreg]]; [by left | right].
    split; [exists n; split; [done | lia] | done]. }
  destruct (managed_decrement_map this s Hpre) as (s1 & Hdec & Hcs1 & Hts1).
  pose proof (managed_inv_detach l s s1 i this Hinv Hi Hcs1 Hts1) as Hinv1.
  set (l1 := <[i := Managed.managed_ptr_default]> l) in Hinv1.
  assert (length l1 = length l) as Hlen1 by apply length_insert.
  assert (l1 !! j = Some other) as Hj1
    by (subst l1; now rewrite list_lookup_insert_ne).
  destruct (managed_share_Ok l1 s1 other p Hinv1 ltac:(lia)
              (list_elem_of_lookup_2 _ _ _ Hj1) Ec Ea Ecop Edel)
    as (s2 & Hinc & Hcs2 & Hts2).
  exists (<[i := p]> l), s2. simpl.
  unfold bind at 1. unfold bind at 1. rewrite Hdec.
  unfold bind at 1. rewrite Hinc. split; [done|]. split.
  - rewrite <- (list_insert_insert_eq l i p Managed.managed_ptr_default).
    apply (managed_inv_attach l1 s1 s2 i Managed.managed_ptr_default other p);
      try done.
    + subst l1. apply list_lookup_insert_eq. eapply lookup_lt_Some, Hi.
    + eapply list_elem_of_lookup_2, Hj1.
  - rewrite length_insert. lia.
Qed.

(** One statement of a client runs to the end and keeps the invariant. *)
Lemma managed_step_inv op l s :
  managed_inv l s → Z.of_nat (length l) < SIZE_MAX →
  ∃ l' s', managed_step op l s = Ok l' s' ∧ managed_inv l' s' ∧
           (length l' ≤ S (length l))%nat.
Proof.
  intros Hinv Hlen.
  assert (∀ i h p s0, l !! i = Some h →
            counters s0 = counters s → tuples s0 = tuples s →
            Managed.m_numReferences p = Managed.m_numReferences h →
            Managed.m_copyArguments p = Managed.m_copyArguments h →
            Managed.m_copier p = Managed.m_copier h →
            Managed.m_deleter p = Managed.m_deleter h →
            ∃ l' s',
              (let* p' := (Managed.host_only HostCode
                             (Managed.incrementReferenceCount p) ;; ret p) in
               ret (p' :: l)) s0 = Ok l' s' ∧
              managed_inv l' s' ∧ (length l' ≤ S (length l))%nat) as Hconstruct.
  { intros i h p s0 Hi Hcs Hts Ec Ea Ecop Edel.
    destruct (managed_construct_inv l s s0 i h p Hinv Hlen Hi Hcs Hts Ec Ea Ecop Edel)
      as (s' & Hrun & Hinv').
    exists (p :: l), s'. rewrite (bind_Ok _ _ _ _ _ Hrun).
    split; [done|]. split; [done | simpl; lia]. }
  assert (∀ k cast i h, l !! i = Some h →
            ∃ l' s',
              (let* p' := (let* devicePtr :=
                             Managed.pointer_cast_on_device k cast h in
                           Managed.managed_ptr_aliasing HostCode h
                             (cast (Managed.get HostCode h)) devicePtr) in
               ret (p' :: l)) s = Ok l' s' ∧
              managed_inv l' s' ∧ (length l' ≤ S (length l))%nat) as Hcast.
  { intros k cast i h Hi. rewrite bind_assoc.
    rewrite (bind_Ok _ _ _ _ _ (managed_pointer_cast_on_device_Ok k cast h s)).
    unfold Managed.managed_ptr_aliasing.
    now apply (Hconstruct i h). }
  destruct op as [args | | i | conv i | i hostPtr devicePtr | cast i | cast i
                 | cast i | i j | conv i j | i]; simpl.
  - destruct (managed_make_inv l s args Hinv) as (p & s' & Hrun & Hinv').
    exists (p :: l), s'. rewrite (bind_Ok _ _ _ _ _ Hrun).
    split; [done|]. split; [done | simpl; lia].
  - eexists _, s. split; [reflexivity|]. split; [|simpl; lia].
    now apply managed_inv_cons_null.
  - destruct (l !! i) as [h|] eqn:Hi; [|exists l, s; split; [done|split; [done|lia]]].
    unfold Managed.managed_ptr_copy. now apply (Hconstruct i h).
  - destruct (l !! i) as [h|] eqn:Hi; [|exists l, s; split; [done|split; [done|lia]]].
    unfold Managed.managed_ptr_converting. now apply (Hconstruct i h).
  - destruct (l !! i) as [h|] eqn:Hi; [|exists l, s; split; [done|split; [done|lia]]].
    unfold Managed.managed_ptr_aliasing. now apply (Hconstruct i h).
  - destruct (l !! i) as [h|] eqn:Hi; [|exists l, s; split; [done|split; [done|lia]]].
    apply (Hcast _ cast i h Hi).
  - destruct (l !! i) as [h|] eqn:Hi; [|exists l, s; split; [done|split; [done|lia]]].
    apply (Hcast _ cast i h Hi).
  - destruct (l !! i) as [h|] eqn:Hi; [|exists l, s; split; [done|split; [done|lia]]].
    apply (Hcast _ cast i h Hi).
  - destruct (l !! i) as [this|] eqn:Hi;
      [|exists l, s; split; [done|split; [done|lia]]].
    destruct (l !! j) as [other|] eqn:Hj;
      [|exists l, s; split; [done|split; [done|lia]]].
    destruct (decide (i = j)) as [-> | Hij].
    { rewrite bool_decide_eq_true_2 by done. unfold Managed.operator_assign. simpl.
      exists l, s. unfold bind, ret. rewrite list_insert_id by done.
      split; [done|]. split; [done | lia]. }
    rewrite bool_decide_eq_false_2 by done.
    unfold Managed.operator_assign. cbn [negb].
    now apply (managed_assign_inv l s i j this other).
  - destruct (l !! i) as [this|] eqn:Hi;
      [|exists l, s; split; [done|split; [done|lia]]].
    destruct (l !! j) as [other|] eqn:Hj;
      [|exists l, s; split; [done|split; [done|lia]]].
    destruct (decide (i = j)) as [-> | Hij];
      [exists l, s; split; [done|split; [done|lia]]|].
    unfold Managed.operator_assign_converting.
    now apply (managed_assign_inv l s i j this other).
  - destruct (l !! i) as [h|] eqn:Hi; [|exists l, s; split; [done|split; [done|lia]]].
    pose proof (list_elem_of_lookup_2 _ _ _ Hi) as Hin.
    assert (Managed.m_numReferences h = nullptr ∨
            (∃ n, counters s !! Managed.m_numReferences h = Some n ∧
                  1 ≤ n ≤ SIZE_MAX) ∧ Managed.registered h s) as Hpre.
    { destruct (managed_inv_pre l s h Hinv Hlen Hin)
        as [? | [(n & Hn & Hb) Hreg]]; [by left | right].
      split; [exists n; split; [done | lia] | done]. }
    destruct (managed_decrement_map h s Hpre) as (s' & Hdec & Hcs & Hts).
    exists (delete i l), s'. unfold Managed.managed_ptr_dtor. simpl.
    rewrite (bind_Ok _ _ _ _ _ Hdec). split; [done|]. split.
    + pose proof (managed_inv_detach l s s' i h Hinv Hi Hcs Hts) as Hdetached.
      assert (delete i (<[i := Managed.managed_ptr_default]> l) = delete i l) as <-.
      { clear -Hi. revert i Hi.
        induction l as [|x t IH]; intros [|i] Hi; simpl in *; try done.
        f_equal. now apply IH. }
      apply (managed_inv_delete_null _ s' i Managed.managed_ptr_default);
        [done | | done].
      apply list_lookup_insert_eq. eapply lookup_lt_Some, Hi.
    + rewrite length_delete by (by eexists). lia.
Qed.

(** A whole client runs to the end and keeps the invariant. *)
Lemma managed_run_inv prog : ∀ l s,
  managed_inv l s →
  Z.of_nat (length l) + Z.of_nat (length prog) ≤ SIZE_MAX →
  ∃ l' s', managed_run prog l s = Ok l' s' ∧ managed_inv l' s'.
Proof.
  induction prog as [|op rest IH]; intros l s Hinv Hlen.
  - exists l, s. done.
  - simpl in Hlen.
    destruct (managed_step_inv op l s Hinv ltac:(lia))
      as (l1 & s1 & Hstep & Hinv1 & Hlen1).
    destruct (IH l1 s1 Hinv1 ltac:(lia)) as (l' & s' & Hrun & Hinv').
    exists l', s'. simpl. now rewrite (bind_Ok _ _ _ _ _ Hstep).
Qed.

(** A client whose Managed pointers all come from [make_managed] never
    touches a counter or a tuple that is not allocated and never calls
    through an unset callback.  In every state it reaches, [use_count()] of
    a live pointer with a counter is the number of live pointers that hold
    that counter, so a counter is released by its last owner, once, and the
    pointer is still registered. *)
Lemma managed_client_safe prog :
  Z.of_nat (length prog) ≤ SIZE_MAX →
  ∃ l s, managed_run prog [] initial = Ok l s ∧
    ∀ p, p ∈ l → Managed.m_numReferences p ≠ nullptr →
      Managed.use_count p s =
        Ok (owners Managed.m_numReferences (Managed.m_numReferences p) l) s ∧
      1 ≤ owners Managed.m_numReferences (Managed.m_numReferences p) l ∧
      Managed.registered p s.
Proof.
  intros Hlen.
  assert (managed_inv [] initial) as Hinit.
  { split; [apply counted_initial|].
    split; [intros h Hin; by apply elem_of_nil in Hin
           | intros h1 h2 Hin; by apply elem_of_nil in Hin]. }
  destruct (managed_run_inv prog [] initial Hinit ltac:(simpl; lia))
    as (l & s & Hrun & Hcounted & Hreg & _).
  exists l, s. split; [done|]. intros p Hin Hc.
  destruct (counted_lookup _ l _ p Hcounted Hin Hc) as (n & Hn & -> & Hb).
  split; [now apply managed_use_count_Ok|]. split; [lia | by apply Hreg].
Qed.

(** ** Compile-time checks *)

Lemma static_assert_Accepted condition message :
  static_assert condition message = Accepted ↔ condition = true.
Proof. unfold static_assert. destruct condition; split; (done || discriminate). Qed.

Lemma make_managed_check_Accepted {ctype} (traits : type_traits ctype) T Args :
  make_managed_check traits T Args = Accepted ↔
  is_constructible traits T Args = true.
Proof. apply static_assert_Accepted. Qed.

Lemma conversion_check_Accepted {ctype} (traits : type_traits ctype) T U :
  conversion_check traits T U = Accepted ↔
  is_base_of traits T U = true ∨ is_convertible traits U T = true.
Proof.
  unfold conversion_check, base_or_convertible.
  rewrite static_assert_Accepted. apply orb_true_iff.
Qed.

(** ** Fresh addresses from the factories *)

Lemma host_make_managed_fresh args s p s' :
  Host.make_managed args s = Ok p s' →
  objects s !! Host.get p = None ∧ Host.get p ≠ nullptr.
Proof.
  rewrite host_make_managed_Ok. intros [= <- <-]. simpl.
  split; [apply new_addr_objects | apply new_addr_fresh].
Qed.

Lemma managed_make_managed_fresh args s p s' :
  Managed.make_managed args s = Ok p s' →
  objects s !! Managed.get HostCode p = None ∧
  device s !! Managed.get DeviceCode p = None ∧
  ∀ ctx, Managed.get ctx p ≠ nullptr.
Proof.
  rewrite managed_make_managed_Ok. intros [= <- <-]. simpl.
  split; [apply new_addr_objects|]. split; [apply new_addr_device|].
  intros []; apply new_addr_fresh.
Qed.

(** ** The concrete run *)

Example host_example_run :
  Host.make_managed [7] initial = Ok host_example host_example_state.
Proof. reflexivity. Qed.

Example managed_example_run :
  Managed.make_managed [7] initial = Ok managed_example managed_example_state.
Proof. vm_compute. reflexivity. Qed.

Example managed_example_registered :
  Managed.registered managed_example managed_example_state.
Proof. repeat split; [discriminate | by eexists]. Qed.

(** * Main results *)

(** C1 (Host strategy).  [make_managed] returns a pointer whose
    [use_count()] is 1.  After N copies, N below the range of
    [std::size_t], the original and every copy report 1+N, and destroying K
    of the copies brings the count down to 1+N-K.  In general, for a
    pointer whose count is n: every copy construction (copy, converting,
    aliasing) and every assignment of it into a pointer outside the lineage
    makes the count n+1 for the whole lineage; every destruction of another
    member of the lineage, and every assignment of a pointer from outside
    the lineage to such a member, makes it n-1.  And whatever a client does
    with constructors, factories, casts, assignments and destructions,
    starting from nothing: the run never touches a counter that is not
    allocated, and [use_count()] of each live pointer that has a counter is
    the number of live pointers of its lineage. *)
Theorem C1_host_use_count :
  (∀ args s, ∃ p s1,
     Host.make_managed args s = Ok p s1 ∧ Host.use_count p s1 = Ok 1 s1)
  ∧
  (∀ args s (N K : nat), Z.of_nat N < SIZE_MAX → (K ≤ N)%nat →
     ∃ p s1 qs s2 s3,
       Host.make_managed args s = Ok p s1 ∧
       host_copies N p s1 = Ok qs s2 ∧ length qs = N ∧
       Forall (λ q, Host.use_count q s2 = Ok (1 + Z.of_nat N) s2) (p :: qs) ∧
       host_destroy (take K qs) s2 = Ok tt s3 ∧
       Host.use_count p s3 = Ok (1 + Z.of_nat N - Z.of_nat K) s3)
  ∧
  (∀ p s n,
     Host.m_numReferences p ≠ nullptr → Host.use_count p s = Ok n s →
     0 ≤ n < SIZE_MAX →
     (∃ q s', Host.managed_ptr_copy p s = Ok q s' ∧
              Host.use_count p s' = Ok (n + 1) s' ∧
              Host.use_count q s' = Ok (n + 1) s') ∧
     (∀ conv, ∃ q s', Host.managed_ptr_converting conv p s = Ok q s' ∧
              Host.use_count p s' = Ok (n + 1) s' ∧
              Host.use_count q s' = Ok (n + 1) s') ∧
     (∀ hostPtr, ∃ q s', Host.managed_ptr_aliasing p hostPtr s = Ok q s' ∧
              Host.use_count p s' = Ok (n + 1) s' ∧
              Host.use_count q s' = Ok (n + 1) s') ∧
     (∀ x, Host.counter_ok x s →
           Host.m_numReferences x ≠ Host.m_numReferences p →
           ∃ x' s', Host.operator_assign false x p s = Ok x' s' ∧
              Host.use_count p s' = Ok (n + 1) s' ∧
              Host.use_count x' s' = Ok (n + 1) s') ∧
     (∀ conv x, Host.counter_ok x s →
           Host.m_numReferences x ≠ Host.m_numReferences p →
           ∃ x' s', Host.operator_assign_converting conv x p s = Ok x' s' ∧
              Host.use_count p s' = Ok (n + 1) s' ∧
              Host.use_count x' s' = Ok (n + 1) s'))
  ∧
  (∀ p q s n,
     Host.m_numReferences p ≠ nullptr →
     Host.m_numReferences q = Host.m_numReferences p →
     Host.use_count p s = Ok n s → 2 ≤ n ≤ SIZE_MAX →
     (∃ s', Host.managed_ptr_dtor q s = Ok tt s' ∧
            Host.use_count p s' = Ok (n - 1) s') ∧
     (∀ y, Host.counter_ok y s →
           Host.m_numReferences y ≠ Host.m_numReferences p →
           ∃ q' s', Host.operator_assign false q y s = Ok q' s' ∧
              Host.use_count p s' = Ok (n - 1) s'))
  ∧
  (∀ prog, Z.of_nat (length prog) ≤ SIZE_MAX →
     ∃ l s, host_run prog [] initial = Ok l s ∧
       ∀ p, p ∈ l → Host.m_numReferences p ≠ nullptr →
         Host.use_count p s =
           Ok (owners Host.m_numReferences (Host.m_numReferences p) l) s).
Proof.
  split; [|split; [|split; [|split]]].
  - intros args s. do 2 eexists. split; [apply host_make_managed_Ok|].
    apply host_use_count_Ok; simpl; [apply new_addr_fresh | apply lookup_insert_eq].
  - intros args s N K HN HK.
    pose proof (host_make_managed_Ok args s) as Hmake. simpl in Hmake.
    set (p := Host.Build _ _) in Hmake. set (s1 := set_counters _ _) in Hmake.
    assert (Host.m_numReferences p ≠ nullptr) as Hc by apply new_addr_fresh.
    assert (counters s1 !! Host.m_numReferences p = Some 1) as H1
      by apply lookup_insert_eq.
    pose proof (host_copies_Ok N p s1 1 Hc H1 ltac:(lia) ltac:(lia)) as Hcopies.
    set (s2 := set_counters _ s1) in Hcopies.
    assert (counters s2 !! Host.m_numReferences p = Some (1 + Z.of_nat N)) as H2
      by apply lookup_insert_eq.
    assert (take K (replicate N p) = replicate K p) as Htake.
    { rewrite take_replicate. f_equal. lia. }
    pose proof (host_destroy_Ok K p s2 _ Hc H2 ltac:(lia) ltac:(lia)) as Hdestroy.
    exists p, s1, (replicate N p), s2. eexists.
    split; [exact Hmake|]. split; [exact Hcopies|].
    split; [apply length_replicate|].
    split.
    { apply Forall_cons. split; [now apply host_use_count_Ok|].
      apply Forall_replicate. now apply host_use_count_Ok. }
    rewrite Htake. split; [exact Hdestroy|].
    apply host_use_count_Ok; [done | apply lookup_insert_eq].
  - intros p s n Hc Hu Hb.
    apply host_use_count_inv in Hu as [Hn _]; [|done].
    repeat split.
    + eexists _, _. split; [now apply (host_copy_Ok p s n)|].
      rewrite size_wrap_small by lia.
      split; apply host_use_count_Ok; simpl; (done || apply lookup_insert_eq).
    + intros conv. eexists _, _.
      split; [now apply (host_converting_Ok conv p s n)|].
      rewrite size_wrap_small by lia.
      split; apply host_use_count_Ok; simpl; (done || apply lookup_insert_eq).
    + intros a. eexists _, _.
      split; [now apply (host_aliasing_Ok p a s n)|].
      rewrite size_wrap_small by lia.
      split; apply host_use_count_Ok; simpl; (done || apply lookup_insert_eq).
    + intros x Hx Hne.
      destruct (host_assign_in x p s n Hc Hn Hb Hx Hne) as (s' & Ha & Hn').
      exists p, s'. split; [done|]. split; now apply host_use_count_Ok.
    + intros conv x Hx Hne.
      destruct (host_assign_converting_in conv x p s n Hc Hn Hb Hx Hne)
        as (s' & Ha & Hn').
      eexists _, s'. split; [exact Ha|].
      split; now apply host_use_count_Ok.
  - intros p q s n Hc Hq Hu Hb.
    apply host_use_count_inv in Hu as [Hn _]; [|done].
    split.
    + eexists. split.
      * apply (host_dtor_keep q s n); [congruence | now rewrite Hq | done].
      * apply host_use_count_Ok; [done|]. simpl. rewrite Hq. apply lookup_insert_eq.
    + intros y Hy Hne.
      destruct (host_assign_away q y s n) as (s' & Ha & Hn');
        [congruence | now rewrite Hq | done | done | congruence |].
      exists y, s'. split; [done|].
      apply host_use_count_Ok; [done | now rewrite <- Hq].
  - intros prog Hlen.
    destruct (host_use_count_is_owners prog Hlen) as (l & s & Hrun & Hall).
    exists l, s. split; [done|]. intros p Hin Hc. now apply Hall.
Qed.

Lemma C1_host_use_count_witness :
  (∃ p s1 qs s2 s3,
     Host.make_managed [7] initial = Ok p s1 ∧
     host_copies 3 p s1 = Ok qs s2 ∧ length qs = 3%nat ∧
     Forall (λ q, Host.use_count q s2 = Ok (1 + Z.of_nat 3) s2) (p :: qs) ∧
     host_destroy (take 2 qs) s2 = Ok tt s3 ∧
     Host.use_count p s3 = Ok (1 + Z.of_nat 3 - Z.of_nat 2) s3)
  ∧ (∃ q s', Host.managed_ptr_copy host_example host_example_state = Ok q s' ∧
             Host.use_count host_example s' = Ok (1 + 1) s' ∧
             Host.use_count q s' = Ok (1 + 1) s')
  ∧ (∃ s', Host.managed_ptr_dtor host_example
             (set_counters (insert 2 2) host_example_state) = Ok tt s' ∧
           Host.use_count host_example s' = Ok (2 - 1) s')
  ∧ (∃ l s,
       host_run [HMake [7]; HCopy 0; HMake [8]; HAssign 0 1; HDestroy 2] []
         initial = Ok l s ∧
       ∀ p, p ∈ l → Host.m_numReferences p ≠ nullptr →
         Host.use_count p s =
           Ok (owners Host.m_numReferences (Host.m_numReferences p) l) s).
Proof.
  destruct C1_host_use_count as (_ & Hcopies & Hup & Hdown & Hclient).
  split; [|split; [|split]].
  - apply (Hcopies [7] initial 3%nat 2%nat); [reflexivity | lia].
  - apply (Hup host_example host_example_state 1);
      [discriminate | reflexivity | split; [lia | reflexivity]].
  - apply (Hdown host_example host_example
             (set_counters (insert 2 2) host_example_state) 2);
      [discriminate | reflexivity | reflexivity | split; [lia | discriminate]].
  - apply Hclient. discriminate.
Defined.

(** C2 (failing input).  A Managed pointer built by the public constructor
    [managed_ptr(U* hostPtr, V* devicePtr)] owns a counter equal to 1 and has
    no callback registered.  Destroying it in host code brings the count to
    zero, deletes the counter and then evaluates [if (m_deleter)] on a
    member that was never given a value: the release has undefined
    behaviour before the host object or the device object is deleted. *)
Theorem C2_unregistered_release_reads_indeterminate_deleter :
  ∀ conv_host conv_device hostPtr devicePtr s, ∃ p s1,
    Managed.managed_ptr_raw conv_host conv_device hostPtr devicePtr s = Ok p s1 ∧
    Managed.use_count p s1 = Ok 1 s1 ∧
    Managed.m_deleter p = FnIndeterminate ∧
    Managed.managed_ptr_dtor HostCode p s1 = Undefined IndeterminateValue.
Proof.
  intros conv_host conv_device hostPtr devicePtr s. eexists _, _.
  split; [reflexivity|].
  assert (new_addr (host_used s) ≠ nullptr) as Hc by apply new_addr_fresh.
  split; [|split; [reflexivity|]].
  - apply managed_use_count_Ok; [done | apply lookup_insert_eq].
  - unfold Managed.managed_ptr_dtor. simpl.
    erewrite managed_decrement_zero;
      [reflexivity | done | apply lookup_insert_eq | reflexivity].
Qed.

(** C3 (failing input).  The only check in the body of
    [dynamic_pointer_cast] for the Managed and the Device strategy is
    [static_assert(true, ...)], which holds for every pair of element types:
    the instantiation is accepted, whereas a [static_assert] whose condition
    is false rejects, as the conversion checks of the same header do.  The
    body has no [return], so a call that was compiled flows off the end of a
    value-returning function. *)
Theorem C3_dynamic_pointer_cast_is_accepted :
  (∀ (ctype : Type) (T U : ctype), dynamic_pointer_cast_check T U = Accepted)
  ∧ (∀ message, static_assert false message = Rejected message)
  ∧ (∀ other s, Managed.dynamic_pointer_cast other s = Undefined NoReturn)
  ∧ (∀ other s, Device.dynamic_pointer_cast other s = Undefined NoReturn).
Proof. repeat split. Qed.

(** C4.  On the Host strategy, when [dynamic_cast<T*>(other.get())] is null
    [dynamic_pointer_cast] returns the default pointer (null address, no
    counter, [use_count()] 0) and the state, the counter of [other]
    included, is left as it was.  When the cast yields a non-null address
    the result holds that address and the counter of [other]; both then
    report the old count plus one, and a further copy of either one is
    seen in the count of both. *)
Theorem C4_host_dynamic_pointer_cast :
  ∀ (dynamic_cast : pointer_cast) other s,
    (dynamic_cast (Host.get other) = nullptr →
       Host.dynamic_pointer_cast dynamic_cast other s =
         Ok Host.managed_ptr_default s ∧
       Host.get Host.managed_ptr_default = nullptr ∧
       Host.m_numReferences Host.managed_ptr_default = nullptr ∧
       Host.use_count Host.managed_ptr_default s = Ok 0 s)
    ∧
    (dynamic_cast (Host.get other) ≠ nullptr →
       ∀ n, Host.m_numReferences other ≠ nullptr →
            Host.use_count other s = Ok n s → 0 ≤ n < SIZE_MAX - 1 →
       ∃ q s',
         Host.dynamic_pointer_cast dynamic_cast other s = Ok q s' ∧
         Host.get q = dynamic_cast (Host.get other) ∧
         Host.m_numReferences q = Host.m_numReferences other ∧
         Host.use_count other s' = Ok (n + 1) s' ∧
         Host.use_count q s' = Ok (n + 1) s' ∧
         (∃ r s'', Host.managed_ptr_copy q s' = Ok r s'' ∧
                   Host.use_count other s'' = Ok (n + 2) s'' ∧
                   Host.use_count q s'' = Ok (n + 2) s'') ∧
         (∃ r s'', Host.managed_ptr_copy other s' = Ok r s'' ∧
                   Host.use_count other s'' = Ok (n + 2) s'' ∧
                   Host.use_count q s'' = Ok (n + 2) s'')).
Proof.
  intros dynamic_cast other s. split.
  - intros Hfail. unfold Host.dynamic_pointer_cast.
    rewrite decide_False by (intros H; done). done.
  - intros Hok n Hc Hu Hb.
    apply host_use_count_inv in Hu as [Hn _]; [|done].
    unfold Host.dynamic_pointer_cast. rewrite decide_True by done.
    rewrite (host_aliasing_Ok _ _ _ _ Hc Hn), size_wrap_small by lia.
    set (q := Host.Build _ _). set (s' := set_counters _ s).
    assert (counters s' !! Host.m_numReferences other = Some (n + 1)) as Hn'
      by apply lookup_insert_eq.
    exists q, s'. repeat split; try (now apply host_use_count_Ok).
    + eexists _, _. split; [now apply (host_copy_Ok q s' (n + 1))|].
      rewrite size_wrap_small by lia.
      replace (n + 1 + 1) with (n + 2) by lia.
      split; apply host_use_count_Ok; simpl; (done || apply lookup_insert_eq).
    + eexists _, _. split; [now apply (host_copy_Ok other s' (n + 1))|].
      rewrite size_wrap_small by lia.
      replace (n + 1 + 1) with (n + 2) by lia.
      split; apply host_use_count_Ok; simpl; (done || apply lookup_insert_eq).
Qed.

Lemma C4_host_dynamic_pointer_cast_witness :
  (Host.dynamic_pointer_cast cast_fails host_example host_example_state =
     Ok Host.managed_ptr_default host_example_state ∧
   Host.get Host.managed_ptr_default = nullptr ∧
   Host.m_numReferences Host.managed_ptr_default = nullptr ∧
   Host.use_count Host.managed_ptr_default host_example_state =
     Ok 0 host_example_state)
  ∧
  (∃ q s',
     Host.dynamic_pointer_cast (cast_offset 8) host_example host_example_state =
       Ok q s' ∧
     Host.get q = cast_offset 8 (Host.get host_example) ∧
     Host.m_numReferences q = Host.m_numReferences host_example ∧
     Host.use_count host_example s' = Ok (1 + 1) s' ∧
     Host.use_count q s' = Ok (1 + 1) s' ∧
     (∃ r s'', Host.managed_ptr_copy q s' = Ok r s'' ∧
               Host.use_count host_example s'' = Ok (1 + 2) s'' ∧
               Host.use_count q s'' = Ok (1 + 2) s'') ∧
     (∃ r s'', Host.managed_ptr_copy host_example s' = Ok r s'' ∧
               Host.use_count host_example s'' = Ok (1 + 2) s'' ∧
               Host.use_count q s'' = Ok (1 + 2) s'')).
Proof.
  split.
  - apply (proj1 (C4_host_dynamic_pointer_cast cast_fails host_example
                    host_example_state)).
    reflexivity.
  - apply (proj2 (C4_host_dynamic_pointer_cast (cast_offset 8) host_example
                    host_example_state));
      [discriminate | discriminate | reflexivity | split; [lia | reflexivity]].
Defined.

(** C5.  For a Managed pointer, [get], [operator->] and [operator*] yield
    the stored host address in host code and the stored device address in
    device code; for a pointer from [make_managed] these are the object
    built on the host and the object built on the device. *)
Theorem C5_managed_dereference_by_context :
  (∀ p,
     Managed.get HostCode p = Managed.m_cpu p ∧
     Managed.get DeviceCode p = Managed.m_gpu p ∧
     Managed.operator_arrow HostCode p = Managed.m_cpu p ∧
     Managed.operator_arrow DeviceCode p = Managed.m_gpu p ∧
     Managed.operator_star HostCode p = Managed.m_cpu p ∧
     Managed.operator_star DeviceCode p = Managed.m_gpu p)
  ∧
  (∀ args s, ∃ p s',
     Managed.make_managed args s = Ok p s' ∧
     objects s' !! Managed.get HostCode p = Some args ∧
     device s' !! Managed.get DeviceCode p = Some args ∧
     objects s !! Managed.get HostCode p = None ∧
     device s !! Managed.get DeviceCode p = None).
Proof.
  split; [intros p; repeat split; reflexivity|].
  intros args s. eexists _, _. split; [apply managed_make_managed_Ok|].
  simpl. repeat split.
  - apply lookup_insert_eq.
  - apply lookup_insert_eq.
  - apply new_addr_objects.
  - apply new_addr_device.
Qed.

(** C6.  In device code the copy constructor, the converting constructor,
    the aliasing constructor, both assignment operators and the destructor
    of a Managed pointer leave the whole state, and so every reference
    counter, as it is.  In host code the three constructors add one to the
    counter of the pointer they copy, and so does either assignment once the
    old value of its left-hand side has been released. *)
Theorem C6_managed_device_code_leaves_counter :
  (∀ other s,
     Managed.managed_ptr_copy DeviceCode other s = Ok other s ∧
     (∀ conv, ∃ q, Managed.managed_ptr_converting DeviceCode conv other s = Ok q s ∧
                   Managed.m_numReferences q = Managed.m_numReferences other) ∧
     (∀ h d, ∃ q, Managed.managed_ptr_aliasing DeviceCode other h d s = Ok q s ∧
                  Managed.m_numReferences q = Managed.m_numReferences other) ∧
     (∀ this, Managed.operator_assign DeviceCode false this other s = Ok other s ∧
              Managed.operator_assign DeviceCode true this other s = Ok this s) ∧
     (∀ conv this, ∃ q,
        Managed.operator_assign_converting DeviceCode conv this other s = Ok q s ∧
        Managed.m_numReferences q = Managed.m_numReferences other) ∧
     Managed.managed_ptr_dtor DeviceCode other s = Ok tt s)
  ∧
  (∀ other s n,
     Managed.m_numReferences other ≠ nullptr →
     counters s !! Managed.m_numReferences other = Some n →
     0 ≤ n < SIZE_MAX →
     Managed.registered other s →
     (∃ q s', Managed.managed_ptr_copy HostCode other s = Ok q s' ∧
        counters s' !! Managed.m_numReferences other = Some (n + 1)) ∧
     (∀ conv, ∃ q s', Managed.managed_ptr_converting HostCode conv other s = Ok q s' ∧
        counters s' !! Managed.m_numReferences other = Some (n + 1)) ∧
     (∀ h d, ∃ q s', Managed.managed_ptr_aliasing HostCode other h d s = Ok q s' ∧
        counters s' !! Managed.m_numReferences other = Some (n + 1)) ∧
     (∀ this s0, Managed.decrementReferenceCount this s0 = Ok tt s →
        (∃ q s', Managed.operator_assign HostCode false this other s0 = Ok q s' ∧
           counters s' !! Managed.m_numReferences other = Some (n + 1)) ∧
        (∀ conv, ∃ q s',
           Managed.operator_assign_converting HostCode conv this other s0 = Ok q s' ∧
           counters s' !! Managed.m_numReferences other = Some (n + 1)))).
Proof.
  split.
  - intros other s. repeat split.
    + unfold Managed.managed_ptr_copy. now rewrite managed_copy_eta.
    + intros conv. eexists. split; reflexivity.
    + intros h d. eexists. split; reflexivity.
    + unfold Managed.operator_assign. now rewrite managed_copy_eta.
    + intros conv this. eexists. split; reflexivity.
  - intros other s n Hc Hn Hb Hreg.
    assert (∀ q, Managed.m_numReferences q = Managed.m_numReferences other →
                 Managed.m_copyArguments q = Managed.m_copyArguments other →
                 Managed.m_copier q = Managed.m_copier other →
                 Managed.m_deleter q = Managed.m_deleter other →
                 ∃ s', Managed.incrementReferenceCount q s = Ok tt s' ∧
                  counters s' !! Managed.m_numReferences other = Some (n + 1))
      as Hinc.
    { intros q E1 E2 E3 E4. eexists. split.
      - apply (managed_increment_Ok q s n); [congruence | now rewrite E1 |].
        now apply (managed_registered_fields q other).
      - simpl. rewrite E1, lookup_insert_eq, size_wrap_small by lia. done. }
    split; [|split; [|split; [|intros this s0 Hdec; split]]].
    + destruct (Hinc other eq_refl eq_refl eq_refl eq_refl) as (s' & Hi & Hs').
      exists other, s'. split; [|done].
      unfold Managed.managed_ptr_copy. rewrite managed_copy_eta. simpl.
      now rewrite (bind_Ok _ _ _ _ _ Hi).
    + intros conv.
      edestruct (Hinc (Managed.Build (conv (Managed.m_cpu other))
                     (conv (Managed.m_gpu other)) _ _ _ _)
                   eq_refl eq_refl eq_refl eq_refl) as (s' & Hi & Hs').
      eexists _, s'. split; [|done].
      unfold Managed.managed_ptr_converting. simpl.
      now rewrite (bind_Ok _ _ _ _ _ Hi).
    + intros h d.
      edestruct (Hinc (Managed.Build h d _ _ _ _)
                   eq_refl eq_refl eq_refl eq_refl) as (s' & Hi & Hs').
      eexists _, s'. split; [|done].
      unfold Managed.managed_ptr_aliasing. simpl.
      now rewrite (bind_Ok _ _ _ _ _ Hi).
    + destruct (Hinc other eq_refl eq_refl eq_refl eq_refl) as (s' & Hi & Hs').
      exists other, s'. split; [|done].
      unfold Managed.operator_assign. rewrite managed_copy_eta. simpl.
      rewrite (bind_Ok _ _ _ _ _ Hdec).
      now rewrite (bind_Ok _ _ _ _ _ Hi).
    + intros conv.
      edestruct (Hinc (Managed.Build (conv (Managed.m_cpu other))
                     (conv (Managed.m_gpu other)) _ _ _ _)
                   eq_refl eq_refl eq_refl eq_refl) as (s' & Hi & Hs').
      eexists _, s'. split; [|done].
      unfold Managed.operator_assign_converting. simpl.
      rewrite (bind_Ok _ _ _ _ _ Hdec).
      now rewrite (bind_Ok _ _ _ _ _ Hi).
Qed.

Lemma C6_managed_device_code_leaves_counter_witness :
  (∃ q s', Managed.managed_ptr_copy HostCode managed_example
             managed_example_state = Ok q s' ∧
     counters s' !! Managed.m_numReferences managed_example = Some (1 + 1))
  ∧ Managed.managed_ptr_copy DeviceCode managed_example managed_example_state =
      Ok managed_example managed_example_state.
Proof.
  split.
  - apply (proj2 C6_managed_device_code_leaves_counter managed_example
             managed_example_state 1);
      [discriminate | reflexivity | split; [lia | reflexivity]
      | repeat split; [discriminate | by eexists]].
  - apply (proj1 C6_managed_device_code_leaves_counter).
Defined.

(** C7.  [registerArguments] leaves the pointer registered: the copy
    callback, the release callback and a fresh tuple of the arguments are
    installed.  From then on, in any state in which that registration is
    intact and the pointer has an allocated counter, each host-side
    increment made with the pointer as source (copy construction, converting
    construction, aliasing construction, and the increment that ends either
    assignment) adds one to the counter and runs the copy callback on the
    pointer's tuple exactly once: the trace grows by the single event
    [EvCopier].  A pointer without a counter is copied without an increment
    and without a call. *)
Theorem C7_copier_once_per_increment :
  ∀ this args s, ∃ p s1,
    Managed.registerArguments this args s = Ok p s1 ∧
    Managed.registered p s1 ∧
    Managed.m_numReferences p = Managed.m_numReferences this ∧
    (∀ s2, Managed.m_numReferences p = nullptr →
           Managed.managed_ptr_copy HostCode p s2 = Ok p s2) ∧
    ∀ s2 n,
      Managed.registered p s2 →
      Managed.m_numReferences p ≠ nullptr →
      counters s2 !! Managed.m_numReferences p = Some n →
      let s3 := log (EvCopier (Managed.m_copyArguments p))
                  (set_counters
                     (insert (Managed.m_numReferences p) (size_wrap (n + 1))) s2) in
      trace s3 = trace s2 ++ [EvCopier (Managed.m_copyArguments p)] ∧
      Managed.incrementReferenceCount p s2 = Ok tt s3 ∧
      Managed.managed_ptr_copy HostCode p s2 = Ok p s3 ∧
      (∀ conv, ∃ q, Managed.managed_ptr_converting HostCode conv p s2 = Ok q s3) ∧
      (∀ h d, ∃ q, Managed.managed_ptr_aliasing HostCode p h d s2 = Ok q s3) ∧
      (∀ x s0, Managed.decrementReferenceCount x s0 = Ok tt s2 →
         Managed.operator_assign HostCode false x p s0 = Ok p s3 ∧
         ∀ conv, ∃ q,
           Managed.operator_assign_converting HostCode conv x p s0 = Ok q s3).
Proof.
  intros this args s. eexists _, _.
  split; [apply managed_registerArguments_Ok|].
  split.
  { repeat split; simpl; try done; [apply new_addr_fresh|].
    rewrite lookup_insert_eq. by eexists. }
  split; [done|].
  set (p := Managed.Build _ _ _ _ _ _).
  split.
  { intros s2 Hnull. unfold Managed.managed_ptr_copy. rewrite managed_copy_eta.
    simpl. now rewrite (bind_Ok _ _ _ _ _ (managed_increment_null p s2 Hnull)). }
  intros s2 n Hreg Hc Hn s3.
  assert (∀ q, Managed.m_numReferences q = Managed.m_numReferences p →
               Managed.m_copyArguments q = Managed.m_copyArguments p →
               Managed.m_copier q = Managed.m_copier p →
               Managed.incrementReferenceCount q s2 = Ok tt s3) as Hinc.
  { intros q E1 E2 E3. unfold Managed.incrementReferenceCount.
    rewrite E1, E2, E3. rewrite decide_True by done.
    rewrite (bind_Ok _ _ _ _ _ (load_counter_Ok _ _ _ Hn)).
    rewrite (bind_Ok _ _ _ _ _ (store_counter_Ok _ _ _ _ Hn)).
    destruct Hreg as (-> & _ & _ & Ht). now apply call_copier_Ok. }
  split; [reflexivity|].
  split; [now apply Hinc|].
  split.
  { unfold Managed.managed_ptr_copy. rewrite managed_copy_eta. simpl.
    now rewrite (bind_Ok _ _ _ _ _ (Hinc p eq_refl eq_refl eq_refl)). }
  split.
  { intros conv. eexists. unfold Managed.managed_ptr_converting. simpl.
    erewrite bind_Ok; [reflexivity|]. now apply Hinc. }
  split.
  { intros h d. eexists. unfold Managed.managed_ptr_aliasing. simpl.
    erewrite bind_Ok; [reflexivity|]. now apply Hinc. }
  intros x s0 Hdec. split.
  - unfold Managed.operator_assign. rewrite managed_copy_eta. cbn [negb].
    rewrite (bind_Ok _ _ _ _ _ Hdec).
    now rewrite (bind_Ok _ _ _ _ _ (Hinc p eq_refl eq_refl eq_refl)).
  - intros conv. eexists. unfold Managed.operator_assign_converting. simpl.
    rewrite (bind_Ok _ _ _ _ _ Hdec).
    erewrite bind_Ok; [reflexivity|]. now apply Hinc.
Qed.

Lemma C7_copier_once_per_increment_witness :
  ∃ p s1,
    Managed.registerArguments
      (Managed.Build 1 1 2 nullptr FnIndeterminate FnIndeterminate) [7]
      (State {[2 := 1]} {[1 := [7]]} ∅ {[1 := [7]]} []) = Ok p s1 ∧
    Managed.registered p s1 ∧
    trace (log (EvCopier (Managed.m_copyArguments p))
             (set_counters
                (insert (Managed.m_numReferences p) (size_wrap (1 + 1))) s1)) =
      trace s1 ++ [EvCopier (Managed.m_copyArguments p)] ∧
    Managed.managed_ptr_copy HostCode p s1 =
      Ok p (log (EvCopier (Managed.m_copyArguments p))
              (set_counters
                 (insert (Managed.m_numReferences p) (size_wrap (1 + 1))) s1)).
Proof.
  destruct (C7_copier_once_per_increment
              (Managed.Build 1 1 2 nullptr FnIndeterminate FnIndeterminate) [7]
              (State {[2 := 1]} {[1 := [7]]} ∅ {[1 := [7]]} []))
    as (p & s1 & Hrun & Hreg & Hc & _ & Hinc).
  exists p, s1. split; [exact Hrun|]. split; [exact Hreg|].
  assert (Managed.m_numReferences p ≠ nullptr) as Hnn
    by (rewrite Hc; discriminate).
  assert (counters s1 !! Managed.m_numReferences p = Some 1) as Hn.
  { rewrite Hc. injection Hrun as _ <-. reflexivity. }
  destruct (Hinc s1 1 Hreg Hnn Hn) as (Htrace & _ & Hcopy & _).
  split; [exact Htrace | exact Hcopy].
Defined.

(** C8 (as amended).  Every pointer obtained from the default, [nullptr],
    raw-pointer, copy and converting constructors, the factories, the four
    casts and the assignment operators, in any combination and for each of
    the three strategies, satisfies: stored pointer non-null implies counter
    non-null.  A default-constructed or [nullptr]-constructed pointer has a
    null counter and [use_count()] 0.  The aliasing constructor called
    directly keeps the address it is given and the counter of [other],
    whatever they are. *)
Theorem C8_invariant_of_produced_pointers :
  (∀ p, Host.produced false p → Host.invariant p)
  ∧ (∀ p, Managed.produced false p → Managed.invariant p)
  ∧ (∀ p, Device.produced false p → Device.invariant p)
  ∧ (Host.m_numReferences Host.managed_ptr_default = nullptr ∧
     Host.m_numReferences Host.managed_ptr_nullptr = nullptr ∧
     Managed.m_numReferences Managed.managed_ptr_default = nullptr ∧
     Managed.m_numReferences Managed.managed_ptr_nullptr = nullptr ∧
     Device.m_numReferences Device.managed_ptr_default = nullptr ∧
     Device.m_numReferences Device.managed_ptr_nullptr = nullptr)
  ∧ (∀ s,
     Host.use_count Host.managed_ptr_default s = Ok 0 s ∧
     Host.use_count Host.managed_ptr_nullptr s = Ok 0 s ∧
     Managed.use_count Managed.managed_ptr_default s = Ok 0 s ∧
     Managed.use_count Managed.managed_ptr_nullptr s = Ok 0 s ∧
     Device.use_count Device.managed_ptr_default s = Ok 0 s ∧
     Device.use_count Device.managed_ptr_nullptr s = Ok 0 s)
  ∧ (∀ other hostPtr s p s',
     Host.managed_ptr_aliasing other hostPtr s = Ok p s' →
     Host.get p = hostPtr ∧
     Host.m_numReferences p = Host.m_numReferences other)
  ∧ (∀ ctx other hostPtr devicePtr s p s',
     Managed.managed_ptr_aliasing ctx other hostPtr devicePtr s = Ok p s' →
     Managed.get HostCode p = hostPtr ∧ Managed.get DeviceCode p = devicePtr ∧
     Managed.m_numReferences p = Managed.m_numReferences other)
  ∧ (∀ ctx other devicePtr s p s',
     Device.managed_ptr_aliasing ctx other devicePtr s = Ok p s' →
     Device.get p = devicePtr ∧
     Device.m_numReferences p = Device.m_numReferences other).
Proof.
  split; [exact host_produced_invariant|].
  split; [exact managed_produced_invariant|].
  split; [exact device_produced_invariant|].
  split; [repeat split|]. split; [intros s; repeat split|].
  split; [|split].
  - intros other hostPtr s p s' H. now apply host_aliasing_shape in H as ->.
  - intros ctx other hostPtr devicePtr s p s' H.
    now apply managed_aliasing_shape in H.
  - intros ctx other devicePtr s p s' H.
    unfold Device.managed_ptr_aliasing in H. now unwind H.
Qed.

Lemma C8_invariant_of_produced_pointers_witness :
  Host.invariant (Host.Build 1 2) ∧
  Managed.invariant (Managed.Build 1 1 2 3 FnCopier FnDeleter) ∧
  Device.invariant (Device.Build 1 1) ∧
  (Host.get (Host.Build 5 nullptr) = 5 ∧
   Host.m_numReferences (Host.Build 5 nullptr) =
     Host.m_numReferences Host.managed_ptr_default).
Proof.
  destruct C8_invariant_of_produced_pointers
    as (Hhost & Hmanaged & Hdevice & _ & _ & Halias & _).
  split; [|split; [|split]].
  - apply Hhost.
    apply (Host.produced_make_managed false [7] initial (Host.Build 1 2)
             (set_counters (insert 2 1) (set_objects (insert 1 [7]) initial))).
    reflexivity.
  - apply Hmanaged.
    eapply (Managed.produced_make_managed false [7] initial).
    vm_compute. reflexivity.
  - apply Hdevice.
    apply (Device.produced_raw false same_address 1 initial (Device.Build 1 1)
             (set_counters (insert 1 1) initial)).
    reflexivity.
  - apply (Halias Host.managed_ptr_default 5 initial (Host.Build 5 nullptr) initial).
    reflexivity.
Defined.

(** C8 (as stated) fails: the aliasing constructor applied to a
    default-constructed [other] and the non-null address 5 returns a pointer
    that stores 5 and has no counter. *)
Lemma C8_aliasing_constructor_counterexample :
  Host.managed_ptr_aliasing Host.managed_ptr_default 5 initial =
    Ok (Host.Build 5 nullptr) initial ∧
  Host.produced true (Host.Build 5 nullptr) ∧
  Host.get (Host.Build 5 nullptr) ≠ nullptr ∧
  Host.m_numReferences (Host.Build 5 nullptr) = nullptr ∧
  Host.use_count (Host.Build 5 nullptr) initial = Ok 0 initial ∧
  ¬ Host.invariant (Host.Build 5 nullptr) ∧
  ¬ (∀ p, Host.produced true p → Host.invariant p).
Proof.
  assert (Host.produced true (Host.Build 5 nullptr)) as Hp.
  { apply (Host.produced_aliasing true Host.managed_ptr_default 5 initial _ initial);
      [reflexivity | constructor | reflexivity]. }
  assert (¬ Host.invariant (Host.Build 5 nullptr)) as Hn.
  { intros H. apply H; [discriminate | reflexivity]. }
  repeat split; try done.
  intros H. apply Hn, H, Hp.
Qed.

(** C9 (as amended).  [operator==] on a [managed_ptr<T>] and a
    [managed_ptr<U>] is true exactly when the two stored addresses, each
    converted to the common pointer type of [T*] and [U*], are equal, and
    [operator!=] is its negation; this holds on the Host strategy and, in
    either context, on the Managed strategy.  For two pointers of the same
    element type no address is converted, and [operator==] is true exactly
    when [get()] returns the same address for both.  [operator==] against
    [nullptr], on either side, is true exactly when [get()] is null.  Two
    pointers from separate [make_managed<T>] calls with the same arguments,
    the second call made while the object of the first is still allocated,
    compare unequal. *)
Theorem C9_identity_comparison :
  (∀ (conv_lhs conv_rhs : pointer_cast) lhs rhs,
     (Host.operator_eq conv_lhs conv_rhs lhs rhs = true ↔
      conv_lhs (Host.get lhs) = conv_rhs (Host.get rhs)) ∧
     Host.operator_ne conv_lhs conv_rhs lhs rhs =
       negb (Host.operator_eq conv_lhs conv_rhs lhs rhs))
  ∧ (∀ lhs rhs,
       Host.operator_eq same_address same_address lhs rhs = true ↔
       Host.get lhs = Host.get rhs)
  ∧ (∀ lhs, Host.operator_eq_nullptr lhs = true ↔ Host.get lhs = nullptr)
  ∧ (∀ rhs, Host.nullptr_operator_eq rhs = true ↔ Host.get rhs = nullptr)
  ∧ (∀ ctx (conv_lhs conv_rhs : pointer_cast) lhs rhs,
       (Managed.operator_eq ctx conv_lhs conv_rhs lhs rhs = true ↔
        conv_lhs (Managed.get ctx lhs) = conv_rhs (Managed.get ctx rhs)) ∧
       Managed.operator_ne ctx conv_lhs conv_rhs lhs rhs =
         negb (Managed.operator_eq ctx conv_lhs conv_rhs lhs rhs))
  ∧ (∀ ctx lhs rhs,
       Managed.operator_eq ctx same_address same_address lhs rhs = true ↔
       Managed.get ctx lhs = Managed.get ctx rhs)
  ∧ (∀ ctx lhs,
       Managed.operator_eq_nullptr ctx lhs = true ↔ Managed.get ctx lhs = nullptr)
  ∧ (∀ ctx rhs,
       Managed.nullptr_operator_eq ctx rhs = true ↔ Managed.get ctx rhs = nullptr)
  ∧ (∀ args s p1 s1 s' p2 s2,
       Host.make_managed args s = Ok p1 s1 →
       is_Some (objects s' !! Host.get p1) →
       Host.make_managed args s' = Ok p2 s2 →
       Host.operator_eq same_address same_address p1 p2 = false ∧
       Host.operator_ne same_address same_address p1 p2 = true ∧
       Host.operator_eq_nullptr p1 = false ∧ Host.operator_eq_nullptr p2 = false)
  ∧ (∀ args s p1 s1 s' p2 s2,
       Managed.make_managed args s = Ok p1 s1 →
       is_Some (objects s' !! Managed.get HostCode p1) →
       is_Some (device s' !! Managed.get DeviceCode p1) →
       Managed.make_managed args s' = Ok p2 s2 →
       ∀ ctx, Managed.operator_eq ctx same_address same_address p1 p2 = false ∧
              Managed.operator_ne ctx same_address same_address p1 p2 = true ∧
              Managed.operator_eq_nullptr ctx p1 = false ∧
              Managed.operator_eq_nullptr ctx p2 = false).
Proof.
  assert (∀ P `{Decision P}, bool_decide (¬ P) = negb (bool_decide P)) as Hneg.
  { intros P HP. destruct (decide P) as [H|H].
    - rewrite (bool_decide_eq_true_2 P H).
      apply bool_decide_eq_false_2. intros Hn. now apply Hn.
    - rewrite (bool_decide_eq_false_2 P H). now apply bool_decide_eq_true_2. }
  split; [intros conv_lhs conv_rhs lhs rhs; split;
          [apply bool_decide_eq_true | apply Hneg]|].
  split; [intros lhs rhs; apply bool_decide_eq_true|].
  split; [intros lhs; apply bool_decide_eq_true|].
  split; [intros rhs; unfold Host.nullptr_operator_eq;
          rewrite bool_decide_eq_true; split; congruence|].
  split; [intros ctx conv_lhs conv_rhs lhs rhs; split;
          [apply bool_decide_eq_true | apply Hneg]|].
  split; [intros ctx lhs rhs; apply bool_decide_eq_true|].
  split; [intros ctx lhs; apply bool_decide_eq_true|].
  split; [intros ctx rhs; unfold Managed.nullptr_operator_eq;
          rewrite bool_decide_eq_true; split; congruence|].
  split.
  - intros args s p1 s1 s' p2 s2 Hfirst Halive Hsecond.
    destruct (host_make_managed_fresh _ _ _ _ Hfirst) as [_ Hnn1].
    destruct (host_make_managed_fresh _ _ _ _ Hsecond) as [Hfresh2 Hnn2].
    assert (Host.get p1 ≠ Host.get p2) as Hne.
    { intros E. rewrite E, Hfresh2 in Halive. now destruct Halive. }
    repeat split; (apply bool_decide_eq_false_2 || apply bool_decide_eq_true_2);
      done.
  - intros args s p1 s1 s' p2 s2 Hfirst Halive_host Halive_device Hsecond ctx.
    destruct (managed_make_managed_fresh _ _ _ _ Hfirst) as (_ & _ & Hnn1).
    destruct (managed_make_managed_fresh _ _ _ _ Hsecond)
      as (Hfresh_host & Hfresh_device & Hnn2).
    assert (Managed.get ctx p1 ≠ Managed.get ctx p2) as Hne.
    { intros E. destruct ctx.
      - rewrite E, Hfresh_host in Halive_host. now destruct Halive_host.
      - rewrite E, Hfresh_device in Halive_device. now destruct Halive_device. }
    repeat split; (apply bool_decide_eq_false_2 || apply bool_decide_eq_true_2);
      (done || apply Hnn1 || apply Hnn2).
Qed.

Lemma C9_identity_comparison_witness :
  (Host.operator_eq same_address same_address host_example (Host.Build 3 4) =
     false ∧
   Host.operator_ne same_address same_address host_example (Host.Build 3 4) =
     true ∧
   Host.operator_eq_nullptr host_example = false ∧
   Host.operator_eq_nullptr (Host.Build 3 4) = false)
  ∧
  (∀ ctx,
     Managed.operator_eq ctx same_address same_address managed_example
       (Managed.Build 4 2 5 6 FnCopier FnDeleter) = false ∧
     Managed.operator_ne ctx same_address same_address managed_example
       (Managed.Build 4 2 5 6 FnCopier FnDeleter) = true ∧
     Managed.operator_eq_nullptr ctx managed_example = false ∧
     Managed.operator_eq_nullptr ctx
       (Managed.Build 4 2 5 6 FnCopier FnDeleter) = false).
Proof.
  destruct C9_identity_comparison
    as (_ & _ & _ & _ & _ & _ & _ & _ & Hhost & Hmanaged).
  split.
  - eapply (Hhost [7] initial host_example host_example_state host_example_state);
      [reflexivity | by eexists | reflexivity].
  - eapply (Hmanaged [7] initial managed_example managed_example_state
              managed_example_state);
      [vm_compute; reflexivity | by eexists | by eexists
      | vm_compute; reflexivity].
Defined.

(** C9 (as stated) fails: equality of the stored addresses is not what
    [operator==] decides when the element types differ.  For a pointer to
    an object at address 1 and the result of [static_pointer_cast] to a
    base class that lies 8 bytes into the object, [get()] returns 1 and 9,
    and [operator==] converts the first operand to the base class before
    comparing: the two pointers compare equal. *)
Lemma C9_converted_operands_counterexample :
  ∃ q s',
    Host.static_pointer_cast (cast_offset 8) host_example host_example_state =
      Ok q s' ∧
    Host.get host_example = 1 ∧ Host.get q = 9 ∧
    Host.get host_example ≠ Host.get q ∧
    Host.operator_eq (cast_offset 8) same_address host_example q = true ∧
    Host.operator_ne (cast_offset 8) same_address host_example q = false ∧
    ¬ (∀ (conv_lhs conv_rhs : pointer_cast) lhs rhs,
         Host.operator_eq conv_lhs conv_rhs lhs rhs = true ↔
         Host.get lhs = Host.get rhs).
Proof.
  eexists _, _. split; [reflexivity|].
  repeat split; try done.
  intros H.
  assert (Host.get host_example = Host.get (Host.Build 9 2)) as E
    by (apply (H (cast_offset 8) same_address); reflexivity).
  discriminate E.
Qed.

(** C10.  In host code [operator T*] of a Managed pointer is the call
    [m_copier(m_copyArguments)] followed by [return get()], with no test
    of either member.  On a registered pointer the copy callback runs once
    on the tuple and the host address is returned.  On a default-constructed
    or [nullptr]-constructed pointer, where no callback was ever stored, the
    call is made all the same, through the indeterminate [m_copier] (a null
    one in a zero-initialised object): the conversion has undefined
    behaviour instead of returning null.  In device code no call is made. *)
Theorem C10_conversion_calls_copier_unconditionally :
  (∀ p s,
     Managed.operator_Tptr HostCode p s =
       (call (Managed.m_copier p) (Managed.m_copyArguments p) ;;
        ret (Managed.m_cpu p)) s)
  ∧
  (∀ p s, Managed.registered p s →
     Managed.operator_Tptr HostCode p s =
       Ok (Managed.m_cpu p) (log (EvCopier (Managed.m_copyArguments p)) s))
  ∧
  (∀ s,
     Managed.operator_Tptr HostCode Managed.managed_ptr_default s =
       Undefined IndeterminateValue ∧
     Managed.operator_Tptr HostCode Managed.managed_ptr_nullptr s =
       Undefined IndeterminateValue)
  ∧
  (∀ p s,
     match Managed.m_copier p with
     | FnIndeterminate =>
         Managed.operator_Tptr HostCode p s = Undefined IndeterminateValue
     | FnNull => Managed.operator_Tptr HostCode p s = Undefined NullCall
     | FnCopier | FnDeleter => True
     end)
  ∧
  (∀ p s, Managed.operator_Tptr DeviceCode p s = Ok (Managed.m_gpu p) s).
Proof.
  split; [reflexivity|]. split; [|split; [split; reflexivity | split; [|reflexivity]]].
  - intros p s (Hcop & _ & _ & Ht). unfold Managed.operator_Tptr. simpl.
    rewrite Hcop. now rewrite (bind_Ok _ _ _ _ _ (call_copier_Ok _ _ Ht)).
  - intros p s. unfold Managed.operator_Tptr. simpl.
    destruct (Managed.m_copier p); done.
Qed.

Lemma C10_conversion_calls_copier_unconditionally_witness :
  Managed.operator_Tptr HostCode managed_example managed_example_state =
    Ok (Managed.m_cpu managed_example)
       (log (EvCopier (Managed.m_copyArguments managed_example))
          managed_example_state).
Proof.
  apply (proj1 (proj2 C10_conversion_calls_copier_unconditionally)).
  repeat split; [discriminate | by eexists].
Defined.


(** * Further properties

    Properties of the embedded functions beyond the main results: whole
    lifetimes, the edges of the reference counting, the Device strategy,
    and the thin [ManagedArray]. *)

(** ** Host strategy: release *)

Lemma host_destroy_app l1 l2 s s' :
  host_destroy l1 s = Ok tt s' →
  host_destroy (l1 ++ l2) s = host_destroy l2 s'.
Proof.
  revert s. induction l1 as [|x l1 IH]; intros s H; cbn [host_destroy app] in *.
  - unfold ret in H. now injection H as ->.
  - unfold bind in *.
    destruct (Host.managed_ptr_dtor x s) as [[] s1|u];
      [now apply IH | discriminate H].
Qed.

(** X1.  The whole life of a Host lineage: a pointer from [make_managed],
    [N] copies of it, and the destructors of all of them (the handles are
    equal, so in any order).  The run succeeds, the only observable actions
    are the deletion of the counter followed by one deletion of the host
    object, and both free stores are again what they were before the
    factory call: nothing is leaked, nothing is deleted twice. *)
Theorem X1_host_lineage_lifetime args s (N : nat) :
  Z.of_nat N < SIZE_MAX →
  ∃ p s1 s2 s3,
    Host.make_managed args s = Ok p s1 ∧
    host_copies N p s1 = Ok (replicate N p) s2 ∧
    host_destroy (p :: replicate N p) s2 = Ok tt s3 ∧
    trace s3 =
      trace s ++ [EvDeleteCounter (Host.m_numReferences p);
                  EvDeleteHost (Host.m_cpu p)] ∧
    counters s3 = counters s ∧ objects s3 = objects s ∧
    tuples s3 = tuples s ∧ device s3 = device s.
Proof.
  intros HN.
  pose proof (host_make_managed_Ok args s) as Hmake. cbv zeta in Hmake.
  set (p := Host.Build _ _) in Hmake.
  set (s1 := set_counters _ _) in Hmake.
  assert (Host.m_numReferences p ≠ nullptr) as Hc by apply new_addr_fresh.
  assert (Host.m_cpu p ≠ nullptr) as Hcpu by apply new_addr_fresh.
  assert (counters s1 !! Host.m_numReferences p = Some 1) as H1
    by apply lookup_insert_eq.
  pose proof (host_copies_Ok N p s1 1 Hc H1 ltac:(lia) ltac:(lia)) as Hcopies.
  set (s2 := set_counters _ s1) in Hcopies.
  assert (counters s2 !! Host.m_numReferences p = Some (1 + Z.of_nat N)) as H2
    by apply lookup_insert_eq.
  pose proof (host_destroy_Ok N p s2 _ Hc H2 ltac:(lia) ltac:(lia)) as Hkeep.
  set (s2' := set_counters _ s2) in Hkeep.
  assert (counters s2' !! Host.m_numReferences p = Some 1) as H2'.
  { subst s2'. simpl. rewrite lookup_insert_eq. f_equal. lia. }
  pose proof (host_dtor_last p s2' Hc H2') as Hlast.
  unfold delete_host in Hlast. rewrite decide_False in Hlast by done.
  exists p, s1, s2. eexists.
  split; [exact Hmake|]. split; [exact Hcopies|]. split.
  { change (p :: replicate N p) with (replicate (S N) p).
    rewrite replicate_S_end.
    rewrite (host_destroy_app _ _ _ _ Hkeep). simpl.
    rewrite (bind_Ok _ _ _ _ _ Hlast). reflexivity. }
  simpl. repeat split.
  - now rewrite <- app_assoc.
  - rewrite !delete_insert_eq. apply delete_id.
    apply (new_addr_counters (set_objects (insert (new_addr (host_used s)) args) s)).
  - apply delete_insert_id, new_addr_objects.
Qed.

Lemma X1_host_lineage_lifetime_witness :
  ∃ p s1 s2 s3,
    Host.make_managed [7] initial = Ok p s1 ∧
    host_copies 2 p s1 = Ok (replicate 2 p) s2 ∧
    host_destroy (p :: replicate 2 p) s2 = Ok tt s3 ∧
    trace s3 =
      trace initial ++ [EvDeleteCounter (Host.m_numReferences p);
                        EvDeleteHost (Host.m_cpu p)] ∧
    counters s3 = counters initial ∧ objects s3 = objects initial ∧
    tuples s3 = tuples initial ∧ device s3 = device initial.
Proof.
  apply (X1_host_lineage_lifetime [7] initial 2). vm_compute. reflexivity.
Defined.

(** ** Managed strategy: release *)

Ltac fresh_lookup :=
  match goal with
  | |- _ !! new_addr (host_used ?st) = None =>
      first [exact (new_addr_counters st) | exact (new_addr_objects st)
            | exact (new_addr_tuples st)]
  | |- _ !! new_addr (dom (device ?st)) = None => exact (new_addr_device st)
  end.

(** X2.  The whole life of a Managed lineage in host code: a pointer
    from [make_managed], [N] copies, and the destructors of all of them.
    The run succeeds; after the copies [use_count()] is [1 + N]; the trace
    is the construction kernel, one copy callback per copy, and one
    release (counter, release callback, host object, one kernel launch
    that deletes the device object, one wait); and the three pools of the
    host free store and the device free store are again what they were
    before the factory call. *)
Theorem X2_managed_lineage_lifetime args s (N : nat) :
  Z.of_nat N < SIZE_MAX →
  ∃ p s1 s2 s3,
    Managed.make_managed args s = Ok p s1 ∧
    managed_copies N p s1 = Ok (replicate N p) s2 ∧
    Managed.use_count p s2 = Ok (1 + Z.of_nat N) s2 ∧
    managed_destroy (p :: replicate N p) s2 = Ok tt s3 ∧
    trace s3 =
      trace s ++ [EvLaunch K_make_on_device; EvSynchronize] ++
      replicate N (EvCopier (Managed.m_copyArguments p)) ++
      [EvDeleteCounter (Managed.m_numReferences p);
       EvDeleter (Managed.m_copyArguments p);
       EvDeleteHost (Managed.m_cpu p);
       EvLaunch K_destroy_on_device;
       EvDeleteDevice (Managed.m_gpu p);
       EvSynchronize] ∧
    counters s3 = counters s ∧ objects s3 = objects s ∧
    tuples s3 = tuples s ∧ device s3 = device s.
Proof.
  intros HN.
  pose proof (managed_make_managed_Ok args s) as Hmake. cbv zeta in Hmake.
  set (p := Managed.Build _ _ _ _ _ _) in Hmake.
  set (s1 := set_tuples _ _) in Hmake.
  assert (Managed.m_numReferences p ≠ nullptr) as Hc by apply new_addr_fresh.
  assert (Managed.m_cpu p ≠ nullptr) as Hcpu by apply new_addr_fresh.
  assert (Managed.m_gpu p ≠ nullptr) as Hgpu by apply new_addr_fresh.
  assert (Managed.m_copyArguments p ≠ nullptr) as Ht by apply new_addr_fresh.
  assert (counters s1 !! Managed.m_numReferences p = Some 1) as H1
    by apply lookup_insert_eq.
  assert (Managed.registered p s1) as Hreg.
  { repeat split; try done. simpl. rewrite lookup_insert_eq. by eexists. }
  pose proof (managed_copies_Ok N p s1 1 Hc H1 Hreg ltac:(lia) ltac:(lia)) as Hcopies.
  set (s2 := State _ _ _ _ _) in Hcopies.
  assert (counters s2 !! Managed.m_numReferences p = Some (1 + Z.of_nat N)) as H2
    by apply lookup_insert_eq.
  pose proof (managed_destroy_keep N p s2 _ Hc H2 ltac:(lia) ltac:(lia)) as Hkeep.
  set (s2' := set_counters _ s2) in Hkeep.
  assert (counters s2' !! Managed.m_numReferences p = Some 1) as H2'.
  { subst s2'. simpl. rewrite lookup_insert_eq. f_equal. lia. }
  assert (is_Some (tuples s2' !! Managed.m_copyArguments p)) as Halive
    by apply Hreg.
  pose proof (managed_release_registered p s2' 1 Hc H2' eq_refl eq_refl Ht Halive)
    as Hlast.
  exists p, s1, s2. eexists.
  split; [exact Hmake|]. split; [exact Hcopies|].
  split; [now apply managed_use_count_Ok|]. split.
  { change (p :: replicate N p) with (replicate (S N) p).
    rewrite replicate_S_end.
    rewrite (managed_destroy_app _ _ _ _ Hkeep). simpl.
    unfold Managed.managed_ptr_dtor. simpl.
    rewrite (bind_Ok _ _ _ _ _ Hlast). reflexivity. }
  rewrite decide_False by done. rewrite decide_False by done.
  unfold Managed.release_events.
  rewrite decide_False by done. rewrite decide_False by done.
  simpl. repeat split.
  - repeat rewrite <- app_assoc. reflexivity.
  - rewrite !delete_insert_eq. apply delete_id. fresh_lookup.
  - apply delete_insert_id. fresh_lookup.
  - apply delete_insert_id. fresh_lookup.
  - apply delete_insert_id. fresh_lookup.
Qed.

Lemma X2_managed_lineage_lifetime_witness :
  ∃ p s1 s2 s3,
    Managed.make_managed [7] initial = Ok p s1 ∧
    managed_copies 2 p s1 = Ok (replicate 2 p) s2 ∧
    Managed.use_count p s2 = Ok (1 + Z.of_nat 2) s2 ∧
    managed_destroy (p :: replicate 2 p) s2 = Ok tt s3 ∧
    trace s3 =
      trace initial ++ [EvLaunch K_make_on_device; EvSynchronize] ++
      replicate 2 (EvCopier (Managed.m_copyArguments p)) ++
      [EvDeleteCounter (Managed.m_numReferences p);
       EvDeleter (Managed.m_copyArguments p);
       EvDeleteHost (Managed.m_cpu p);
       EvLaunch K_destroy_on_device;
       EvDeleteDevice (Managed.m_gpu p);
       EvSynchronize] ∧
    counters s3 = counters initial ∧ objects s3 = objects initial ∧
    tuples s3 = tuples initial ∧ device s3 = device initial.
Proof.
  apply (X2_managed_lineage_lifetime [7] initial 2). vm_compute. reflexivity.
Defined.

(** ** Device strategy: the counter and the release *)

Lemma device_use_count_Ok p s n :
  Device.m_numReferences p ≠ nullptr →
  counters s !! Device.m_numReferences p = Some n →
  Device.use_count p s = Ok n s.
Proof.
  intros Hc Hn. unfold Device.use_count.
  rewrite decide_True by done. now apply load_counter_Ok.
Qed.

Lemma device_increment_Ok p s n :
  Device.m_numReferences p ≠ nullptr →
  counters s !! Device.m_numReferences p = Some n →
  Device.incrementReferenceCount p s =
    Ok tt (set_counters (insert (Device.m_numReferences p) (size_wrap (n + 1))) s).
Proof.
  intros Hc Hn. unfold Device.incrementReferenceCount.
  rewrite decide_True by done.
  rewrite (bind_Ok _ _ _ _ _ (load_counter_Ok _ _ _ Hn)).
  now apply store_counter_Ok with n.
Qed.

Lemma device_decrement_keep p s n :
  Device.m_numReferences p ≠ nullptr →
  counters s !! Device.m_numReferences p = Some n →
  size_wrap (n - 1) ≠ 0 →
  Device.decrementReferenceCount p s =
    Ok tt (set_counters (insert (Device.m_numReferences p) (size_wrap (n - 1))) s).
Proof.
  intros Hc Hn Hw. unfold Device.decrementReferenceCount.
  rewrite decide_True by done.
  rewrite (bind_Ok _ _ _ _ _ (load_counter_Ok _ _ _ Hn)).
  rewrite (bind_Ok _ _ _ _ _ (store_counter_Ok _ _ _ _ Hn)).
  erewrite bind_Ok; last (apply load_counter_Ok; simpl; apply lookup_insert_eq).
  now rewrite decide_False.
Qed.

(** The release at count zero: the counter goes, one kernel is launched
    that deletes a non-null device object, the host waits. *)
Lemma device_decrement_release p s n :
  Device.m_numReferences p ≠ nullptr →
  counters s !! Device.m_numReferences p = Some n →
  size_wrap (n - 1) = 0 →
  Device.decrementReferenceCount p s =
    Ok tt (State (delete (Device.m_numReferences p) (counters s))
             (objects s) (tuples s)
             (if decide (Device.m_gpu p = nullptr) then device s
              else delete (Device.m_gpu p) (device s))
             (trace s ++
              [EvDeleteCounter (Device.m_numReferences p);
               EvLaunch K_destroy_on_device] ++
              (if decide (Device.m_gpu p = nullptr) then []
               else [EvDeleteDevice (Device.m_gpu p)]) ++
              [EvSynchronize])).
Proof.
  intros Hc Hn Hw. unfold Device.decrementReferenceCount.
  rewrite decide_True by done.
  rewrite (bind_Ok _ _ _ _ _ (load_counter_Ok _ _ _ Hn)).
  rewrite (bind_Ok _ _ _ _ _ (store_counter_Ok _ _ _ _ Hn)).
  erewrite bind_Ok; last (apply load_counter_Ok; simpl; apply lookup_insert_eq).
  rewrite decide_True by done.
  erewrite bind_Ok; last (eapply delete_counter_Ok; simpl; apply lookup_insert_eq).
  unfold destroy_on_device, launch, cudaDeviceSynchronize, emit, bind, ret,
    delete_device, log, set_counters, set_device; simpl.
  rewrite delete_insert_eq.
  destruct (decide (Device.m_gpu p ≠ nullptr)) as [E|E]; simpl.
  - rewrite !decide_False by done. f_equal. f_equal. now rewrite <- !app_assoc.
  - assert (Device.m_gpu p = nullptr) as E'
      by (destruct (decide (Device.m_gpu p = nullptr)); done).
    rewrite !decide_True by done. f_equal. f_equal. now rewrite <- !app_assoc.
Qed.

Lemma make_on_device_Ok args s :
  let d := new_addr (dom (device s)) in
  make_on_device args s =
    Ok d (log EvSynchronize
            (set_device (insert d args) (log (EvLaunch K_make_on_device) s))).
Proof. reflexivity. Qed.

Lemma device_raw_Ok conv devicePtr s :
  let c := new_addr (host_used s) in
  Device.managed_ptr_raw conv devicePtr s =
    Ok (Device.Build (conv devicePtr) c) (set_counters (insert c 1) s).
Proof. reflexivity. Qed.

Lemma device_copy_Ok p s n :
  Device.m_numReferences p ≠ nullptr →
  counters s !! Device.m_numReferences p = Some n →
  Device.managed_ptr_copy HostCode p s =
    Ok p (set_counters (insert (Device.m_numReferences p) (size_wrap (n + 1))) s).
Proof.
  intros Hc Hn. unfold Device.managed_ptr_copy. rewrite device_copy_eta. simpl.
  now rewrite (bind_Ok _ _ _ _ _ (device_increment_Ok _ _ _ Hc Hn)).
Qed.

Lemma device_copies_Ok N : ∀ p s n,
  Device.m_numReferences p ≠ nullptr →
  counters s !! Device.m_numReferences p = Some n →
  0 ≤ n → n + Z.of_nat N ≤ SIZE_MAX →
  device_copies N p s =
    Ok (replicate N p)
       (set_counters (insert (Device.m_numReferences p) (n + Z.of_nat N)) s).
Proof.
  induction N as [|N IH]; intros p s n Hc Hn H0 Hmax.
  - simpl. unfold ret. f_equal. rewrite Z.add_0_r.
    symmetry. now apply set_counters_insert_same.
  - cbn [device_copies replicate].
    rewrite (bind_Ok _ _ _ _ _ (device_copy_Ok _ _ _ Hc Hn)).
    rewrite size_wrap_small by lia.
    erewrite bind_Ok; last (apply (IH p _ (n + 1)); simpl;
      [done | apply lookup_insert_eq | lia | lia]).
    unfold ret. f_equal. rewrite set_counters_insert_twice. do 2 f_equal. lia.
Qed.

Lemma device_dtor_keep p s n :
  Device.m_numReferences p ≠ nullptr →
  counters s !! Device.m_numReferences p = Some n →
  2 ≤ n ≤ SIZE_MAX →
  Device.managed_ptr_dtor HostCode p s =
    Ok tt (set_counters (insert (Device.m_numReferences p) (n - 1)) s).
Proof.
  intros Hc Hn Hb. unfold Device.managed_ptr_dtor. simpl.
  rewrite (device_decrement_keep _ _ _ Hc Hn); rewrite size_wrap_small; (done || lia).
Qed.

Lemma device_destroy_keep K : ∀ p s n,
  Device.m_numReferences p ≠ nullptr →
  counters s !! Device.m_numReferences p = Some n →
  Z.of_nat K < n → n ≤ SIZE_MAX →
  device_destroy (replicate K p) s =
    Ok tt (set_counters
             (insert (Device.m_numReferences p) (n - Z.of_nat K)) s).
Proof.
  induction K as [|K IH]; intros p s n Hc Hn HK Hmax.
  - simpl. unfold ret. f_equal. rewrite Z.sub_0_r.
    symmetry. now apply set_counters_insert_same.
  - cbn [device_destroy replicate].
    erewrite bind_Ok; last (apply (device_dtor_keep _ _ n); (done || lia)).
    rewrite (IH p _ (n - 1)); simpl;
      [| done | apply lookup_insert_eq | lia | lia].
    rewrite set_counters_insert_twice. do 3 f_equal. lia.
Qed.

Lemma device_destroy_app l1 l2 s s' :
  device_destroy l1 s = Ok tt s' →
  device_destroy (l1 ++ l2) s = device_destroy l2 s'.
Proof.
  revert s. induction l1 as [|x l1 IH]; intros s H; cbn [device_destroy app] in *.
  - unfold ret in H. now injection H as ->.
  - unfold bind in *.
    destruct (Device.managed_ptr_dtor HostCode x s) as [[] s1|u];
      [now apply IH | discriminate H].
Qed.

(** X3.  The whole life of a Device lineage that starts with the
    raw-pointer constructor: [detail::make_on_device] builds the object with
    one kernel launch and never touches the pool of host objects, and the
    constructor takes the device address and allocates the counter; [N]
    copies made in host code bring [use_count()] to [1 + N]; the
    destructors of all [1 + N] handles, run in host code, delete the
    counter and then launch exactly one kernel that deletes the device
    object, and wait for it.  Afterwards the free stores are what they were
    before the object was made.  Copies and destructors that run in device
    code change nothing. *)
Theorem X3_device_lineage_lifetime args s (N : nat) :
  Z.of_nat N < SIZE_MAX →
  ∃ devicePtr s0 p s1 s2 s3,
    make_on_device args s = Ok devicePtr s0 ∧
    Device.managed_ptr_raw same_address devicePtr s0 = Ok p s1 ∧
    Device.get p = devicePtr ∧
    objects s1 = objects s ∧
    device s1 !! Device.get p = Some args ∧
    device_copies N p s1 = Ok (replicate N p) s2 ∧
    Device.use_count p s2 = Ok (1 + Z.of_nat N) s2 ∧
    Device.managed_ptr_copy DeviceCode p s2 = Ok p s2 ∧
    Device.managed_ptr_dtor DeviceCode p s2 = Ok tt s2 ∧
    device_destroy (p :: replicate N p) s2 = Ok tt s3 ∧
    trace s3 =
      trace s ++
      [EvLaunch K_make_on_device; EvSynchronize;
       EvDeleteCounter (Device.m_numReferences p);
       EvLaunch K_destroy_on_device;
       EvDeleteDevice (Device.m_gpu p);
       EvSynchronize] ∧
    counters s3 = counters s ∧ objects s3 = objects s ∧
    tuples s3 = tuples s ∧ device s3 = device s.
Proof.
  intros HN.
  pose proof (make_on_device_Ok args s) as Hobject. cbv zeta in Hobject.
  set (devicePtr := new_addr _) in Hobject.
  set (s0 := log EvSynchronize _) in Hobject.
  pose proof (device_raw_Ok same_address devicePtr s0) as Hmake.
  cbv zeta in Hmake.
  set (p := Device.Build _ _) in Hmake.
  set (s1 := set_counters _ _) in Hmake.
  assert (Device.m_numReferences p ≠ nullptr) as Hc by apply new_addr_fresh.
  assert (Device.m_gpu p ≠ nullptr) as Hgpu by apply new_addr_fresh.
  assert (counters s1 !! Device.m_numReferences p = Some 1) as H1
    by apply lookup_insert_eq.
  pose proof (device_copies_Ok N p s1 1 Hc H1 ltac:(lia) ltac:(lia)) as Hcopies.
  set (s2 := set_counters _ s1) in Hcopies.
  assert (counters s2 !! Device.m_numReferences p = Some (1 + Z.of_nat N)) as H2
    by apply lookup_insert_eq.
  pose proof (device_destroy_keep N p s2 _ Hc H2 ltac:(lia) ltac:(lia)) as Hkeep.
  set (s2' := set_counters _ s2) in Hkeep.
  assert (counters s2' !! Device.m_numReferences p = Some 1) as H2'.
  { subst s2'. simpl. rewrite lookup_insert_eq. f_equal. lia. }
  pose proof (device_decrement_release p s2' 1 Hc H2' eq_refl) as Hlast.
  rewrite !decide_False in Hlast by done.
  exists devicePtr, s0, p, s1, s2. eexists.
  split; [exact Hobject|]. split; [exact Hmake|].
  split; [reflexivity|]. split; [reflexivity|].
  split; [apply lookup_insert_eq|]. split; [exact Hcopies|].
  split; [now apply device_use_count_Ok|].
  split; [reflexivity|]. split; [reflexivity|]. split.
  { change (p :: replicate N p) with (replicate (S N) p).
    rewrite replicate_S_end.
    rewrite (device_destroy_app _ _ _ _ Hkeep). simpl.
    unfold Device.managed_ptr_dtor. simpl.
    rewrite (bind_Ok _ _ _ _ _ Hlast). reflexivity. }
  simpl. repeat split.
  - repeat rewrite <- app_assoc. reflexivity.
  - rewrite !delete_insert_eq. apply delete_id. subst s0. fresh_lookup.
  - apply delete_insert_id. subst devicePtr. fresh_lookup.
Qed.

Lemma X3_device_lineage_lifetime_witness :
  ∃ devicePtr s0 p s1 s2 s3,
    make_on_device [7] initial = Ok devicePtr s0 ∧
    Device.managed_ptr_raw same_address devicePtr s0 = Ok p s1 ∧
    Device.get p = devicePtr ∧
    objects s1 = objects initial ∧
    device s1 !! Device.get p = Some [7] ∧
    device_copies 2 p s1 = Ok (replicate 2 p) s2 ∧
    Device.use_count p s2 = Ok (1 + Z.of_nat 2) s2 ∧
    Device.managed_ptr_copy DeviceCode p s2 = Ok p s2 ∧
    Device.managed_ptr_dtor DeviceCode p s2 = Ok tt s2 ∧
    device_destroy (p :: replicate 2 p) s2 = Ok tt s3 ∧
    trace s3 =
      trace initial ++
      [EvLaunch K_make_on_device; EvSynchronize;
       EvDeleteCounter (Device.m_numReferences p);
       EvLaunch K_destroy_on_device;
       EvDeleteDevice (Device.m_gpu p);
       EvSynchronize] ∧
    counters s3 = counters initial ∧ objects s3 = objects initial ∧
    tuples s3 = tuples initial ∧ device s3 = device initial.
Proof.
  apply (X3_device_lineage_lifetime [7] initial 2). vm_compute. reflexivity.
Defined.

(** ** Managed strategy: clients and casts *)

Lemma elem_of_delete_lookup {A} (l : list A) i j y :
  l !! j = Some y → i ≠ j → y ∈ delete i l.
Proof.
  revert i j. induction l as [|x t IH]; intros i j Hj Hij; [done|].
  destruct i as [|i], j as [|j]; simpl in *; try done.
  - eapply list_elem_of_lookup_2, Hj.
  - injection Hj as ->. apply list_elem_of_here.
  - apply list_elem_of_further. apply (IH i j); [done | lia].
Qed.

Lemma elem_of_delete_or {A} (l : list A) i h y :
  l !! i = Some h → y ∈ l → y = h ∨ y ∈ delete i l.
Proof.
  intros Hi [j Hj]%list_elem_of_lookup_1.
  destruct (decide (i = j)) as [-> | Hij]; [left; congruence | right].
  now apply (elem_of_delete_lookup l i j).
Qed.

Lemma elem_of_insert_delete {A} (l : list A) i h x y :
  l !! i = Some h → y ∈ <[i := x]> l ↔ y = x ∨ y ∈ delete i l.
Proof.
  revert i. induction l as [|a t IH]; intros i Hi; [done|].
  destruct i as [|i]; simpl in *.
  - apply elem_of_cons.
  - rewrite !elem_of_cons, (IH i Hi). tauto.
Qed.

Lemma owners_pos {H : Type} (ctr : H → Z) c (l : list H) :
  1 ≤ owners ctr c l → ∃ h, h ∈ l ∧ ctr h = c.
Proof.
  induction l as [|x t IH]; simpl; [lia|].
  destruct (decide (ctr x = c)) as [E|E].
  - intros _. exists x. split; [apply list_elem_of_here | done].
  - intros Hpos. destruct IH as (h & Hin & Hh); [lia|].
    exists h. split; [by apply list_elem_of_further | done].
Qed.

(** What the invariants say of a live pointer. *)
Lemma plain_pre l s h :
  managed_inv l s → managed_pools l s → Z.of_nat (length l) < SIZE_MAX →
  h ∈ l →
  Managed.m_numReferences h ≠ nullptr ∧
  (∃ n, counters s !! Managed.m_numReferences h = Some n ∧
        n = owners Managed.m_numReferences (Managed.m_numReferences h) l ∧
        1 ≤ n < SIZE_MAX) ∧
  Managed.registered h s ∧
  Managed.m_cpu h ≠ nullptr ∧ is_Some (objects s !! Managed.m_cpu h) ∧
  Managed.m_gpu h ≠ nullptr ∧ is_Some (device s !! Managed.m_gpu h).
Proof.
  intros (Hcounted & Hreg & _) (Hlive & _) Hlen Hin.
  destruct (Hlive h Hin) as (Hc & Hcpu & Hobj & Hgpu & Hdev).
  destruct (counted_lookup _ l _ h Hcounted Hin Hc) as (n & Hn & Hown & Hb).
  split; [done|]. split; [exists n; repeat split; (done || lia)|].
  split; [by apply Hreg|]. done.
Qed.

(** The decrement of a pointer that owns a host and a device object. *)
Lemma managed_decrement_run h s n :
  Managed.m_numReferences h ≠ nullptr →
  counters s !! Managed.m_numReferences h = Some n → 1 ≤ n ≤ SIZE_MAX →
  Managed.registered h s →
  Managed.m_cpu h ≠ nullptr → Managed.m_gpu h ≠ nullptr →
  ∃ s' evs,
    Managed.decrementReferenceCount h s = Ok tt s' ∧
    trace s' = trace s ++ evs ∧
    counters s' = dec_map (Managed.m_numReferences h) (counters s) ∧
    ((n ≠ 1 ∧ evs = [] ∧ objects s' = objects s ∧ device s' = device s ∧
      tuples s' = tuples s) ∨
     (n = 1 ∧ evs = Managed.release_events h ∧
      objects s' = delete (Managed.m_cpu h) (objects s) ∧
      device s' = delete (Managed.m_gpu h) (device s) ∧
      tuples s' = delete (Managed.m_copyArguments h) (tuples s))).
Proof.
  intros Hc Hn Hb (_ & Hdel & Ht & Halive) Hcpu Hgpu.
  unfold dec_map. rewrite decide_False by done. rewrite Hn.
  destruct (decide (n = 1)) as [-> | Hn1].
  - rewrite (managed_release_registered _ _ _ Hc Hn eq_refl Hdel Ht Halive).
    rewrite !decide_False by done.
    eexists _, _. split; [reflexivity|]. split; [reflexivity|].
    split; [reflexivity|]. right. done.
  - rewrite (managed_decrement_keep _ _ _ Hc Hn);
      rewrite size_wrap_small by lia; [|lia].
    eexists _, []. split; [reflexivity|]. simpl.
    split; [now rewrite app_nil_r|]. split; [reflexivity|]. left. done.
Qed.

(** The increment of a registered pointer. *)
Lemma managed_increment_run p s n :
  Managed.m_numReferences p ≠ nullptr →
  counters s !! Managed.m_numReferences p = Some n → 0 ≤ n < SIZE_MAX →
  Managed.registered p s →
  ∃ s',
    Managed.incrementReferenceCount p s = Ok tt s' ∧
    trace s' = trace s ++ [EvCopier (Managed.m_copyArguments p)] ∧
    counters s' = inc_map (Managed.m_numReferences p) (counters s) ∧
    objects s' = objects s ∧ device s' = device s ∧ tuples s' = tuples s.
Proof.
  intros Hc Hn Hb Hreg.
  rewrite (managed_increment_Ok _ _ _ Hc Hn Hreg), size_wrap_small by lia.
  unfold inc_map. rewrite decide_False by done. rewrite Hn.
  eexists. repeat split; reflexivity.
Qed.

Lemma managed_pools_ext l1 l2 s1 s2 :
  (∀ y, y ∈ l2 ↔ y ∈ l1) →
  objects s2 = objects s1 → device s2 = device s1 → tuples s2 = tuples s1 →
  managed_pools l1 s1 → managed_pools l2 s2.
Proof.
  intros Hl Ho Hd Ht (Hlive & Hapart & Hobj & Hdev & Htup).
  unfold managed_pools. rewrite Ho, Hd, Ht. repeat split.
  - apply (Hlive h). now apply Hl.
  - apply (Hlive h). now apply Hl.
  - apply (Hlive h). now apply Hl.
  - apply (Hlive h). now apply Hl.
  - apply (Hlive h). now apply Hl.
  - intros h1 h2 H1 H2. apply Hapart; now apply Hl.
  - intros a Ha. destruct (Hobj a Ha) as (h & Hin & E).
    exists h. split; [now apply Hl | done].
  - intros a Ha. destruct (Hdev a Ha) as (h & Hin & E).
    exists h. split; [now apply Hl | done].
  - intros a Ha. destruct (Htup a Ha) as (h & Hin & E).
    exists h. split; [now apply Hl | done].
Qed.

(** The last owner [h] has released what it held. *)
Lemma managed_pools_release l s l' s' h :
  managed_pools l s → h ∈ l →
  (∀ y, y ∈ l' ↔ y ∈ l ∧ y ≠ h) →
  objects s' = delete (Managed.m_cpu h) (objects s) →
  device s' = delete (Managed.m_gpu h) (device s) →
  tuples s' = delete (Managed.m_copyArguments h) (tuples s) →
  managed_pools l' s'.
Proof.
  intros (Hlive & Hapart & Hobj & Hdev & Htup) Hh Hl Ho Hd Ht.
  unfold managed_pools. rewrite Ho, Hd, Ht.
  assert (∀ y, y ∈ l' →
            Managed.m_cpu y ≠ Managed.m_cpu h ∧
            Managed.m_gpu y ≠ Managed.m_gpu h) as Hne.
  { intros y [Hy Hyh]%Hl. split; intros E; apply Hyh, Hapart; auto. }
  split; [|split; [|split; [|split]]].
  - intros y Hy. destruct (Hne y Hy) as [Hcpu Hgpu].
    apply Hl in Hy as [Hy _].
    destruct (Hlive y Hy) as (H1 & H2 & H3 & H4 & H5).
    rewrite !lookup_delete_ne by done. done.
  - intros h1 h2 [H1 _]%Hl [H2 _]%Hl. now apply Hapart.
  - intros a [Hne' Ha]%lookup_delete_is_Some.
    destruct (Hobj a Ha) as (y & Hin & E).
    exists y. split; [|done]. apply Hl. split; [done|]. congruence.
  - intros a [Hne' Ha]%lookup_delete_is_Some.
    destruct (Hdev a Ha) as (y & Hin & E).
    exists y. split; [|done]. apply Hl. split; [done|]. congruence.
  - intros a [Hne' Ha]%lookup_delete_is_Some.
    destruct (Htup a Ha) as (y & Hin & E).
    exists y. split; [|done]. apply Hl. split; [done|]. congruence.
Qed.

(** The pointer at [i] has run its decrement and is gone. *)
Lemma managed_pools_detach l s i h n s' evs :
  managed_pools l s → l !! i = Some h →
  n = owners Managed.m_numReferences (Managed.m_numReferences h) l →
  ((n ≠ 1 ∧ evs = [] ∧ objects s' = objects s ∧ device s' = device s ∧
    tuples s' = tuples s) ∨
   (n = 1 ∧ evs = Managed.release_events h ∧
    objects s' = delete (Managed.m_cpu h) (objects s) ∧
    device s' = delete (Managed.m_gpu h) (device s) ∧
    tuples s' = delete (Managed.m_copyArguments h) (tuples s))) →
  1 ≤ n →
  managed_pools (delete i l) s'.
Proof.
  intros Hpools Hi Hn Hcase Hpos.
  pose proof (list_elem_of_lookup_2 _ _ _ Hi) as Hin.
  pose proof (owners_delete Managed.m_numReferences
                (Managed.m_numReferences h) l i h Hi) as Hdel.
  rewrite decide_True in Hdel by done.
  destruct Hcase as [(Hn1 & _ & Ho & Hd & Ht) | (Hn1 & _ & Ho & Hd & Ht)].
  - apply (managed_pools_ext l _ s); try done.
    intros y. split; [apply list_elem_of_delete_inv|].
    intros Hy. destruct (elem_of_delete_or l i h y Hi Hy) as [-> | Hy']; [|done].
    destruct (owners_pos Managed.m_numReferences (Managed.m_numReferences h)
                (delete i l)) as (y & Hy' & E); [lia|].
    assert (y = h) as <-; [|done].
    destruct Hpools as (_ & Hapart & _).
    apply Hapart; [by eapply list_elem_of_delete_inv | done | by left].
  - apply (managed_pools_release l s _ _ h); try done.
    intros y. split.
    + intros Hy. split; [by eapply list_elem_of_delete_inv|].
      intros ->.
      pose proof (owners_elem Managed.m_numReferences h _ Hy). lia.
    + intros [Hy Hne].
      destruct (elem_of_delete_or l i h y Hi Hy) as [-> | Hy']; done.
Qed.

(** A pointer from [make_managed] has joined. *)
Lemma managed_pools_make l s p s' args :
  managed_inv l s → managed_pools l s →
  Managed.m_numReferences p ≠ nullptr →
  Managed.m_cpu p ≠ nullptr → Managed.m_gpu p ≠ nullptr →
  counters s !! Managed.m_numReferences p = None →
  objects s !! Managed.m_cpu p = None →
  device s !! Managed.m_gpu p = None →
  tuples s !! Managed.m_copyArguments p = None →
  objects s' = <[Managed.m_cpu p := args]> (objects s) →
  device s' = <[Managed.m_gpu p := args]> (device s) →
  tuples s' = <[Managed.m_copyArguments p := args]> (tuples s) →
  managed_pools (p :: l) s'.
Proof.
  intros (Hcounted & Hreg & _) (Hlive & Hapart & Hobj & Hdev & Htup)
    Hc Hcpu Hgpu Hfc Hfo Hfd Hft Ho Hd Ht.
  unfold managed_pools. rewrite Ho, Hd, Ht.
  assert (∀ y, y ∈ l →
            ¬ (Managed.m_numReferences p = Managed.m_numReferences y ∨
               Managed.m_cpu p = Managed.m_cpu y ∨
               Managed.m_gpu p = Managed.m_gpu y ∨
               Managed.m_copyArguments p = Managed.m_copyArguments y)) as Hnew.
  { intros y Hy. destruct (Hlive y Hy) as (H1 & H2 & [o H3] & H4 & [d H5]).
    destruct Hcounted as (_ & _ & Halloc).
    destruct (Halloc y Hy H1) as [n Hn].
    destruct (Hreg y Hy H1) as (_ & _ & _ & [t Ht']).
    intros [E | [E | [E | E]]]; rewrite E in *; congruence. }
  split; [|split; [|split; [|split]]].
  - intros y [-> | Hy]%elem_of_cons.
    + rewrite !lookup_insert_eq. repeat split; try done; by eexists.
    + destruct (Hlive y Hy) as (H1 & H2 & H3 & H4 & H5).
      repeat split; try done; apply lookup_insert_is_Some'; by right.
  - intros h1 h2 [-> | H1]%elem_of_cons [-> | H2]%elem_of_cons E; try done.
    + exfalso. now apply (Hnew h2 H2).
    + exfalso. apply (Hnew h1 H1).
      destruct E as [E | [E | [E | E]]]; auto.
    + now apply Hapart.
  - intros a [<- | Ha]%lookup_insert_is_Some'.
    + exists p. split; [apply list_elem_of_here | done].
    + destruct (Hobj a Ha) as (y & Hy & E).
      exists y. split; [by apply list_elem_of_further | done].
  - intros a [<- | Ha]%lookup_insert_is_Some'.
    + exists p. split; [apply list_elem_of_here | done].
    + destruct (Hdev a Ha) as (y & Hy & E).
      exists y. split; [by apply list_elem_of_further | done].
  - intros a [<- | Ha]%lookup_insert_is_Some'.
    + exists p. split; [apply list_elem_of_here | done].
    + destruct (Htup a Ha) as (y & Hy & E).
      exists y. split; [by apply list_elem_of_further | done].
Qed.

Lemma deletes_allocated_nil s : deletes_allocated s [].
Proof.
  split; [apply NoDup_nil_2|].
  intros a. repeat split; intros Hin; by apply elem_of_nil in Hin.
Qed.

(** The events of a release are deletions of what the pointer holds. *)
Lemma deletes_allocated_release s h n tail :
  Managed.m_numReferences h ≠ nullptr →
  counters s !! Managed.m_numReferences h = Some n →
  Managed.registered h s →
  Managed.m_cpu h ≠ nullptr → is_Some (objects s !! Managed.m_cpu h) →
  Managed.m_gpu h ≠ nullptr → is_Some (device s !! Managed.m_gpu h) →
  (tail = [] ∨ ∃ t, tail = [EvCopier t]) →
  deletes_allocated s (Managed.release_events h ++ tail).
Proof.
  intros Hc Hn (_ & _ & _ & Ht) Hcpu Hobj Hgpu Hdev Htail.
  unfold Managed.release_events. rewrite !decide_False by done. simpl.
  split.
  - destruct Htail as [-> | [t ->]]; simpl;
      repeat (apply NoDup_cons; split;
              [rewrite ?not_elem_of_cons; repeat split;
               (discriminate || apply not_elem_of_nil)|]);
      apply NoDup_nil_2.
  - intros a.
    repeat split; intros Hin;
      repeat (apply elem_of_cons in Hin as [Hin | Hin];
              [first [discriminate Hin | injection Hin as ->; by eauto]|]);
      destruct Htail as [-> | [t ->]];
      repeat (apply elem_of_cons in Hin as [Hin | Hin]; [discriminate Hin|]);
      by apply elem_of_nil in Hin.
Qed.

Lemma deletes_allocated_quiet s evs :
  NoDup evs →
  (∀ e, e ∈ evs → (∃ t, e = EvCopier t) ∨ (∃ k, e = EvLaunch k) ∨
                  e = EvSynchronize) →
  deletes_allocated s evs.
Proof.
  intros Hnd Hq. split; [done|].
  intros a. repeat split; intros Hin;
    destruct (Hq _ Hin) as [[t E] | [[k E] | E]]; discriminate.
Qed.

(** One statement of such a client runs to the end, keeps both
    invariants, and deletes only what is allocated. *)
Lemma plain_step op l s :
  plain op = true →
  managed_inv l s → managed_pools l s → Z.of_nat (length l) < SIZE_MAX →
  ∃ l' s' evs,
    managed_step op l s = Ok l' s' ∧
    managed_inv l' s' ∧ managed_pools l' s' ∧
    (length l' ≤ S (length l))%nat ∧
    trace s' = trace s ++ evs ∧ deletes_allocated s evs.
Proof.
  intros Hplain Hinv Hpools Hlen.
  destruct (managed_step_inv op l s Hinv Hlen)
    as (l' & s' & Hstep & Hinv' & Hlen').
  exists l', s'.
  assert (∃ evs, managed_pools l' s' ∧ trace s' = trace s ++ evs ∧
                 deletes_allocated s evs) as (evs & H1 & H2 & H3);
    [|exists evs; done].
  assert (∀ l0 s0, Ok l0 s0 = Ok l' s' → l0 = l' ∧ s0 = s') as Hsame
    by (intros l0 s0 [= -> ->]; done).
  assert (l' = l → s' = s →
          ∃ evs, managed_pools l' s' ∧ trace s' = trace s ++ evs ∧
                 deletes_allocated s evs) as Hskip.
  { intros -> ->. exists []. split; [done|].
    split; [now rewrite app_nil_r | apply deletes_allocated_nil]. }
  destruct op as [args | | i | conv i | i hostPtr devicePtr | cast i | cast i
                 | cast i | i j | conv i j | i]; try discriminate Hplain;
    cbn [managed_step] in Hstep.
  - (* make_managed *)
    pose proof (managed_make_managed_Ok args s) as Hmake. cbv zeta in Hmake.
    rewrite (bind_Ok _ _ _ _ _ Hmake) in Hstep.
    apply Hsame in Hstep as [<- <-].
    exists [EvLaunch K_make_on_device; EvSynchronize]. split; [|split].
    + eapply (managed_pools_make l s _ _ args Hinv Hpools); simpl;
        try reflexivity; try apply new_addr_fresh.
      * match goal with |- _ !! new_addr (host_used ?x) = _ =>
          apply (new_addr_counters x) end.
      * apply new_addr_objects.
      * match goal with |- _ !! new_addr (dom (device ?x)) = _ =>
          apply (new_addr_device x) end.
      * match goal with |- _ !! new_addr (host_used ?x) = _ =>
          apply (new_addr_tuples x) end.
    + simpl. now rewrite <- app_assoc.
    + apply deletes_allocated_quiet.
      * repeat (apply NoDup_cons; split;
                [rewrite ?not_elem_of_cons; repeat split;
                 (discriminate || apply not_elem_of_nil)|]).
        apply NoDup_nil_2.
      * intros e [-> | [-> | Hin%elem_of_nil]%elem_of_cons]%elem_of_cons;
          [right; left; by eexists | right; by right | done].
  - (* copy *)
    destruct (l !! i) as [h|] eqn:Hi;
      [|apply Hsame in Hstep as [<- <-]; now apply Hskip].
    pose proof (list_elem_of_lookup_2 _ _ _ Hi) as Hin.
    destruct (plain_pre l s h Hinv Hpools Hlen Hin)
      as (Hc & (n & Hn & _ & Hb) & Hreg & _).
    rewrite (bind_Ok _ _ _ _ _ (managed_copy_Ok _ _ _ Hc Hn Hreg)) in Hstep.
    apply Hsame in Hstep as [<- <-].
    exists [EvCopier (Managed.m_copyArguments h)]. split; [|split].
    + apply (managed_pools_ext l _ s); try done.
      intros y. rewrite elem_of_cons. split; [intros [-> | ?]; done | by right].
    + reflexivity.
    + apply deletes_allocated_quiet.
      * apply NoDup_singleton.
      * intros e ->%list_elem_of_singleton. left. by eexists.
  - (* assignment *)
    destruct (l !! i) as [this|] eqn:Hi;
      [|apply Hsame in Hstep as [<- <-]; now apply Hskip].
    destruct (l !! j) as [other|] eqn:Hj;
      [|apply Hsame in Hstep as [<- <-]; now apply Hskip].
    destruct (decide (i = j)) as [-> | Hij].
    { rewrite bool_decide_eq_true_2 in Hstep by done.
      unfold Managed.operator_assign in Hstep. simpl in Hstep.
      unfold bind, ret in Hstep. rewrite list_insert_id in Hstep by done.
      apply Hsame in Hstep as [<- <-]. now apply Hskip. }
    rewrite bool_decide_eq_false_2 in Hstep by done.
    unfold Managed.operator_assign in Hstep. cbn [negb] in Hstep.
    rewrite managed_copy_eta in Hstep. simpl in Hstep.
    pose proof (list_elem_of_lookup_2 _ _ _ Hi) as Hin.
    destruct (plain_pre l s this Hinv Hpools Hlen Hin)
      as (Hc & (n & Hn & Hown & Hb) & Hreg & Hcpu & Hobj & Hgpu & Hdev).
    destruct (managed_decrement_run this s n Hc Hn ltac:(lia) Hreg Hcpu Hgpu)
      as (s1 & evs1 & Hdec & Htr1 & Hcs1 & Hcase).
    assert (tuples s1 = tuples s ∨
            (Managed.m_numReferences this ≠ nullptr ∧
             counters s !! Managed.m_numReferences this = Some 1 ∧
             tuples s1 = delete (Managed.m_copyArguments this) (tuples s)))
      as Hts1.
    { destruct Hcase as [(_ & _ & _ & _ & Ht) | (-> & _ & _ & _ & Ht)];
        [by left | right; done]. }
    pose proof (managed_inv_detach l s s1 i this Hinv Hi Hcs1 Hts1) as Hinv1.
    set (l1 := <[i := Managed.managed_ptr_default]> l) in Hinv1.
    assert (length l1 = length l) as Hlen1 by apply length_insert.
    assert (l1 !! j = Some other) as Hj1
      by (subst l1; now rewrite list_lookup_insert_ne).
    pose proof (list_elem_of_lookup_2 _ _ _ Hj) as Hin_other.
    destruct (plain_pre l s other Hinv Hpools Hlen Hin_other)
      as (Hc' & _).
    destruct (managed_inv_pre l1 s1 other Hinv1 ltac:(lia)
                (list_elem_of_lookup_2 _ _ _ Hj1))
      as [? | [(m & Hm & Hbm) Hreg1]]; [done|].
    destruct (managed_increment_run other s1 m Hc' Hm ltac:(lia) Hreg1)
      as (s2 & Hinc & Htr2 & Hcs2 & Ho2 & Hd2 & Ht2).
    unfold bind at 1 in Hstep. unfold bind at 1 in Hstep.
    rewrite Hdec in Hstep. unfold bind at 1 in Hstep. rewrite Hinc in Hstep.
    apply Hsame in Hstep as [<- <-].
    exists (evs1 ++ [EvCopier (Managed.m_copyArguments other)]).
    split; [|split].
    + apply (managed_pools_ext (delete i l) _ s1); try done.
      * intros y. rewrite (elem_of_insert_delete l i this other y Hi).
        split; [intros [-> | ?]; [|done] | by right].
        now apply (elem_of_delete_lookup l i j).
      * now apply (managed_pools_detach l s i this n s1 evs1).
    + rewrite Htr2, Htr1. now rewrite app_assoc.
    + destruct Hcase as [(_ & -> & _) | (_ & -> & _)].
      * apply deletes_allocated_quiet; [apply NoDup_singleton|].
        intros e ->%list_elem_of_singleton. left. by eexists.
      * apply (deletes_allocated_release s this n); try done.
        right. by eexists.
  - (* destruction *)
    destruct (l !! i) as [h|] eqn:Hi;
      [|apply Hsame in Hstep as [<- <-]; now apply Hskip].
    pose proof (list_elem_of_lookup_2 _ _ _ Hi) as Hin.
    destruct (plain_pre l s h Hinv Hpools Hlen Hin)
      as (Hc & (n & Hn & Hown & Hb) & Hreg & Hcpu & Hobj & Hgpu & Hdev).
    destruct (managed_decrement_run h s n Hc Hn ltac:(lia) Hreg Hcpu Hgpu)
      as (s1 & evs1 & Hdec & Htr1 & Hcs1 & Hcase).
    unfold Managed.managed_ptr_dtor in Hstep. simpl in Hstep.
    rewrite (bind_Ok _ _ _ _ _ Hdec) in Hstep.
    apply Hsame in Hstep as [<- <-].
    exists evs1. split; [|split].
    + now apply (managed_pools_detach l s i h n s1 evs1).
    + done.
    + destruct Hcase as [(_ & -> & _) | (_ & -> & _)];
        [apply deletes_allocated_nil|].
      rewrite <- (app_nil_r (Managed.release_events h)).
      apply (deletes_allocated_release s h n); try done. by left.
Qed.

(** A whole client of this kind. *)
Lemma plain_run prog : ∀ l s,
  forallb plain prog = true →
  managed_inv l s → managed_pools l s →
  Z.of_nat (length l) + Z.of_nat (length prog) ≤ SIZE_MAX →
  ∃ l' s',
    managed_run prog l s = Ok l' s' ∧
    managed_inv l' s' ∧ managed_pools l' s' ∧
    (length l' ≤ length l + length prog)%nat.
Proof.
  induction prog as [|op rest IH]; intros l s Hplain Hinv Hpools Hlen.
  - exists l, s. split; [done|]. split; [done|]. split; [done | lia].
  - simpl in Hlen. cbn [forallb] in Hplain.
    apply andb_true_iff in Hplain as [Hop Hrest].
    destruct (plain_step op l s Hop Hinv Hpools ltac:(lia))
      as (l1 & s1 & evs & Hstep & Hinv1 & Hpools1 & Hlen1 & _).
    destruct (IH l1 s1 Hrest Hinv1 Hpools1 ltac:(lia))
      as (l' & s' & Hrun & Hinv' & Hpools' & Hlen').
    exists l', s'. cbn [managed_run]. rewrite (bind_Ok _ _ _ _ _ Hstep).
    split; [done|]. split; [done|]. split; [done|]. simpl. lia.
Qed.

(** X4.  A host-code client whose pointers come from [make_managed] and
    are copied, assigned to each other and destroyed, in any order, runs to
    the end, and in the state it reaches: every live pointer has a counter,
    reads from [use_count()] the number of live pointers that share the
    counter, is registered, and holds a host and a device address that are
    not null and at which an object is allocated; live pointers that have
    the counter, the host address, the device address or the tuple in
    common are copies of each other; every counter, host object, device
    object and tuple that is allocated is held by a live pointer; and
    whatever statement of this kind comes next runs to the end, and each
    counter, tuple, host object and device object it deletes is allocated
    at that point and deleted once. *)
Theorem X4_managed_clients_are_safe prog :
  forallb plain prog = true →
  Z.of_nat (length prog) < SIZE_MAX →
  ∃ l s, managed_run prog [] initial = Ok l s ∧
    (∀ p, p ∈ l →
       Managed.m_numReferences p ≠ nullptr ∧
       Managed.use_count p s =
         Ok (owners Managed.m_numReferences (Managed.m_numReferences p) l) s ∧
       1 ≤ owners Managed.m_numReferences (Managed.m_numReferences p) l ∧
       Managed.registered p s ∧
       Managed.get HostCode p ≠ nullptr ∧
       is_Some (objects s !! Managed.get HostCode p) ∧
       Managed.get DeviceCode p ≠ nullptr ∧
       is_Some (device s !! Managed.get DeviceCode p)) ∧
    (∀ p q, p ∈ l → q ∈ l →
       Managed.m_numReferences p = Managed.m_numReferences q ∨
       Managed.get HostCode p = Managed.get HostCode q ∨
       Managed.get DeviceCode p = Managed.get DeviceCode q ∨
       Managed.m_copyArguments p = Managed.m_copyArguments q →
       p = q) ∧
    (∀ a, is_Some (counters s !! a) →
       ∃ p, p ∈ l ∧ Managed.m_numReferences p = a) ∧
    (∀ a, is_Some (objects s !! a) →
       ∃ p, p ∈ l ∧ Managed.get HostCode p = a) ∧
    (∀ a, is_Some (device s !! a) →
       ∃ p, p ∈ l ∧ Managed.get DeviceCode p = a) ∧
    (∀ a, is_Some (tuples s !! a) →
       ∃ p, p ∈ l ∧ Managed.m_copyArguments p = a) ∧
    (∀ op, plain op = true →
       ∃ l' s' evs,
         managed_step op l s = Ok l' s' ∧
         trace s' = trace s ++ evs ∧ deletes_allocated s evs).
Proof.
  intros Hplain Hlen.
  assert (managed_inv [] initial) as Hinit.
  { split; [apply counted_initial|].
    split; [intros h Hin; by apply elem_of_nil in Hin
           | intros h1 h2 Hin; by apply elem_of_nil in Hin]. }
  assert (managed_pools [] initial) as Hinit'.
  { split; [|split; [|split; [|split]]].
    - intros h Hin. by apply elem_of_nil in Hin.
    - intros h1 h2 Hin. by apply elem_of_nil in Hin.
    - intros a [x Hx]. simpl in Hx. by rewrite lookup_empty in Hx.
    - intros a [x Hx]. simpl in Hx. by rewrite lookup_empty in Hx.
    - intros a [x Hx]. simpl in Hx. by rewrite lookup_empty in Hx. }
  destruct (plain_run prog [] initial Hplain Hinit Hinit' ltac:(simpl; lia))
    as (l & s & Hrun & Hinv & Hpools & Hlen').
  simpl in Hlen'.
  exists l, s. split; [done|].
  split; [|split; [|split; [|split; [|split; [|split]]]]].
  - intros p Hin.
    destruct (plain_pre l s p Hinv Hpools ltac:(lia) Hin)
      as (Hc & (n & Hn & -> & Hb) & Hreg & Hcpu & Hobj & Hgpu & Hdev).
    split; [done|]. split; [now apply managed_use_count_Ok|].
    split; [lia|]. done.
  - apply Hpools.
  - intros a [n Hn]. destruct Hinv as ((_ & Hcount & _) & _).
    destruct (Hcount a n Hn) as [-> Hpos]. now apply owners_pos.
  - apply Hpools.
  - apply Hpools.
  - apply Hpools.
  - intros op Hop.
    destruct (plain_step op l s Hop Hinv Hpools ltac:(lia))
      as (l1 & s1 & evs & Hstep & _ & _ & _ & Htr & Hdel).
    by exists l1, s1, evs.
Qed.

Lemma X4_managed_clients_are_safe_witness :
  ∃ l s,
    managed_run
      [MMake [7]; MCopy 0; MMake [8]; MAssign 0 2; MDestroy 1] [] initial =
      Ok l s ∧
    (∀ p, p ∈ l →
       Managed.m_numReferences p ≠ nullptr ∧
       Managed.use_count p s =
         Ok (owners Managed.m_numReferences (Managed.m_numReferences p) l) s ∧
       1 ≤ owners Managed.m_numReferences (Managed.m_numReferences p) l ∧
       Managed.registered p s ∧
       Managed.get HostCode p ≠ nullptr ∧
       is_Some (objects s !! Managed.get HostCode p) ∧
       Managed.get DeviceCode p ≠ nullptr ∧
       is_Some (device s !! Managed.get DeviceCode p)) ∧
    (∀ p q, p ∈ l → q ∈ l →
       Managed.m_numReferences p = Managed.m_numReferences q ∨
       Managed.get HostCode p = Managed.get HostCode q ∨
       Managed.get DeviceCode p = Managed.get DeviceCode q ∨
       Managed.m_copyArguments p = Managed.m_copyArguments q →
       p = q) ∧
    (∀ a, is_Some (counters s !! a) →
       ∃ p, p ∈ l ∧ Managed.m_numReferences p = a) ∧
    (∀ a, is_Some (objects s !! a) →
       ∃ p, p ∈ l ∧ Managed.get HostCode p = a) ∧
    (∀ a, is_Some (device s !! a) →
       ∃ p, p ∈ l ∧ Managed.get DeviceCode p = a) ∧
    (∀ a, is_Some (tuples s !! a) →
       ∃ p, p ∈ l ∧ Managed.m_copyArguments p = a) ∧
    (∀ op, plain op = true →
       ∃ l' s' evs,
         managed_step op l s = Ok l' s' ∧
         trace s' = trace s ++ evs ∧ deletes_allocated s evs).
Proof.
  apply (X4_managed_clients_are_safe
           [MMake [7]; MCopy 0; MMake [8]; MAssign 0 2; MDestroy 1]).
  - reflexivity.
  - vm_compute. reflexivity.
Defined.

(** The common body of the three casts: one kernel computes the device
    address, then the aliasing constructor shares the counter. *)
Lemma managed_cast_run k (cast : pointer_cast) other s n :
  Managed.m_numReferences other ≠ nullptr →
  counters s !! Managed.m_numReferences other = Some n →
  0 ≤ n < SIZE_MAX →
  Managed.registered other s →
  ∃ q s',
    (let* devicePtr := Managed.pointer_cast_on_device k cast other in
     Managed.managed_ptr_aliasing HostCode other
       (cast (Managed.get HostCode other)) devicePtr) s = Ok q s' ∧
    Managed.get HostCode q = cast (Managed.get HostCode other) ∧
    Managed.get DeviceCode q = cast (Managed.get DeviceCode other) ∧
    Managed.m_numReferences q = Managed.m_numReferences other ∧
    Managed.m_copyArguments q = Managed.m_copyArguments other ∧
    Managed.registered q s' ∧
    Managed.use_count q s' = Ok (n + 1) s' ∧
    Managed.use_count other s' = Ok (n + 1) s' ∧
    trace s' =
      trace s ++ [EvLaunch k; EvSynchronize;
                  EvCopier (Managed.m_copyArguments other)] ∧
    objects s' = objects s ∧ device s' = device s ∧ tuples s' = tuples s.
Proof.
  intros Hc Hn Hb Hreg.
  rewrite (bind_Ok _ _ _ _ _ (managed_pointer_cast_on_device_Ok k cast other s)).
  set (s0 := log EvSynchronize (log (EvLaunch k) s)).
  set (q := Managed.Build (cast (Managed.get HostCode other))
              (cast (Managed.m_gpu other)) (Managed.m_numReferences other)
              (Managed.m_copyArguments other) (Managed.m_copier other)
              (Managed.m_deleter other)).
  assert (Managed.registered q s0) as Hregq by exact Hreg.
  assert (counters s0 !! Managed.m_numReferences q = Some n) as Hnq by exact Hn.
  pose proof (managed_increment_Ok q s0 n Hc Hnq Hregq) as Hinc.
  rewrite size_wrap_small in Hinc by lia.
  exists q. eexists. split.
  { unfold Managed.managed_ptr_aliasing. simpl. fold q.
    rewrite (bind_Ok _ _ _ _ _ Hinc). reflexivity. }
  repeat split; try (apply Hreg); try done.
  - apply managed_use_count_Ok; [done | apply lookup_insert_eq].
  - apply managed_use_count_Ok; [done | apply lookup_insert_eq].
  - simpl. now rewrite <- !app_assoc.
Qed.

(** X5.  [static_pointer_cast], [const_pointer_cast] and
    [reinterpret_pointer_cast] on a registered Managed pointer: the result
    holds the converted host address and the converted device address (the
    latter computed by one launch of the cast's own kernel, followed by a
    wait), shares the counter, the tuple and the callbacks of its source,
    raises [use_count()] by one for both, and runs the copy callback once.
    No object and no tuple is created or deleted.  On a pointer without a
    counter the kernel is launched all the same, and nothing is counted or
    called. *)
Theorem X5_managed_pointer_casts (cast : pointer_cast) other s :
  (∀ n,
     Managed.m_numReferences other ≠ nullptr →
     counters s !! Managed.m_numReferences other = Some n →
     0 ≤ n < SIZE_MAX →
     Managed.registered other s →
     Forall (λ '(cast_function, k),
       ∃ q s',
         cast_function cast other s = Ok q s' ∧
         Managed.get HostCode q = cast (Managed.get HostCode other) ∧
         Managed.get DeviceCode q = cast (Managed.get DeviceCode other) ∧
         Managed.m_numReferences q = Managed.m_numReferences other ∧
         Managed.m_copyArguments q = Managed.m_copyArguments other ∧
         Managed.registered q s' ∧
         Managed.use_count q s' = Ok (n + 1) s' ∧
         Managed.use_count other s' = Ok (n + 1) s' ∧
         trace s' =
           trace s ++ [EvLaunch k; EvSynchronize;
                       EvCopier (Managed.m_copyArguments other)] ∧
         objects s' = objects s ∧ device s' = device s ∧ tuples s' = tuples s)
       [(Managed.static_pointer_cast, K_static_pointer_cast_on_device);
        (Managed.const_pointer_cast, K_const_pointer_cast_on_device);
        (Managed.reinterpret_pointer_cast,
         K_reinterpret_pointer_cast_on_device)])
  ∧
  (Managed.m_numReferences other = nullptr →
     Forall (λ '(cast_function, k),
       ∃ q,
         cast_function cast other s =
           Ok q (log EvSynchronize (log (EvLaunch k) s)) ∧
         Managed.get HostCode q = cast (Managed.get HostCode other) ∧
         Managed.get DeviceCode q = cast (Managed.get DeviceCode other) ∧
         Managed.m_numReferences q = nullptr)
       [(Managed.static_pointer_cast, K_static_pointer_cast_on_device);
        (Managed.const_pointer_cast, K_const_pointer_cast_on_device);
        (Managed.reinterpret_pointer_cast,
         K_reinterpret_pointer_cast_on_device)]).
Proof.
  split.
  - intros n Hc Hn Hb Hreg.
    repeat constructor; now apply managed_cast_run.
  - intros Hnull.
    assert (∀ k, ∃ q,
      (let* devicePtr := Managed.pointer_cast_on_device k cast other in
       Managed.managed_ptr_aliasing HostCode other
         (cast (Managed.get HostCode other)) devicePtr) s =
        Ok q (log EvSynchronize (log (EvLaunch k) s)) ∧
      Managed.get HostCode q = cast (Managed.get HostCode other) ∧
      Managed.get DeviceCode q = cast (Managed.get DeviceCode other) ∧
      Managed.m_numReferences q = nullptr) as Hrun.
    { intros k. eexists.
      rewrite (bind_Ok _ _ _ _ _ (managed_pointer_cast_on_device_Ok k cast other s)).
      unfold Managed.managed_ptr_aliasing. simpl.
      erewrite bind_Ok; last (now apply managed_increment_null).
      repeat split. exact Hnull. }
    repeat constructor; apply Hrun.
Qed.

Lemma X5_managed_pointer_casts_witness :
  Forall (λ '(cast_function, k),
    ∃ q s',
      cast_function (cast_offset 8) managed_example managed_example_state =
        Ok q s' ∧
      Managed.get HostCode q = cast_offset 8 (Managed.get HostCode managed_example) ∧
      Managed.get DeviceCode q =
        cast_offset 8 (Managed.get DeviceCode managed_example) ∧
      Managed.m_numReferences q = Managed.m_numReferences managed_example ∧
      Managed.m_copyArguments q = Managed.m_copyArguments managed_example ∧
      Managed.registered q s' ∧
      Managed.use_count q s' = Ok (1 + 1) s' ∧
      Managed.use_count managed_example s' = Ok (1 + 1) s' ∧
      trace s' =
        trace managed_example_state ++
        [EvLaunch k; EvSynchronize;
         EvCopier (Managed.m_copyArguments managed_example)] ∧
      objects s' = objects managed_example_state ∧
      device s' = device managed_example_state ∧
      tuples s' = tuples managed_example_state)
    [(Managed.static_pointer_cast, K_static_pointer_cast_on_device);
     (Managed.const_pointer_cast, K_const_pointer_cast_on_device);
     (Managed.reinterpret_pointer_cast, K_reinterpret_pointer_cast_on_device)]
  ∧
  Forall (λ '(cast_function, k),
    ∃ q,
      cast_function (cast_offset 8) Managed.managed_ptr_default initial =
        Ok q (log EvSynchronize (log (EvLaunch k) initial)) ∧
      Managed.get HostCode q =
        cast_offset 8 (Managed.get HostCode Managed.managed_ptr_default) ∧
      Managed.get DeviceCode q =
        cast_offset 8 (Managed.get DeviceCode Managed.managed_ptr_default) ∧
      Managed.m_numReferences q = nullptr)
    [(Managed.static_pointer_cast, K_static_pointer_cast_on_device);
     (Managed.const_pointer_cast, K_const_pointer_cast_on_device);
     (Managed.reinterpret_pointer_cast, K_reinterpret_pointer_cast_on_device)].
Proof.
  split.
  - apply (proj1 (X5_managed_pointer_casts (cast_offset 8) managed_example
                    managed_example_state) 1);
      [discriminate | reflexivity | split; [lia | reflexivity]
      | repeat split; [discriminate | by eexists]].
  - apply (proj2 (X5_managed_pointer_casts (cast_offset 8)
                    Managed.managed_ptr_default initial)).
    reflexivity.
Defined.

(** ** Host strategy: which address a release deletes *)

(** X6.  The release deletes the address stored in the handle that is
    destroyed last, not the address the lineage started with.  For a
    pointer [p] from [make_managed] and a pointer [q] built from it by the
    aliasing constructor with address [a] (the casts build their results
    this way): if [p] is destroyed first, the destructor of [q] deletes the
    counter and calls [delete] on [a], or on nothing when [a] is null, in
    which case the object of [p] stays allocated; if [q] is destroyed
    first, the destructor of [p] deletes the counter and the object of
    [p], and the free store is again what it was. *)
Theorem X6_host_last_owner_decides_deletion args s a :
  ∃ p s1 q s2,
    Host.make_managed args s = Ok p s1 ∧
    Host.managed_ptr_aliasing p a s1 = Ok q s2 ∧
    Host.get q = a ∧
    Host.use_count p s2 = Ok 2 s2 ∧
    (∃ s3 s4,
       Host.managed_ptr_dtor p s2 = Ok tt s3 ∧
       trace s3 = trace s ∧
       Host.managed_ptr_dtor q s3 = Ok tt s4 ∧
       trace s4 =
         trace s ++ EvDeleteCounter (Host.m_numReferences p) ::
         (if decide (a = nullptr) then [] else [EvDeleteHost a]) ∧
       counters s4 = counters s ∧
       (a = nullptr → objects s4 !! Host.get p = Some args)) ∧
    (∃ s3 s4,
       Host.managed_ptr_dtor q s2 = Ok tt s3 ∧
       trace s3 = trace s ∧
       Host.managed_ptr_dtor p s3 = Ok tt s4 ∧
       trace s4 =
         trace s ++ [EvDeleteCounter (Host.m_numReferences p);
                     EvDeleteHost (Host.get p)] ∧
       counters s4 = counters s ∧ objects s4 = objects s).
Proof.
  pose proof (host_make_managed_Ok args s) as Hmake. cbv zeta in Hmake.
  set (p := Host.Build _ _) in Hmake.
  set (s1 := set_counters _ _) in Hmake.
  assert (Host.m_numReferences p ≠ nullptr) as Hc by apply new_addr_fresh.
  assert (Host.m_cpu p ≠ nullptr) as Hcpu by apply new_addr_fresh.
  assert (counters s1 !! Host.m_numReferences p = Some 1) as H1
    by apply lookup_insert_eq.
  pose proof (host_aliasing_Ok p a s1 1 Hc H1) as Halias.
  rewrite size_wrap_small in Halias by (unfold SIZE_MAX; lia).
  set (q := Host.Build a _) in Halias.
  set (s2 := set_counters _ s1) in Halias.
  assert (counters s2 !! Host.m_numReferences p = Some 2) as H2
    by apply lookup_insert_eq.
  assert (∀ x, Host.m_numReferences x = Host.m_numReferences p →
     ∃ s3, Host.managed_ptr_dtor x s2 = Ok tt s3 ∧ trace s3 = trace s ∧
           counters s3 !! Host.m_numReferences p = Some 1 ∧
           s3 = set_counters (insert (Host.m_numReferences p) 1) s2) as Hfirst.
  { intros x Hx. eexists. rewrite <- Hx in Hc, H2.
    rewrite (host_dtor_keep x s2 2 Hc H2) by (unfold SIZE_MAX; lia).
    rewrite Hx. repeat split. apply lookup_insert_eq. }
  exists p, s1, q, s2.
  split; [exact Hmake|]. split; [exact Halias|]. split; [reflexivity|].
  split; [now apply host_use_count_Ok|]. split.
  - destruct (Hfirst p eq_refl) as (s3 & Hdtor & Htrace & H3 & Hs3).
    pose proof (host_dtor_last q s3 Hc H3) as Hlast.
    unfold delete_host in Hlast. simpl in Hlast.
    exists s3. destruct (decide (a = nullptr)) as [E|E];
      (eexists; split; [exact Hdtor|]; split; [exact Htrace|];
       split; [exact Hlast|]); subst s3; simpl;
      (split; [rewrite <- ?app_assoc; reflexivity|]).
    + split.
      * rewrite !delete_insert_eq. apply delete_id. fresh_lookup.
      * intros _. apply lookup_insert_eq.
    + split; [|done].
      rewrite !delete_insert_eq. apply delete_id. fresh_lookup.
  - destruct (Hfirst q eq_refl) as (s3 & Hdtor & Htrace & H3 & Hs3).
    pose proof (host_dtor_last p s3 Hc H3) as Hlast.
    unfold delete_host in Hlast. rewrite decide_False in Hlast by done.
    exists s3. eexists. split; [exact Hdtor|]. split; [exact Htrace|].
    split; [exact Hlast|]. subst s3. simpl.
    split; [now rewrite <- app_assoc|]. split.
    + rewrite !delete_insert_eq. apply delete_id. fresh_lookup.
    + apply delete_insert_id. fresh_lookup.
Qed.

(** ** Host strategy: pointers built from a raw address *)

Lemma host_raw_Ok conv hostPtr s :
  let c := new_addr (host_used s) in
  Host.managed_ptr_raw conv hostPtr s =
    Ok (Host.Build (conv hostPtr) c) (set_counters (insert c 1) s).
Proof. reflexivity. Qed.

(** X7.  [make_managed_from_factory] hands whatever address the factory
    returns to the raw-pointer constructor, which allocates a counter
    without looking at the address.  So the result always has
    [use_count()] 1, also when the factory returned null: such a pointer
    converts to [false] and compares equal to [nullptr], yet it owns a
    counter, unlike a default-constructed pointer.  Its destructor deletes
    that counter and, for a non-null address, the object. *)
Theorem X7_host_factory_result_owns_a_counter
  (conv : pointer_cast) (f : list Z → M Z) args s a s0 :
  f args s = Ok a s0 →
  ∃ p s1 s2,
    Host.make_managed_from_factory conv f args s = Ok p s1 ∧
    Host.get p = conv a ∧
    Host.m_numReferences p ≠ nullptr ∧
    Host.use_count p s1 = Ok 1 s1 ∧
    (a = nullptr →
       Host.operator_bool p = false ∧ Host.operator_eq_nullptr p = true) ∧
    Host.managed_ptr_dtor p s1 = Ok tt s2 ∧
    trace s2 =
      trace s0 ++ EvDeleteCounter (Host.m_numReferences p) ::
      (if decide (conv a = nullptr) then [] else [EvDeleteHost (conv a)]) ∧
    counters s2 = counters s0.
Proof.
  intros Hf.
  pose proof (host_raw_Ok conv a s0) as Hraw. cbv zeta in Hraw.
  set (p := Host.Build _ _) in Hraw.
  set (s1 := set_counters _ _) in Hraw.
  assert (Host.m_numReferences p ≠ nullptr) as Hc by apply new_addr_fresh.
  assert (counters s1 !! Host.m_numReferences p = Some 1) as H1
    by apply lookup_insert_eq.
  pose proof (host_dtor_last p s1 Hc H1) as Hlast.
  unfold delete_host in Hlast. simpl in Hlast.
  exists p, s1.
  assert (Host.make_managed_from_factory conv f args s = Ok p s1) as Hmake.
  { unfold Host.make_managed_from_factory.
    now rewrite (bind_Ok _ _ _ _ _ Hf). }
  assert (a = nullptr →
          Host.operator_bool p = false ∧ Host.operator_eq_nullptr p = true)
    as Hnull.
  { intros ->. unfold Host.operator_bool, Host.operator_eq_nullptr, Host.get.
    simpl. rewrite cast_null. split; [now apply bool_decide_eq_false_2; intros H; apply H
                                     | now apply bool_decide_eq_true_2]. }
  destruct (decide (conv a = nullptr)) as [E|E];
    (eexists; split; [exact Hmake|]; split; [reflexivity|];
     split; [exact Hc|]; split; [now apply host_use_count_Ok|];
     split; [exact Hnull|]; split; [exact Hlast|]); simpl;
    (split; [rewrite <- ?app_assoc; reflexivity|]);
    rewrite delete_insert_eq; apply delete_id; fresh_lookup.
Qed.

Lemma X7_host_factory_result_owns_a_counter_witness :
  ∃ p s1 s2,
    Host.make_managed_from_factory same_address (λ _, ret nullptr) [7] initial =
      Ok p s1 ∧
    Host.get p = same_address nullptr ∧
    Host.m_numReferences p ≠ nullptr ∧
    Host.use_count p s1 = Ok 1 s1 ∧
    (nullptr = nullptr →
       Host.operator_bool p = false ∧ Host.operator_eq_nullptr p = true) ∧
    Host.managed_ptr_dtor p s1 = Ok tt s2 ∧
    trace s2 =
      trace initial ++ EvDeleteCounter (Host.m_numReferences p) ::
      (if decide (same_address nullptr = nullptr) then []
       else [EvDeleteHost (same_address nullptr)]) ∧
    counters s2 = counters initial.
Proof.
  apply (X7_host_factory_result_owns_a_counter same_address (λ _, ret nullptr)
           [7] initial nullptr initial).
  reflexivity.
Defined.

(** ** Managed strategy: registration *)

(** X8.  [registerArguments] allocates a new tuple and overwrites
    [m_copyArguments] without deleting the tuple that was registered
    before.  A pointer from [make_managed] that is registered a second
    time and then destroyed as the only owner releases everything except
    the first tuple: the release callback runs on the second tuple only,
    and the first one stays allocated with no pointer left that refers to
    it. *)
Theorem X8_managed_registerArguments_keeps_old_tuple args args2 s :
  ∃ p s1 p' s2 s3,
    Managed.make_managed args s = Ok p s1 ∧
    Managed.registerArguments p args2 s1 = Ok p' s2 ∧
    Managed.m_copyArguments p' ≠ Managed.m_copyArguments p ∧
    tuples s2 !! Managed.m_copyArguments p = Some args ∧
    tuples s2 !! Managed.m_copyArguments p' = Some args2 ∧
    Managed.use_count p' s2 = Ok 1 s2 ∧
    Managed.managed_ptr_dtor HostCode p' s2 = Ok tt s3 ∧
    trace s3 =
      trace s ++
      [EvLaunch K_make_on_device; EvSynchronize;
       EvDeleteCounter (Managed.m_numReferences p');
       EvDeleter (Managed.m_copyArguments p');
       EvDeleteHost (Managed.m_cpu p');
       EvLaunch K_destroy_on_device;
       EvDeleteDevice (Managed.m_gpu p');
       EvSynchronize] ∧
    counters s3 = counters s ∧ objects s3 = objects s ∧ device s3 = device s ∧
    tuples s3 = <[Managed.m_copyArguments p := args]> (tuples s) ∧
    tuples s !! Managed.m_copyArguments p = None.
Proof.
  pose proof (managed_make_managed_Ok args s) as Hmake. cbv zeta in Hmake.
  set (p := Managed.Build _ _ _ _ _ _) in Hmake.
  set (s1 := set_tuples _ _) in Hmake.
  pose proof (managed_registerArguments_Ok p args2 s1) as Hreg2.
  cbv zeta in Hreg2.
  set (p' := Managed.Build _ _ _ _ _ _) in Hreg2.
  set (s2 := set_tuples _ s1) in Hreg2.
  assert (Managed.m_numReferences p' ≠ nullptr) as Hc by apply new_addr_fresh.
  assert (Managed.m_cpu p' ≠ nullptr) as Hcpu by apply new_addr_fresh.
  assert (Managed.m_gpu p' ≠ nullptr) as Hgpu by apply new_addr_fresh.
  assert (Managed.m_copyArguments p' ≠ nullptr) as Ht by apply new_addr_fresh.
  assert (tuples s1 !! Managed.m_copyArguments p' = None) as Hfresh
    by apply new_addr_tuples.
  assert (tuples s1 !! Managed.m_copyArguments p = Some args) as Hold
    by apply lookup_insert_eq.
  assert (Managed.m_copyArguments p' ≠ Managed.m_copyArguments p) as Hne.
  { intros E. rewrite E in Hfresh. congruence. }
  assert (counters s2 !! Managed.m_numReferences p' = Some 1) as H1
    by apply lookup_insert_eq.
  assert (tuples s2 !! Managed.m_copyArguments p' = Some args2) as Hnew
    by apply lookup_insert_eq.
  pose proof (managed_release_registered p' s2 1 Hc H1 eq_refl eq_refl Ht
                ltac:(by eexists)) as Hlast.
  rewrite !decide_False in Hlast by done.
  exists p, s1, p', s2. eexists.
  split; [exact Hmake|]. split; [exact Hreg2|]. split; [exact Hne|].
  split; [subst s2; simpl; now rewrite lookup_insert_ne|].
  split; [exact Hnew|]. split; [now apply managed_use_count_Ok|].
  split; [exact Hlast|].
  unfold Managed.release_events. rewrite !decide_False by done.
  simpl. repeat split.
  - now rewrite <- !app_assoc.
  - apply delete_insert_id. fresh_lookup.
  - apply delete_insert_id. fresh_lookup.
  - apply delete_insert_id. fresh_lookup.
  - apply delete_insert_id. exact Hfresh.
  - fresh_lookup.
Qed.

(** X9.  A Managed pointer built by the two-pointer constructor holds a
    counter but no callbacks.  In host code every operation that
    increments through it (copy construction, converting construction, a
    cast) reads the copy callback that was never stored, so it has
    undefined behaviour; in device code the copy is made.  One call of
    [registerArguments] repairs the pointer: it can then be copied, and
    the destructors of the pointer and its copy run one complete release
    and leave the counters and the tuples as they were. *)
Theorem X9_managed_unregistered_pointer_cannot_be_copied
  (conv_host conv_device : pointer_cast) hostPtr devicePtr args s :
  ∃ p s1,
    Managed.managed_ptr_raw conv_host conv_device hostPtr devicePtr s = Ok p s1 ∧
    Managed.managed_ptr_copy HostCode p s1 = Undefined IndeterminateValue ∧
    (∀ conv, Managed.managed_ptr_converting HostCode conv p s1 =
               Undefined IndeterminateValue) ∧
    (∀ cast, Managed.static_pointer_cast cast p s1 =
               Undefined IndeterminateValue) ∧
    Managed.managed_ptr_copy DeviceCode p s1 = Ok p s1 ∧
    ∃ p' s2 q s3 s4,
      Managed.registerArguments p args s1 = Ok p' s2 ∧
      Managed.registered p' s2 ∧
      Managed.managed_ptr_copy HostCode p' s2 = Ok q s3 ∧
      Managed.use_count q s3 = Ok 2 s3 ∧
      managed_destroy [p'; q] s3 = Ok tt s4 ∧
      trace s4 =
        trace s ++ [EvCopier (Managed.m_copyArguments p')] ++
        Managed.release_events p' ∧
      counters s4 = counters s ∧ tuples s4 = tuples s.
Proof.
  set (c := new_addr (host_used s)).
  set (p := Managed.Build (conv_host hostPtr) (conv_device devicePtr) c nullptr
              FnIndeterminate FnIndeterminate).
  set (s1 := set_counters (insert c 1) s).
  assert (c ≠ nullptr) as Hc by apply new_addr_fresh.
  assert (counters s1 !! c = Some 1) as H1 by apply lookup_insert_eq.
  assert (∀ q st, Managed.m_numReferences q = c →
               Managed.m_copier q = FnIndeterminate →
               counters st !! c = Some 1 →
               Managed.incrementReferenceCount q st =
                 Undefined IndeterminateValue) as Hinc.
  { intros q st Hq Hcop Hst. unfold Managed.incrementReferenceCount.
    rewrite Hq, Hcop. rewrite decide_True by done.
    rewrite (bind_Ok _ _ _ _ _ (load_counter_Ok _ _ _ Hst)).
    now rewrite (bind_Ok _ _ _ _ _ (store_counter_Ok _ _ _ _ Hst)). }
  exists p, s1. split; [reflexivity|]. split.
  { unfold Managed.managed_ptr_copy. simpl.
    erewrite bind_Undefined; [reflexivity | now apply Hinc]. }
  split.
  { intros conv. unfold Managed.managed_ptr_converting. simpl.
    erewrite bind_Undefined; [reflexivity | now apply Hinc]. }
  split.
  { intros cast. unfold Managed.static_pointer_cast.
    rewrite (bind_Ok _ _ _ _ _ (managed_pointer_cast_on_device_Ok _ cast p s1)).
    unfold Managed.managed_ptr_aliasing. simpl.
    erewrite bind_Undefined; [reflexivity | now apply Hinc]. }
  split; [reflexivity|].
  pose proof (managed_registerArguments_Ok p args s1) as Hreg.
  cbv zeta in Hreg.
  set (p' := Managed.Build _ _ _ _ _ _) in Hreg.
  set (s2 := set_tuples _ s1) in Hreg.
  assert (Managed.m_copyArguments p' ≠ nullptr) as Ht by apply new_addr_fresh.
  assert (Managed.registered p' s2) as Hregd.
  { repeat split; try done. simpl. rewrite lookup_insert_eq. by eexists. }
  assert (Managed.m_numReferences p' ≠ nullptr) as Hc' by exact Hc.
  assert (counters s2 !! Managed.m_numReferences p' = Some 1) as H2 by exact H1.
  pose proof (managed_copy_Ok p' s2 1 Hc' H2 Hregd) as Hcopy.
  rewrite size_wrap_small in Hcopy by (unfold SIZE_MAX; lia).
  set (s3 := log _ _) in Hcopy.
  assert (counters s3 !! Managed.m_numReferences p' = Some 2) as H3
    by apply lookup_insert_eq.
  pose proof (managed_dtor_keep p' s3 2 Hc' H3 ltac:(unfold SIZE_MAX; lia))
    as Hfirst.
  set (s3' := set_counters _ s3) in Hfirst.
  assert (counters s3' !! Managed.m_numReferences p' = Some 1) as H3'
    by apply lookup_insert_eq.
  assert (is_Some (tuples s3' !! Managed.m_copyArguments p')) as Halive
    by apply Hregd.
  pose proof (managed_release_registered p' s3' 1 Hc' H3' eq_refl eq_refl Ht
                Halive) as Hlast.
  exists p', s2, p', s3. eexists.
  split; [exact Hreg|]. split; [exact Hregd|]. split; [exact Hcopy|].
  split; [now apply managed_use_count_Ok|]. split.
  { cbn [managed_destroy].
    rewrite (bind_Ok _ _ _ _ _ Hfirst).
    change (Managed.managed_ptr_dtor HostCode p' s3')
      with (Managed.decrementReferenceCount p' s3') in *.
    unfold Managed.managed_ptr_dtor. simpl Managed.host_only.
    rewrite (bind_Ok _ _ _ _ _ Hlast). reflexivity. }
  simpl. repeat split.
  - now rewrite <- !app_assoc.
  - rewrite !delete_insert_eq. apply delete_id. subst c. fresh_lookup.
  - apply delete_insert_id. fresh_lookup.
Qed.

(** ** Assignment *)

Lemma managed_release_make args s :
  ∃ p s1 s2,
    Managed.make_managed args s = Ok p s1 ∧
    Managed.use_count p s1 = Ok 1 s1 ∧
    device s1 !! Managed.m_gpu p = Some args ∧
    Managed.decrementReferenceCount p s1 = Ok tt s2 ∧
    trace s2 =
      trace s ++
      [EvLaunch K_make_on_device; EvSynchronize;
       EvDeleteCounter (Managed.m_numReferences p);
       EvDeleter (Managed.m_copyArguments p);
       EvDeleteHost (Managed.m_cpu p);
       EvLaunch K_destroy_on_device;
       EvDeleteDevice (Managed.m_gpu p);
       EvSynchronize] ∧
    counters s2 = counters s ∧ objects s2 = objects s ∧
    tuples s2 = tuples s ∧ device s2 = device s ∧
    Managed.m_numReferences p ≠ nullptr.
Proof.
  pose proof (managed_make_managed_Ok args s) as Hmake. cbv zeta in Hmake.
  set (p := Managed.Build _ _ _ _ _ _) in Hmake.
  set (s1 := set_tuples _ _) in Hmake.
  assert (Managed.m_numReferences p ≠ nullptr) as Hc by apply new_addr_fresh.
  assert (Managed.m_cpu p ≠ nullptr) as Hcpu by apply new_addr_fresh.
  assert (Managed.m_gpu p ≠ nullptr) as Hgpu by apply new_addr_fresh.
  assert (Managed.m_copyArguments p ≠ nullptr) as Ht by apply new_addr_fresh.
  assert (counters s1 !! Managed.m_numReferences p = Some 1) as H1
    by apply lookup_insert_eq.
  assert (is_Some (tuples s1 !! Managed.m_copyArguments p)) as Halive.
  { simpl. rewrite lookup_insert_eq. by eexists. }
  pose proof (managed_release_registered p s1 1 Hc H1 eq_refl eq_refl Ht Halive)
    as Hlast.
  rewrite !decide_False in Hlast by done.
  exists p, s1. eexists.
  split; [exact Hmake|]. split; [now apply managed_use_count_Ok|].
  split; [apply lookup_insert_eq|]. split; [exact Hlast|].
  unfold Managed.release_events. rewrite !decide_False by done.
  simpl. repeat split; try done.
  - now rewrite <- !app_assoc.
  - apply delete_insert_id. fresh_lookup.
  - apply delete_insert_id. fresh_lookup.
  - apply delete_insert_id. fresh_lookup.
  - apply delete_insert_id. fresh_lookup.
Qed.

(** X10.  Assignment between two handles of the same lineage.  When
    [*this] and [other] hold the same counter and at least two handles
    share it, [operator=] takes one away and adds one: in host code the
    Host and the Device strategy leave the whole state as it was, and
    the Managed strategy leaves it as it was except that the copy callback
    runs once.  Nothing is released.  The converting assignment behaves
    the same and stores the converted address. *)
Theorem X10_assignment_within_a_lineage (n : Z) :
  2 ≤ n ≤ SIZE_MAX →
  (∀ this other s,
     Host.m_numReferences other ≠ nullptr →
     Host.m_numReferences this = Host.m_numReferences other →
     counters s !! Host.m_numReferences other = Some n →
     Host.operator_assign false this other s = Ok other s ∧
     ∀ conv : pointer_cast,
       Host.operator_assign_converting conv this other s =
         Ok (Host.Build (conv (Host.m_cpu other)) (Host.m_numReferences other)) s)
  ∧
  (∀ this other s,
     Device.m_numReferences other ≠ nullptr →
     Device.m_numReferences this = Device.m_numReferences other →
     counters s !! Device.m_numReferences other = Some n →
     Device.operator_assign HostCode false this other s = Ok other s)
  ∧
  (∀ this other s,
     Managed.m_numReferences other ≠ nullptr →
     Managed.m_numReferences this = Managed.m_numReferences other →
     counters s !! Managed.m_numReferences other = Some n →
     Managed.registered other s →
     Managed.operator_assign HostCode false this other s =
       Ok other (log (EvCopier (Managed.m_copyArguments other)) s)).
Proof.
  intros Hn.
  assert (size_wrap (n - 1) = n - 1) as Hw1 by (apply size_wrap_small; lia).
  assert (size_wrap (n - 1 + 1) = n) as Hw2
    by (rewrite size_wrap_small by lia; lia).
  assert (∀ c s, counters s !! c = Some n →
            set_counters (insert c n) (set_counters (insert c (n - 1)) s) = s)
    as Hback.
  { intros c s H. rewrite set_counters_insert_twice.
    now apply set_counters_insert_same. }
  split; [|split].
  - intros this other s Hc Hsame Hcount.
    assert (Host.decrementReferenceCount this s =
              Ok tt (set_counters
                       (insert (Host.m_numReferences other) (n - 1)) s)) as Hdec.
    { rewrite <- Hsame in *.
      rewrite (host_decrement_keep this s n Hc Hcount) by (rewrite Hw1; lia).
      now rewrite Hw1. }
    assert (∀ a,
      Host.incrementReferenceCount (Host.Build a (Host.m_numReferences other))
        (set_counters (insert (Host.m_numReferences other) (n - 1)) s) =
      Ok tt s) as Hinc.
    { intros a.
      rewrite (host_increment_Ok _ _ (n - 1)); [|done|apply lookup_insert_eq].
      simpl. rewrite Hw2. now rewrite Hback. }
    split.
    + unfold Host.operator_assign. cbn [negb].
      rewrite (bind_Ok _ _ _ _ _ Hdec). rewrite host_copy_eta.
      rewrite <- (host_copy_eta other) at 1.
      now rewrite (bind_Ok _ _ _ _ _ (Hinc _)).
    + intros conv. unfold Host.operator_assign_converting.
      rewrite (bind_Ok _ _ _ _ _ Hdec).
      now rewrite (bind_Ok _ _ _ _ _ (Hinc _)).
  - intros this other s Hc Hsame Hcount.
    unfold Device.operator_assign. cbn [negb Device.host_only].
    erewrite bind_Ok; last first.
    { rewrite <- Hsame in *.
      rewrite (device_decrement_keep this s n Hc Hcount) by (rewrite Hw1; lia).
      rewrite Hw1. reflexivity. }
    rewrite device_copy_eta.
    erewrite bind_Ok; last first.
    { rewrite Hsame.
      rewrite (device_increment_Ok _ _ (n - 1)); [|done|apply lookup_insert_eq].
      rewrite Hw2. now rewrite Hback. }
    reflexivity.
  - intros this other s Hc Hsame Hcount Hreg.
    unfold Managed.operator_assign. cbn [negb Managed.host_only].
    erewrite bind_Ok; last first.
    { rewrite <- Hsame in *.
      rewrite (managed_decrement_keep this s n Hc Hcount) by (rewrite Hw1; lia).
      rewrite Hw1. reflexivity. }
    rewrite managed_copy_eta.
    erewrite bind_Ok; last first.
    { rewrite Hsame.
      rewrite (managed_increment_Ok _ _ (n - 1));
        [|done|apply lookup_insert_eq|exact Hreg].
      rewrite Hw2. now rewrite Hback. }
    reflexivity.
Qed.

Lemma X10_assignment_within_a_lineage_witness :
  Host.operator_assign false (Host.Build 9 2) host_example
    (set_counters (insert 2 2) host_example_state) =
    Ok host_example (set_counters (insert 2 2) host_example_state)
  ∧
  Managed.operator_assign HostCode false
    (Managed.Build 9 9 2 3 FnCopier FnDeleter) managed_example
    (set_counters (insert 2 2) managed_example_state) =
    Ok managed_example
      (log (EvCopier (Managed.m_copyArguments managed_example))
         (set_counters (insert 2 2) managed_example_state)).
Proof.
  assert (2 ≤ 2 ≤ SIZE_MAX) as H by (vm_compute; split; discriminate).
  split.
  - apply (proj1 (X10_assignment_within_a_lineage 2 H));
      [discriminate | reflexivity | reflexivity].
  - apply (proj2 (proj2 (X10_assignment_within_a_lineage 2 H)));
      [discriminate | reflexivity | reflexivity
      | repeat split; [discriminate | by eexists]].
Defined.

(** X11.  A copy made in device code does not own: it is not counted.
    After [make_managed] and one device-code copy [use_count()] is still
    1, so the host-code destructor of the original releases the lineage:
    the device object the copy points to is deleted and the counter the
    copy holds is deleted, while the copy still stores both addresses.
    The destructor of the copy, run in device code, does nothing. *)
Theorem X11_managed_device_code_copy_does_not_own args s :
  ∃ p s1 q s2,
    Managed.make_managed args s = Ok p s1 ∧
    Managed.managed_ptr_copy DeviceCode p s1 = Ok q s1 ∧
    Managed.use_count p s1 = Ok 1 s1 ∧
    device s1 !! Managed.get DeviceCode q = Some args ∧
    Managed.managed_ptr_dtor HostCode p s1 = Ok tt s2 ∧
    device s2 !! Managed.get DeviceCode q = None ∧
    counters s2 !! Managed.m_numReferences q = None ∧
    Managed.get DeviceCode q ≠ nullptr ∧
    Managed.m_numReferences q ≠ nullptr ∧
    Managed.managed_ptr_dtor DeviceCode q s2 = Ok tt s2.
Proof.
  destruct (managed_release_make args s)
    as (p & s1 & s2 & Hmake & Hcount & Hdev & Hdtor & _ & Hcs & _ & _ & Hds & Hc).
  assert (counters s !! Managed.m_numReferences p = None) as Hfresh_c.
  { pose proof (managed_make_managed_Ok args s) as H. cbv zeta in H.
    rewrite Hmake in H. injection H as -> _. simpl. fresh_lookup. }
  assert (device s !! Managed.m_gpu p = None) as Hfresh_d.
  { pose proof (managed_make_managed_Ok args s) as H. cbv zeta in H.
    rewrite Hmake in H. injection H as -> _. simpl. fresh_lookup. }
  exists p, s1, p, s2.
  split; [exact Hmake|].
  split; [unfold Managed.managed_ptr_copy; now rewrite managed_copy_eta|].
  split; [exact Hcount|]. split; [exact Hdev|]. split; [exact Hdtor|].
  split; [simpl; now rewrite Hds|]. split; [now rewrite Hcs|].
  split; [|split; [exact Hc | reflexivity]].
  apply (managed_make_managed_fresh _ _ _ _ Hmake).
Qed.

(** X12.  Assigning an empty pointer to the only owner releases the
    lineage, as the destructor would, and leaves [*this] empty.  For the
    Host strategy the counter and the object are deleted; for the Managed
    strategy, in host code, the complete release runs.  In both cases the
    free stores are again what they were before [make_managed]. *)
Theorem X12_assigning_an_empty_pointer_releases args s :
  (∃ p s1 s2,
     Host.make_managed args s = Ok p s1 ∧
     Host.operator_assign false p Host.managed_ptr_default s1 =
       Ok Host.managed_ptr_default s2 ∧
     trace s2 =
       trace s ++ [EvDeleteCounter (Host.m_numReferences p);
                   EvDeleteHost (Host.m_cpu p)] ∧
     counters s2 = counters s ∧ objects s2 = objects s)
  ∧
  (∃ p s1 s2,
     Managed.make_managed args s = Ok p s1 ∧
     Managed.operator_assign HostCode false p Managed.managed_ptr_default s1 =
       Ok Managed.managed_ptr_default s2 ∧
     trace s2 =
       trace s ++
       [EvLaunch K_make_on_device; EvSynchronize;
        EvDeleteCounter (Managed.m_numReferences p);
        EvDeleter (Managed.m_copyArguments p);
        EvDeleteHost (Managed.m_cpu p);
        EvLaunch K_destroy_on_device;
        EvDeleteDevice (Managed.m_gpu p);
        EvSynchronize] ∧
     counters s2 = counters s ∧ objects s2 = objects s ∧
     tuples s2 = tuples s ∧ device s2 = device s).
Proof.
  split.
  - pose proof (host_make_managed_Ok args s) as Hmake. cbv zeta in Hmake.
    set (p := Host.Build _ _) in Hmake.
    set (s1 := set_counters _ _) in Hmake.
    assert (Host.m_numReferences p ≠ nullptr) as Hc by apply new_addr_fresh.
    assert (Host.m_cpu p ≠ nullptr) as Hcpu by apply new_addr_fresh.
    assert (counters s1 !! Host.m_numReferences p = Some 1) as H1
      by apply lookup_insert_eq.
    pose proof (host_decrement_release p s1 1 Hc H1 eq_refl) as Hlast.
    unfold delete_host in Hlast. rewrite decide_False in Hlast by done.
    exists p, s1. eexists. split; [exact Hmake|]. split.
    { unfold Host.operator_assign. cbn [negb].
      rewrite (bind_Ok _ _ _ _ _ Hlast). reflexivity. }
    simpl. repeat split.
    + now rewrite <- app_assoc.
    + rewrite !delete_insert_eq. apply delete_id. fresh_lookup.
    + apply delete_insert_id. fresh_lookup.
  - destruct (managed_release_make args s)
      as (p & s1 & s2 & Hmake & _ & _ & Hdtor & Htrace & Hcs & Hos & Hts & Hds & _).
    exists p, s1, s2. split; [exact Hmake|]. split.
    { unfold Managed.operator_assign. cbn [negb Managed.host_only].
      rewrite (bind_Ok _ _ _ _ _ Hdtor). reflexivity. }
    done.
Qed.

(** ** The factories that take a user function, and the Device casts *)



Lemma device_pointer_cast_on_device_Ok k (cast : pointer_cast) other s :
  Device.pointer_cast_on_device k cast other s =
    Ok (cast (Device.m_gpu other)) (log EvSynchronize (log (EvLaunch k) s)).
Proof. reflexivity. Qed.

(** X14.  The three casts of the Device strategy: one launch of the
    cast's kernel computes the converted device address, the host waits,
    and the result shares the counter of its source; [use_count()] goes up
    by one for both.  No object is created or deleted.  On a pointer
    without a counter the kernel is launched and nothing is counted. *)
Theorem X14_device_pointer_casts (cast : pointer_cast) other s :
  (∀ n,
     Device.m_numReferences other ≠ nullptr →
     counters s !! Device.m_numReferences other = Some n →
     0 ≤ n < SIZE_MAX →
     Forall (λ '(cast_function, k),
       ∃ q s',
         cast_function cast other s = Ok q s' ∧
         Device.get q = cast (Device.get other) ∧
         Device.m_numReferences q = Device.m_numReferences other ∧
         Device.use_count q s' = Ok (n + 1) s' ∧
         Device.use_count other s' = Ok (n + 1) s' ∧
         trace s' = trace s ++ [EvLaunch k; EvSynchronize] ∧
         objects s' = objects s ∧ device s' = device s)
       [(Device.static_pointer_cast, K_static_pointer_cast_on_device);
        (Device.const_pointer_cast, K_const_pointer_cast_on_device);
        (Device.reinterpret_pointer_cast,
         K_reinterpret_pointer_cast_on_device)])
  ∧
  (Device.m_numReferences other = nullptr →
     Forall (λ '(cast_function, k),
       cast_function cast other s =
         Ok (Device.Build (cast (Device.get other)) nullptr)
            (log EvSynchronize (log (EvLaunch k) s)))
       [(Device.static_pointer_cast, K_static_pointer_cast_on_device);
        (Device.const_pointer_cast, K_const_pointer_cast_on_device);
        (Device.reinterpret_pointer_cast,
         K_reinterpret_pointer_cast_on_device)]).
Proof.
  split.
  - intros n Hc Hn Hb.
    assert (∀ k, ∃ q s',
      (let* devicePtr := Device.pointer_cast_on_device k cast other in
       Device.managed_ptr_aliasing HostCode other devicePtr) s = Ok q s' ∧
      Device.get q = cast (Device.get other) ∧
      Device.m_numReferences q = Device.m_numReferences other ∧
      Device.use_count q s' = Ok (n + 1) s' ∧
      Device.use_count other s' = Ok (n + 1) s' ∧
      trace s' = trace s ++ [EvLaunch k; EvSynchronize] ∧
      objects s' = objects s ∧ device s' = device s) as Hrun.
    { intros k.
      rewrite (bind_Ok _ _ _ _ _ (device_pointer_cast_on_device_Ok k cast other s)).
      set (s0 := log EvSynchronize (log (EvLaunch k) s)).
      set (q := Device.Build (cast (Device.m_gpu other))
                  (Device.m_numReferences other)).
      assert (counters s0 !! Device.m_numReferences q = Some n) as Hnq
        by exact Hn.
      pose proof (device_increment_Ok q s0 n Hc Hnq) as Hinc.
      rewrite size_wrap_small in Hinc by lia.
      exists q. eexists. split.
      { unfold Device.managed_ptr_aliasing. simpl. fold q.
        rewrite (bind_Ok _ _ _ _ _ Hinc). reflexivity. }
      repeat split.
      - apply device_use_count_Ok; [done | apply lookup_insert_eq].
      - apply device_use_count_Ok; [done | apply lookup_insert_eq].
      - simpl. now rewrite <- !app_assoc. }
    repeat constructor; apply Hrun.
  - intros Hnull.
    assert (∀ k,
      (let* devicePtr := Device.pointer_cast_on_device k cast other in
       Device.managed_ptr_aliasing HostCode other devicePtr) s =
        Ok (Device.Build (cast (Device.get other)) nullptr)
           (log EvSynchronize (log (EvLaunch k) s))) as Hrun.
    { intros k.
      rewrite (bind_Ok _ _ _ _ _ (device_pointer_cast_on_device_Ok k cast other s)).
      unfold Device.managed_ptr_aliasing, Device.incrementReferenceCount. simpl.
      rewrite Hnull. reflexivity. }
    repeat constructor; apply Hrun.
Qed.

Lemma X14_device_pointer_casts_witness :
  Forall (λ '(cast_function, k),
    ∃ q s',
      cast_function (cast_offset 8) (Device.Build 1 2)
        (State {[2 := 1]} ∅ ∅ {[1 := [7]]} []) = Ok q s' ∧
      Device.get q = cast_offset 8 (Device.get (Device.Build 1 2)) ∧
      Device.m_numReferences q = Device.m_numReferences (Device.Build 1 2) ∧
      Device.use_count q s' = Ok (1 + 1) s' ∧
      Device.use_count (Device.Build 1 2) s' = Ok (1 + 1) s' ∧
      trace s' =
        trace (State {[2 := 1]} ∅ ∅ {[1 := [7]]} []) ++
        [EvLaunch k; EvSynchronize] ∧
      objects s' = objects (State {[2 := 1]} ∅ ∅ {[1 := [7]]} []) ∧
      device s' = device (State {[2 := 1]} ∅ ∅ {[1 := [7]]} []))
    [(Device.static_pointer_cast, K_static_pointer_cast_on_device);
     (Device.const_pointer_cast, K_const_pointer_cast_on_device);
     (Device.reinterpret_pointer_cast, K_reinterpret_pointer_cast_on_device)]
  ∧
  Forall (λ '(cast_function, k),
    cast_function (cast_offset 8) Device.managed_ptr_default initial =
      Ok (Device.Build (cast_offset 8 (Device.get Device.managed_ptr_default))
            nullptr)
         (log EvSynchronize (log (EvLaunch k) initial)))
    [(Device.static_pointer_cast, K_static_pointer_cast_on_device);
     (Device.const_pointer_cast, K_const_pointer_cast_on_device);
     (Device.reinterpret_pointer_cast, K_reinterpret_pointer_cast_on_device)].
Proof.
  split.
  - apply (proj1 (X14_device_pointer_casts (cast_offset 8) (Device.Build 1 2)
                    (State {[2 := 1]} ∅ ∅ {[1 := [7]]} [])) 1);
      [discriminate | reflexivity | split; [lia | reflexivity]].
  - apply (proj2 (X14_device_pointer_casts (cast_offset 8)
                    Device.managed_ptr_default initial)).
    reflexivity.
Defined.

(** ** The thin [ManagedArray]: slices *)

Section ThinArray.
Import ManagedArrayThin.

Lemma pointer_add_add p j k :
  pointer_add (pointer_add p j) k = pointer_add p (j + k).
Proof. unfold pointer_add. simpl. f_equal. lia. Qed.

Lemma slice_accepted this offset elems :
  0 ≤ offset → 0 ≤ elems → offset + elems ≤ size this → size this ≤ SIZE_MAX →
  slice this offset elems =
    Build (pointer_add (m_active_pointer this) offset) nullptr elems 0 true.
Proof.
  intros Ho He Hin Hmax. unfold slice.
  rewrite size_wrap_small by lia. now rewrite decide_False by lia.
Qed.

(** X15.  [slice(offset, elems)] when [offset + elems] does not exceed
    [SIZE_MAX]: a request inside the array gives a view of exactly [elems]
    elements whose element [i] is element [offset + i] of the parent; the
    view is flagged as a slice, has no resource manager, and its
    [m_offset] stays 0.  A request that reaches past the end is not an
    error: the result is the empty array of the default constructor, with
    a null pointer, size 0 and the slice flag unset. *)
Theorem X15_slice_bounds this offset elems :
  0 ≤ offset → 0 ≤ elems → offset + elems ≤ SIZE_MAX →
  (offset + elems ≤ size this →
     size (slice this offset elems) = elems ∧
     m_is_slice (slice this offset elems) = true ∧
     m_resource_manager (slice this offset elems) = nullptr ∧
     m_offset (slice this offset elems) = 0 ∧
     (∀ i, operator_index (slice this offset elems) i =
           operator_index this (offset + i)) ∧
     (∀ um ctx i m, pick um ctx (slice this offset elems) i m =
                    pick um ctx this (offset + i) m))
  ∧
  (size this < offset + elems →
     slice this offset elems = ManagedArray_default ∧
     size (slice this offset elems) = 0 ∧
     m_active_pointer (slice this offset elems) = null ∧
     m_is_slice (slice this offset elems) = false).
Proof.
  intros Ho He Hmax. split.
  - intros Hin. unfold slice.
    rewrite size_wrap_small by lia. rewrite decide_False by lia.
    repeat split.
    + intros i. unfold operator_index. simpl. apply pointer_add_add.
    + intros um ctx i m. unfold pick. simpl. now rewrite pointer_add_add.
  - intros Hout. unfold slice.
    rewrite size_wrap_small by lia. now rewrite decide_True by lia.
Qed.

Lemma X15_slice_bounds_witness :
  (size (slice (Build (At 1 0) nullptr 4 0 false) 1 2) = 2 ∧
   m_is_slice (slice (Build (At 1 0) nullptr 4 0 false) 1 2) = true ∧
   m_resource_manager (slice (Build (At 1 0) nullptr 4 0 false) 1 2) = nullptr ∧
   m_offset (slice (Build (At 1 0) nullptr 4 0 false) 1 2) = 0 ∧
   (∀ i, operator_index (slice (Build (At 1 0) nullptr 4 0 false) 1 2) i =
         operator_index (Build (At 1 0) nullptr 4 0 false) (1 + i)) ∧
   (∀ um ctx i m, pick um ctx (slice (Build (At 1 0) nullptr 4 0 false) 1 2) i m =
                  pick um ctx (Build (At 1 0) nullptr 4 0 false) (1 + i) m))
  ∧
  (slice (Build (At 1 0) nullptr 4 0 false) 3 2 = ManagedArray_default ∧
   size (slice (Build (At 1 0) nullptr 4 0 false) 3 2) = 0 ∧
   m_active_pointer (slice (Build (At 1 0) nullptr 4 0 false) 3 2) = null ∧
   m_is_slice (slice (Build (At 1 0) nullptr 4 0 false) 3 2) = false).
Proof.
  split.
  - apply (proj1 (X15_slice_bounds (Build (At 1 0) nullptr 4 0 false) 1 2
                    ltac:(lia) ltac:(lia) ltac:(vm_compute; discriminate))).
    simpl. lia.
  - apply (proj2 (X15_slice_bounds (Build (At 1 0) nullptr 4 0 false) 3 2
                    ltac:(lia) ltac:(lia) ltac:(vm_compute; discriminate))).
    simpl. lia.
Defined.

Lemma store_out_of_bounds p v cells m :
  blocks m !! block p = Some cells →
  Z.of_nat (length cells) ≤ index p →
  store p v m = Fault (OutOfBounds p).
Proof.
  intros Hb Hi. unfold store. rewrite Hb. now rewrite decide_False by lia.
Qed.

Lemma synchronize_Done um ctx m :
  ∃ m', synchronize um ctx m = Done tt m' ∧ blocks m' = blocks m.
Proof.
  destruct ctx, um; eexists; (split; [reflexivity|]); reflexivity.
Qed.

Lemma set_run um ctx this i v m :
  ∃ m0, blocks m0 = blocks m ∧
        set um ctx this i v m = store (operator_index this i) v m0.
Proof.
  destruct (synchronize_Done um ctx m) as (m0 & Hs & Hb).
  exists m0. split; [exact Hb|]. unfold set, bind. now rewrite Hs.
Qed.

Lemma pick_run um ctx this i m :
  ∃ m0, blocks m0 = blocks m ∧
        pick um ctx this i m = load (operator_index this i) m0.
Proof.
  destruct (synchronize_Done um ctx m) as (m0 & Hs & Hb).
  exists m0. split; [exact Hb|]. unfold pick, bind. now rewrite Hs.
Qed.

(** X16.  The bound check of [slice] adds two [size_t] values, so the
    sum wraps.  For a request with [offset + elems] above [SIZE_MAX] the
    check compares the wrapped sum [offset + elems - 2^64] with [size()]:
    the request is accepted exactly when the wrapped sum is at most
    [size()], and rejected with an empty array otherwise.  An accepted
    request of this kind gives a handle flagged as a slice whose [size()]
    is [elems], although [offset + elems] is larger than the size of the
    array it was taken from. *)
Theorem X16_slice_bound_check_wraps this offset elems :
  0 ≤ offset ≤ SIZE_MAX → 0 ≤ elems ≤ SIZE_MAX →
  SIZE_MAX < offset + elems → size this ≤ SIZE_MAX →
  (m_is_slice (slice this offset elems) = true ↔
     offset + elems - 2 ^ 64 ≤ size this) ∧
  (offset + elems - 2 ^ 64 ≤ size this →
     size (slice this offset elems) = elems ∧
     size this < offset + elems) ∧
  (size this < offset + elems - 2 ^ 64 →
     slice this offset elems = ManagedArray_default).
Proof.
  intros Ho He Hwrap Hmax.
  assert (size_wrap (offset + elems) = offset + elems - 2 ^ 64) as Hw.
  { unfold size_wrap, SIZE_MAX in *.
    symmetry. apply (Z.mod_unique_pos _ _ 1); lia. }
  unfold slice. rewrite Hw.
  destruct (decide (offset + elems - 2 ^ 64 > size this)) as [Hgt|Hle].
  - split; [|split].
    + split; [discriminate | lia].
    + lia.
    + reflexivity.
  - split; [|split].
    + split; [lia | reflexivity].
    + intros _. split; [reflexivity | lia].
    + lia.
Qed.

Lemma X16_slice_bound_check_wraps_witness :
  m_is_slice (slice (Build (At 1 0) nullptr 4 0 false) SIZE_MAX 2) = true ∧
  (size (slice (Build (At 1 0) nullptr 4 0 false) SIZE_MAX 2) = 2 ∧
   size (Build (At 1 0) nullptr 4 0 false) < SIZE_MAX + 2) ∧
  slice (Build (At 1 0) nullptr 4 0 false) SIZE_MAX 6 = ManagedArray_default.
Proof.
  split; [|split].
  - apply (proj1 (X16_slice_bound_check_wraps
                    (Build (At 1 0) nullptr 4 0 false) SIZE_MAX 2
                    ltac:(vm_compute; split; discriminate)
                    ltac:(vm_compute; split; discriminate)
                    ltac:(vm_compute; reflexivity)
                    ltac:(vm_compute; discriminate))).
    vm_compute. discriminate.
  - apply (proj1 (proj2 (X16_slice_bound_check_wraps
                    (Build (At 1 0) nullptr 4 0 false) SIZE_MAX 2
                    ltac:(vm_compute; split; discriminate)
                    ltac:(vm_compute; split; discriminate)
                    ltac:(vm_compute; reflexivity)
                    ltac:(vm_compute; discriminate)))).
    vm_compute. discriminate.
  - apply (proj2 (proj2 (X16_slice_bound_check_wraps
                    (Build (At 1 0) nullptr 4 0 false) SIZE_MAX 6
                    ltac:(vm_compute; split; discriminate)
                    ltac:(vm_compute; split; discriminate)
                    ltac:(vm_compute; reflexivity)
                    ltac:(vm_compute; discriminate)))).
    vm_compute. reflexivity.
Defined.

(** X17.  Slices compose: a slice of a slice is the slice of the
    parent at the sum of the two offsets, as long as both requests stay
    inside what they are taken from. *)
Theorem X17_slice_of_a_slice this o1 e1 o2 e2 :
  0 ≤ o1 → 0 ≤ o2 → 0 ≤ e2 →
  o1 + e1 ≤ size this → size this ≤ SIZE_MAX → o2 + e2 ≤ e1 →
  slice (slice this o1 e1) o2 e2 = slice this (o1 + o2) e2.
Proof.
  intros H1 H2 H3 Hin Hmax Hin2.
  rewrite (slice_accepted this o1 e1) by lia.
  rewrite (slice_accepted this (o1 + o2) e2) by lia.
  rewrite slice_accepted by (simpl; lia).
  simpl. now rewrite pointer_add_add.
Qed.

Lemma X17_slice_of_a_slice_witness :
  slice (slice (Build (At 1 0) nullptr 8 0 false) 2 5) 1 3 =
  slice (Build (At 1 0) nullptr 8 0 false) (2 + 1) 3.
Proof.
  apply X17_slice_of_a_slice; simpl; try lia. vm_compute. discriminate.
Defined.

(** X18.  A slice never changes storage.  On the result of an accepted
    [slice] request, [allocate], [reallocate] and [free] return at once:
    the handle and the memory are what they were, so the parent's block
    cannot be released or moved through a slice.  Assigning [nullptr] to
    the slice resets pointer and size but not the flag, so the handle
    stays unable to allocate. *)
Theorem X18_a_slice_never_changes_storage sizeof_T um this offset elems m :
  0 ≤ offset → 0 ≤ elems → offset + elems ≤ size this → size this ≤ SIZE_MAX →
  (∀ n, allocate sizeof_T um (slice this offset elems) n m =
          Done (slice this offset elems) m) ∧
  (∀ n, reallocate sizeof_T um (slice this offset elems) n m =
          Done (slice this offset elems) m) ∧
  free um (slice this offset elems) m = Done tt m ∧
  (∀ n, allocate sizeof_T um
          (operator_assign_nullptr (slice this offset elems)) n m =
        Done (Build null nullptr 0 0 true) m).
Proof.
  intros Ho He Hin Hmax. rewrite slice_accepted by lia. repeat split.
Qed.

Lemma X18_a_slice_never_changes_storage_witness :
  (∀ n, allocate 8 false (slice (Build (At 1 0) nullptr 4 0 false) 1 2) n
          (Memory {[1 := [Some 1; Some 2; Some 3; Some 4]]} 0 []) =
        Done (slice (Build (At 1 0) nullptr 4 0 false) 1 2)
          (Memory {[1 := [Some 1; Some 2; Some 3; Some 4]]} 0 [])) ∧
  (∀ n, reallocate 8 false (slice (Build (At 1 0) nullptr 4 0 false) 1 2) n
          (Memory {[1 := [Some 1; Some 2; Some 3; Some 4]]} 0 []) =
        Done (slice (Build (At 1 0) nullptr 4 0 false) 1 2)
          (Memory {[1 := [Some 1; Some 2; Some 3; Some 4]]} 0 [])) ∧
  free false (slice (Build (At 1 0) nullptr 4 0 false) 1 2)
    (Memory {[1 := [Some 1; Some 2; Some 3; Some 4]]} 0 []) =
    Done tt (Memory {[1 := [Some 1; Some 2; Some 3; Some 4]]} 0 []) ∧
  (∀ n, allocate 8 false
          (operator_assign_nullptr (slice (Build (At 1 0) nullptr 4 0 false) 1 2))
          n (Memory {[1 := [Some 1; Some 2; Some 3; Some 4]]} 0 []) =
        Done (Build null nullptr 0 0 true)
          (Memory {[1 := [Some 1; Some 2; Some 3; Some 4]]} 0 [])).
Proof.
  apply (X18_a_slice_never_changes_storage 8 false
           (Build (At 1 0) nullptr 4 0 false) 1 2); simpl; try lia.
  vm_compute. discriminate.
Defined.

(** ** The thin [ManagedArray]: storage *)

Lemma fresh_block_fresh m :
  fresh_block m ≠ 0 ∧ blocks m !! fresh_block m = None.
Proof.
  pose proof (is_fresh ({[0]} ∪ dom (blocks m))) as H. fold (fresh_block m) in H.
  split.
  - intros E. apply H. rewrite E. set_solver.
  - apply not_elem_of_dom. set_solver.
Qed.

Lemma capacity_exact sizeof_T n :
  1 ≤ sizeof_T → 0 ≤ n → sizeof_T * n ≤ SIZE_MAX →
  capacity sizeof_T (size_wrap (sizeof_T * n)) = Z.to_nat n.
Proof.
  intros Hs Hn Hmax. unfold capacity.
  rewrite size_wrap_small by lia.
  rewrite Z.mul_comm, Z.div_mul by lia. reflexivity.
Qed.

Lemma load_Done p v cells m :
  blocks m !! block p = Some cells → 0 ≤ index p →
  cells !! Z.to_nat (index p) = Some (Some v) →
  load p m = Done v m.
Proof.
  intros Hb Hi Hc. unfold load. rewrite Hb.
  rewrite decide_True by done. now rewrite Hc.
Qed.

Lemma pick_Done um ctx this i v cells m :
  blocks m !! block (m_active_pointer this) = Some cells →
  0 ≤ index (m_active_pointer this) + i →
  cells !! Z.to_nat (index (m_active_pointer this) + i) = Some (Some v) →
  ∃ m', pick um ctx this i m = Done v m' ∧ blocks m' = blocks m.
Proof.
  intros Hb Hi Hc.
  destruct (pick_run um ctx this i m) as (m0 & Hm0 & ->).
  exists m0. split; [|exact Hm0].
  apply (load_Done _ _ cells); [now rewrite Hm0 | done | done].
Qed.

Lemma load_gone p m :
  blocks m !! block p = None → load p m = Fault (OutOfBounds p).
Proof. intros H. unfold load. now rewrite H. Qed.

Lemma store_gone p v m :
  blocks m !! block p = None → store p v m = Fault (OutOfBounds p).
Proof. intros H. unfold store. now rewrite H. Qed.

(** Every access through a handle whose block is not live is a fault. *)
Lemma access_gone um this m :
  blocks m !! block (m_active_pointer this) = None →
  ∀ ctx i v,
    set um ctx this i v m = Fault (OutOfBounds (operator_index this i)) ∧
    pick um ctx this i m = Fault (OutOfBounds (operator_index this i)).
Proof.
  intros Hgone ctx i v. split.
  - destruct (set_run um ctx this i v m) as (m0 & Hm0 & ->).
    apply store_gone. now rewrite Hm0.
  - destruct (pick_run um ctx this i m) as (m0 & Hm0 & ->).
    apply load_gone. now rewrite Hm0.
Qed.

Lemma malloc_granted sizeof_T bytes m :
  granted m = true →
  malloc sizeof_T bytes m =
    Done (At (fresh_block m) 0)
      (set_blocks
         (insert (fresh_block m) (replicate (capacity sizeof_T bytes) None))
         (answered m)).
Proof. intros H. unfold malloc. now rewrite H. Qed.

Lemma malloc_refused sizeof_T bytes m :
  granted m = false → malloc sizeof_T bytes m = Done null (answered m).
Proof. intros H. unfold malloc. now rewrite H. Qed.

Lemma cudaMallocManaged_granted sizeof_T bytes m :
  bytes ≠ 0 → granted m = true →
  cudaMallocManaged sizeof_T bytes m =
    Done (At (fresh_block m) 0)
      (set_blocks
         (insert (fresh_block m) (replicate (capacity sizeof_T bytes) None))
         (answered m)).
Proof.
  intros Hz H. unfold cudaMallocManaged.
  rewrite decide_False by done. now rewrite H.
Qed.

Lemma allocate_run sizeof_T um this elems m :
  m_is_slice this = false → granted m = true →
  (um = true → size_wrap (sizeof_T * elems) ≠ 0) →
  allocate sizeof_T um this elems m =
    Done (Build (At (fresh_block m) 0) (m_resource_manager this) elems
            (m_offset this) false)
      (set_blocks
         (insert (fresh_block m)
            (replicate (capacity sizeof_T (size_wrap (sizeof_T * elems))) None))
         (answered m)).
Proof.
  intros Hs Hg Hz. unfold allocate. rewrite Hs. cbn [negb]. unfold bind.
  destruct um.
  - rewrite cudaMallocManaged_granted by auto. reflexivity.
  - rewrite malloc_granted by done. reflexivity.
Qed.

Lemma allocate_refused sizeof_T this elems m :
  m_is_slice this = false → granted m = false →
  allocate sizeof_T false this elems m =
    Done (Build null (m_resource_manager this) elems (m_offset this) false)
      (answered m).
Proof.
  intros Hs Hg. unfold allocate. rewrite Hs. cbn [negb].
  unfold bind. now rewrite malloc_refused.
Qed.

(** X19.  [allocate(elems)] on an array that is not a slice, when
    [sizeof(T) * elems] fits a [size_t].  When the allocator grants the
    request (in the unified-memory build the request must also be for at
    least one element), the array gets a block of its own that was not
    allocated before, with room for exactly [elems] elements, none of them
    written yet, and [size()] becomes [elems]; every block that was
    allocated before is still allocated, the one the array pointed to
    included: [allocate] does not free.  The constructor
    [ManagedArray(elems, space)] is [allocate] on a fresh handle.  When
    [malloc] refuses the request, [allocate] does not notice: the array
    gets the null pointer while [size()] still becomes [elems], no block
    is allocated, and every element access is an access outside every
    block. *)
Theorem X19_allocate_gives_a_block_of_its_own sizeof_T um this elems m :
  1 ≤ sizeof_T → 0 ≤ elems → sizeof_T * elems ≤ SIZE_MAX →
  m_is_slice this = false →
  (granted m = true → (um = true → 0 < elems) →
   ∃ this' m',
     allocate sizeof_T um this elems m = Done this' m' ∧
     size this' = elems ∧
     owns this' (replicate (Z.to_nat elems) None) m' ∧
     m_active_pointer this' ≠ null ∧
     blocks m !! block (m_active_pointer this') = None ∧
     (∀ b cells, blocks m !! b = Some cells → blocks m' !! b = Some cells) ∧
     (∀ i, 0 ≤ i < elems →
        ∀ ctx v, ∃ m'', set um ctx this' i v m' = Done tt m'' ∧
                        ∃ m3, pick um ctx this' i m'' = Done v m3) ∧
     ManagedArray_elems sizeof_T um elems m =
       Done (Build (m_active_pointer this') nullptr elems 0 false) m') ∧
  (um = false → granted m = false → blocks m !! 0 = None →
   ∃ this' m',
     allocate sizeof_T um this elems m = Done this' m' ∧
     m_active_pointer this' = null ∧
     size this' = elems ∧
     blocks m' = blocks m ∧
     ∀ ctx i v,
       set um ctx this' i v m' = Fault (OutOfBounds (operator_index this' i)) ∧
       pick um ctx this' i m' = Fault (OutOfBounds (operator_index this' i))).
Proof.
  intros Hs He Hmax Hslice. split.
  - intros Hg Hum.
    assert (um = true → size_wrap (sizeof_T * elems) ≠ 0) as Hz.
    { intros E. specialize (Hum E). rewrite size_wrap_small by lia. nia. }
    destruct (fresh_block_fresh m) as [Hnz Hfresh].
    eexists _, _. split; [now apply allocate_run|].
    rewrite capacity_exact by lia.
    split; [reflexivity|]. split.
    { repeat split; simpl; [done | apply lookup_insert_eq |].
      rewrite length_replicate. lia. }
    split; [intros [= E]; done|]. split; [exact Hfresh|]. split.
    { intros b cells Hb. simpl. rewrite lookup_insert_ne; [done|].
      intros <-. congruence. }
    split.
    + intros i Hi ctx v.
      match goal with |- context [set um ctx ?a i v ?mm] =>
        destruct (set_run um ctx a i v mm) as (m0 & Hm0 & ->) end.
      unfold store, operator_index, pointer_add. simpl in *.
      rewrite Hm0, lookup_insert_eq. rewrite length_replicate.
      rewrite decide_True by lia.
      eexists. split; [reflexivity|].
      match goal with |- context [pick um ctx ?a i ?mm] =>
        destruct (pick_run um ctx a i mm) as (m1 & Hm1 & ->) end.
      unfold load, operator_index, pointer_add. simpl in *.
      rewrite Hm1, lookup_insert_eq. rewrite decide_True by lia.
      rewrite list_lookup_insert_eq by (rewrite length_replicate; lia).
      by eexists.
    + unfold ManagedArray_elems. rewrite allocate_run by done.
      now rewrite capacity_exact by lia.
  - intros -> Hg Hnull.
    eexists _, _. split; [now apply allocate_refused|].
    split; [reflexivity|]. split; [reflexivity|]. split; [reflexivity|].
    apply access_gone. exact Hnull.
Qed.

Lemma X19_allocate_gives_a_block_of_its_own_witness :
  (∃ this' m',
     allocate 8 true ManagedArray_default 3 (Memory ∅ 0 []) = Done this' m' ∧
     size this' = 3 ∧
     owns this' (replicate (Z.to_nat 3) None) m' ∧
     m_active_pointer this' ≠ null ∧
     blocks (Memory ∅ 0 []) !! block (m_active_pointer this') = None ∧
     (∀ b cells, blocks (Memory ∅ 0 []) !! b = Some cells →
                 blocks m' !! b = Some cells) ∧
     (∀ i, 0 ≤ i < 3 →
        ∀ ctx v, ∃ m'', set true ctx this' i v m' = Done tt m'' ∧
                        ∃ m3, pick true ctx this' i m'' = Done v m3) ∧
     ManagedArray_elems 8 true 3 (Memory ∅ 0 []) =
       Done (Build (m_active_pointer this') nullptr 3 0 false) m') ∧
  (∃ this' m',
     allocate 8 false ManagedArray_default 3 (Memory ∅ 0 [Refused]) =
       Done this' m' ∧
     m_active_pointer this' = null ∧
     size this' = 3 ∧
     blocks m' = blocks (Memory ∅ 0 [Refused]) ∧
     ∀ ctx i v,
       set false ctx this' i v m' =
         Fault (OutOfBounds (operator_index this' i)) ∧
       pick false ctx this' i m' =
         Fault (OutOfBounds (operator_index this' i))).
Proof.
  split.
  - apply (proj1 (X19_allocate_gives_a_block_of_its_own 8 true
                    ManagedArray_default 3 (Memory ∅ 0 [])
                    ltac:(lia) ltac:(lia) ltac:(vm_compute; discriminate)
                    eq_refl)); [reflexivity | lia].
  - apply (proj2 (X19_allocate_gives_a_block_of_its_own 8 false
                    ManagedArray_default 3 (Memory ∅ 0 [Refused])
                    ltac:(lia) ltac:(lia) ltac:(vm_compute; discriminate)
                    eq_refl)); reflexivity.
Defined.

(** X20.  The byte count [sizeof(T) * elems] that [allocate] passes to
    the allocator is a [size_t] product and wraps.  When the product
    exceeds [SIZE_MAX], [size()] reports [elems] while the block the
    allocator returns for the wrapped count is shorter than [elems]
    elements: the element just behind the end of the block has a number
    below [size()], and writing it is an access outside the block; so is
    writing the last element, [elems - 1], when its byte offset fits a
    [size_t], so that its position is what the machine computes.  When
    [malloc] refuses the request there is no block at all, and the array
    holds the null pointer.  (In the unified-memory build the statement is
    about a request that is granted and whose wrapped count is not
    zero.) *)
Theorem X20_allocate_byte_count_wraps sizeof_T um this elems m :
  1 ≤ sizeof_T ≤ SIZE_MAX → 0 ≤ elems ≤ SIZE_MAX →
  SIZE_MAX < sizeof_T * elems →
  m_is_slice this = false →
  (um = true → granted m = true ∧ size_wrap (sizeof_T * elems) ≠ 0) →
  ∃ this' m',
    allocate sizeof_T um this elems m = Done this' m' ∧
    size this' = elems ∧
    (granted m = true →
     ∃ cells,
       blocks m' !! block (m_active_pointer this') = Some cells ∧
       index (m_active_pointer this') = 0 ∧
       Z.of_nat (length cells) < elems ∧
       (∀ ctx v,
          set um ctx this' (Z.of_nat (length cells)) v m' =
            Fault (OutOfBounds
                     (operator_index this' (Z.of_nat (length cells))))) ∧
       (sizeof_T * (elems - 1) ≤ SIZE_MAX →
        ∀ ctx v, set um ctx this' (elems - 1) v m' =
                   Fault (OutOfBounds (operator_index this' (elems - 1))))) ∧
    (granted m = false →
     m_active_pointer this' = null ∧
     blocks m' = blocks m ∧
     (blocks m !! 0 = None →
      ∀ ctx v, set um ctx this' (elems - 1) v m' =
                 Fault (OutOfBounds (operator_index this' (elems - 1))))).
Proof.
  intros Hs He Hwrap Hslice Hum.
  assert (Z.of_nat (capacity sizeof_T (size_wrap (sizeof_T * elems))) < elems)
    as Hshort.
  { unfold capacity, size_wrap, SIZE_MAX in *.
    assert (0 ≤ (sizeof_T * elems) mod 2 ^ 64 ≤ sizeof_T * elems - 2 ^ 64) as Hm.
    { pose proof (Z.mod_pos_bound (sizeof_T * elems) (2 ^ 64) ltac:(lia)).
      pose proof (Z.div_mod (sizeof_T * elems) (2 ^ 64) ltac:(lia)).
      assert (1 ≤ (sizeof_T * elems) / 2 ^ 64)
        by (apply Z.div_le_lower_bound; lia).
      lia. }
    rewrite Z2Nat.id by (apply Z.div_pos; lia).
    apply Z.div_lt_upper_bound; nia. }
  destruct (granted m) eqn:Hg.
  - eexists _, _. split; [apply allocate_run; [done | done | apply Hum]|].
    split; [reflexivity|]. split; [|discriminate].
    assert (∀ i ctx v, Z.of_nat (capacity sizeof_T
                                   (size_wrap (sizeof_T * elems))) ≤ i →
              set um ctx
                (Build (At (fresh_block m) 0) (m_resource_manager this) elems
                   (m_offset this) false) i v
                (set_blocks
                   (insert (fresh_block m)
                      (replicate
                         (capacity sizeof_T (size_wrap (sizeof_T * elems)))
                         None))
                   (answered m)) =
              Fault (OutOfBounds (At (fresh_block m) (0 + i)))) as Hout.
    { intros i ctx v Hi.
      match goal with |- context [set um ctx ?a i v ?mm] =>
        destruct (set_run um ctx a i v mm) as (m0 & Hm0 & ->) end.
      eapply store_out_of_bounds.
      + rewrite Hm0. simpl. apply lookup_insert_eq.
      + rewrite length_replicate. simpl. lia. }
    intros _. eexists. split; [apply lookup_insert_eq|].
    split; [reflexivity|].
    split; [now rewrite length_replicate|]. split.
    + intros ctx v. rewrite length_replicate. now apply Hout.
    + intros _ ctx v. apply Hout. lia.
  - destruct um; [destruct Hum as [? _]; [done | discriminate]|].
    eexists _, _. split; [now apply allocate_refused|].
    split; [reflexivity|]. split; [discriminate|].
    intros _. split; [reflexivity|]. split; [reflexivity|].
    intros Hnull ctx v.
    now apply (access_gone false
                 (Build null (m_resource_manager this) elems (m_offset this) false)
                 (answered m)).
Qed.

Lemma X20_allocate_byte_count_wraps_witness :
  ∃ this' m',
    allocate 8 false ManagedArray_default (2 ^ 61) (Memory ∅ 0 []) =
      Done this' m' ∧
    size this' = 2 ^ 61 ∧
    (granted (Memory ∅ 0 []) = true →
     ∃ cells,
       blocks m' !! block (m_active_pointer this') = Some cells ∧
       index (m_active_pointer this') = 0 ∧
       Z.of_nat (length cells) < 2 ^ 61 ∧
       (∀ ctx v,
          set false ctx this' (Z.of_nat (length cells)) v m' =
            Fault (OutOfBounds
                     (operator_index this' (Z.of_nat (length cells))))) ∧
       (8 * (2 ^ 61 - 1) ≤ SIZE_MAX →
        ∀ ctx v, set false ctx this' (2 ^ 61 - 1) v m' =
                   Fault (OutOfBounds (operator_index this' (2 ^ 61 - 1))))) ∧
    (granted (Memory ∅ 0 []) = false →
     m_active_pointer this' = null ∧
     blocks m' = blocks (Memory ∅ 0 []) ∧
     (blocks (Memory ∅ 0 []) !! 0 = None →
      ∀ ctx v, set false ctx this' (2 ^ 61 - 1) v m' =
                 Fault (OutOfBounds (operator_index this' (2 ^ 61 - 1))))).
Proof.
  apply (X20_allocate_byte_count_wraps 8 false ManagedArray_default (2 ^ 61)
           (Memory ∅ 0 []));
    [vm_compute; split; discriminate | vm_compute; split; discriminate
    | vm_compute; reflexivity | reflexivity | discriminate].
Defined.

Lemma realloc_zero sizeof_T p cells m :
  block p ≠ 0 → index p = 0 → blocks m !! block p = Some cells →
  realloc sizeof_T p 0 m = Done null (set_blocks (delete (block p)) m).
Proof.
  intros Hb Hi Hc. unfold realloc.
  rewrite decide_False by (intros ->; now apply Hb).
  rewrite Hc. now rewrite !decide_True by done.
Qed.

Lemma realloc_refused sizeof_T p bytes cells m :
  block p ≠ 0 → index p = 0 → blocks m !! block p = Some cells →
  bytes ≠ 0 → granted m = false →
  realloc sizeof_T p bytes m = Done null (answered m).
Proof.
  intros Hb Hi Hc Hz Hg. unfold realloc.
  rewrite decide_False by (intros ->; now apply Hb).
  rewrite Hc. rewrite decide_True by done. rewrite decide_False by done.
  unfold granted in Hg. now destruct (next_answer m).
Qed.

(** A granted [realloc]: the block returned begins with the old elements,
    as many as fit; every other block is what it was, apart from the old
    one. *)
Lemma realloc_granted sizeof_T p bytes cells m :
  block p ≠ 0 → index p = 0 → blocks m !! block p = Some cells →
  bytes ≠ 0 → granted m = true →
  ∃ q m',
    realloc sizeof_T p bytes m = Done q m' ∧
    block q ≠ 0 ∧ index q = 0 ∧
    blocks m' !! block q =
      Some (take (capacity sizeof_T bytes) cells ++
            replicate (capacity sizeof_T bytes - length cells) None) ∧
    (q = p ∨ blocks m !! block q = None ∧ blocks m' !! block p = None) ∧
    ∀ b, b ≠ block q → b ≠ block p → blocks m' !! b = blocks m !! b.
Proof.
  intros Hb Hi Hc Hz Hg.
  destruct (fresh_block_fresh m) as [Hnz Hfresh].
  assert (fresh_block m ≠ block p) as Hne
    by (intros E; rewrite E in Hfresh; congruence).
  unfold realloc.
  rewrite decide_False by (intros ->; now apply Hb).
  rewrite Hc. rewrite decide_True by done. rewrite decide_False by done.
  unfold granted in Hg. destruct (next_answer m); [done| |].
  - eexists _, _. split; [reflexivity|]. simpl.
    split; [done|]. split; [done|]. split; [apply lookup_insert_eq|].
    split.
    + right. split; [done|].
      rewrite lookup_insert_ne by done. apply lookup_delete_eq.
    + intros b Hb1 Hb2. rewrite lookup_insert_ne by done.
      now rewrite lookup_delete_ne.
  - eexists _, _. split; [reflexivity|]. simpl.
    split; [done|]. split; [done|]. split; [apply lookup_insert_eq|].
    split; [now left|].
    intros b Hb1 Hb2. now rewrite lookup_insert_ne.
Qed.

Lemma realloc_dangling sizeof_T p bytes m :
  p ≠ null → blocks m !! block p = None →
  realloc sizeof_T p bytes m = Fault (InvalidFree p).
Proof.
  intros Hp Hb. unfold realloc. rewrite decide_False by done. now rewrite Hb.
Qed.

Lemma free_block_run p cells m :
  block p ≠ 0 → index p = 0 → blocks m !! block p = Some cells →
  free_block p m = Done tt (set_blocks (delete (block p)) m).
Proof.
  intros Hb Hi Hc. unfold free_block.
  rewrite decide_False by (intros ->; now apply Hb).
  rewrite Hc. now rewrite decide_True by done.
Qed.

Lemma free_run um this cells m :
  m_is_slice this = false → owns this cells m →
  free um this m =
    Done tt (set_blocks (delete (block (m_active_pointer this))) m).
Proof.
  intros Hs (Hb & Hi & Hc & _). unfold free. rewrite Hs. simpl.
  destruct um; now apply (free_block_run _ cells).
Qed.

(** The unified-memory branch of [reallocate] when the request is
    granted and the copy fits. *)
Lemma reallocate_um_grow sizeof_T this cells new_elems m :
  1 ≤ sizeof_T → owns this cells m →
  sizeof_T * size this ≤ SIZE_MAX →
  0 < new_elems → sizeof_T * new_elems ≤ SIZE_MAX →
  size this ≤ new_elems → granted m = true →
  ∃ m',
    (let+ new_ptr := cudaMallocManaged sizeof_T (size_wrap (sizeof_T * new_elems)) in
     cudaMemcpy sizeof_T new_ptr (m_active_pointer this)
       (size_wrap (sizeof_T * m_elems this)) ;+
     cudaFree (m_active_pointer this) ;+
     ret new_ptr) m = Done (At (fresh_block m) 0) m' ∧
    blocks m' !! fresh_block m =
      Some (cells ++ replicate (Z.to_nat new_elems - length cells) None) ∧
    blocks m' !! block (m_active_pointer this) = None.
Proof.
  intros Hs (Hb & Hi & Hc & Hlen) Hmax He Hmax' Hgrow Hg.
  destruct (fresh_block_fresh m) as [Hnz Hfresh].
  assert (fresh_block m ≠ block (m_active_pointer this)) as Hne
    by (intros E; rewrite E in Hfresh; congruence).
  unfold size in *.
  assert (0 ≤ m_elems this) as Hpos by lia.
  unfold bind at 1.
  rewrite cudaMallocManaged_granted;
    [|rewrite size_wrap_small by lia; nia | done].
  unfold bind.
  rewrite !capacity_exact by lia.
  set (b := fresh_block m) in *.
  set (m1 := set_blocks _ (answered m)).
  assert (blocks m1 !! block (m_active_pointer this) = Some cells) as Hc1.
  { subst m1. simpl. now rewrite lookup_insert_ne. }
  assert (Z.to_nat (m_elems this) = length cells) as Hn by lia.
  unfold cudaMemcpy. rewrite capacity_exact by lia. rewrite Hn.
  destruct (decide (length cells = O)) as [E|E].
  - unfold cudaFree. rewrite (free_block_run _ cells m1) by done.
    eexists. split; [reflexivity|]. simpl. split.
    + rewrite lookup_delete_ne by done. rewrite lookup_insert_eq.
      destruct cells; [|done]. simpl. now rewrite Nat.sub_0_r.
    + apply lookup_delete_eq.
  - unfold range. rewrite Hc1. rewrite Hi. simpl.
    rewrite decide_True by lia.
    subst m1. simpl. rewrite lookup_insert_eq. rewrite length_replicate.
    rewrite decide_True by lia. simpl.
    set (m2 := set_blocks _ _).
    assert (blocks m2 !! block (m_active_pointer this) = Some cells) as Hc2.
    { subst m2. simpl. now rewrite !lookup_insert_ne. }
    unfold cudaFree. rewrite (free_block_run _ cells m2) by done.
    eexists. split; [reflexivity|]. simpl. split.
    + rewrite lookup_delete_ne by done. rewrite lookup_insert_eq.
      rewrite drop_0, firstn_all. f_equal. f_equal.
      rewrite drop_replicate. reflexivity.
    + apply lookup_delete_eq.
Qed.

(** X21.  [reallocate(new_elems)] on an array that holds a whole block,
    when the byte counts fit a [size_t].  When [new_elems] is not zero,
    the allocator grants the request and, in the unified-memory build,
    the array does not shrink, the array ends up holding a whole block of
    [new_elems] elements that begins with the old elements, as many as
    fit, followed by elements not yet written; [size()] is [new_elems];
    every old element that was written and still fits is read back
    unchanged.  In the unified-memory build the old block has been freed.
    Without unified memory,
    [reallocate(0)] frees the block and leaves the null pointer with
    [size()] zero; and when [realloc] refuses the request, [reallocate]
    does not notice: the array gets the null pointer while [size()]
    becomes [new_elems], and the old block stays allocated with no handle
    to it. *)
Theorem X21_reallocate_keeps_the_elements sizeof_T um this cells new_elems m :
  1 ≤ sizeof_T → m_is_slice this = false → owns this cells m →
  sizeof_T * size this ≤ SIZE_MAX →
  0 ≤ new_elems → sizeof_T * new_elems ≤ SIZE_MAX →
  (0 < new_elems → granted m = true →
   (um = true → size this ≤ new_elems) →
   ∃ this' m',
     reallocate sizeof_T um this new_elems m = Done this' m' ∧
     size this' = new_elems ∧
     owns this'
       (take (Z.to_nat new_elems) cells ++
        replicate (Z.to_nat new_elems - length cells) None) m' ∧
     (um = true → blocks m' !! block (m_active_pointer this) = None) ∧
     ∀ i v, 0 ≤ i < new_elems →
       cells !! Z.to_nat i = Some (Some v) →
       ∀ ctx, ∃ m'', pick um ctx this' i m' = Done v m'') ∧
  (um = false → new_elems = 0 →
   ∃ this' m',
     reallocate sizeof_T um this new_elems m = Done this' m' ∧
     m_active_pointer this' = null ∧
     size this' = 0 ∧
     blocks m' = delete (block (m_active_pointer this)) (blocks m)) ∧
  (um = false → 0 < new_elems → granted m = false →
   ∃ this' m',
     reallocate sizeof_T um this new_elems m = Done this' m' ∧
     m_active_pointer this' = null ∧
     size this' = new_elems ∧
     blocks m' = blocks m ∧
     blocks m' !! block (m_active_pointer this) = Some cells).
Proof.
  intros Hs Hslice Howns Hmax He Hmax'. split; [|split].
  - intros Hpos Hg Hum.
    assert (∃ q m',
      reallocate sizeof_T um this new_elems m =
        Done (Build q (m_resource_manager this) new_elems
                (m_offset this) false) m' ∧
      block q ≠ 0 ∧ index q = 0 ∧
      blocks m' !! block q =
        Some (take (Z.to_nat new_elems) cells ++
              replicate (Z.to_nat new_elems - length cells) None) ∧
      (um = true → blocks m' !! block (m_active_pointer this) = None)) as Hrun.
    { unfold reallocate. rewrite Hslice. cbn [negb]. destruct um.
      - destruct (fresh_block_fresh m) as [Hnz Hfresh].
        destruct (reallocate_um_grow sizeof_T this cells new_elems m)
          as (m' & Hrun & Hnew & Hold); try done; [now apply Hum|].
        exists (At (fresh_block m) 0), m'.
        unfold bind at 1. rewrite Hrun. split; [reflexivity|].
        split; [done|]. split; [done|].
        split; [|done]. simpl. rewrite Hnew. f_equal. f_equal.
        destruct Howns as (_ & _ & _ & Hlen). specialize (Hum eq_refl).
        unfold size in *. rewrite firstn_all2 by lia. reflexivity.
      - destruct Howns as (Hb & Hi & Hc & Hlen).
        destruct (realloc_granted sizeof_T (m_active_pointer this)
                    (size_wrap (sizeof_T * new_elems)) cells m)
          as (q & m' & Hrun & Hq & Hqi & Hnew & _); try done.
        { rewrite size_wrap_small by lia. nia. }
        exists q, m'. unfold bind. rewrite Hrun.
        rewrite capacity_exact in Hnew by lia.
        split; [reflexivity|]. now repeat split. }
    destruct Hrun as (q & m' & Hrun & Hq & Hqi & Hnew & Hold).
    eexists _, m'. split; [exact Hrun|]. split; [reflexivity|].
    assert (length (take (Z.to_nat new_elems) cells ++
                    replicate (Z.to_nat new_elems - length cells) None) =
            Z.to_nat new_elems) as Hlen'.
    { rewrite length_app, length_take, length_replicate. lia. }
    split.
    { repeat split; simpl; [done | done | exact Hnew | lia]. }
    split; [exact Hold|].
    intros i v Hi Hcell ctx.
    destruct (pick_Done um ctx
                (Build q (m_resource_manager this) new_elems
                   (m_offset this) false) i v _ m' Hnew) as (m'' & Hpick & _).
    + simpl. lia.
    + simpl. rewrite Hqi. rewrite lookup_app_l.
      * rewrite lookup_take_lt by lia. exact Hcell.
      * rewrite length_take. apply lookup_lt_Some in Hcell. lia.
    + now exists m''.
  - intros -> ->. destruct Howns as (Hb & Hi & Hc & Hlen).
    eexists _, _. split.
    { unfold reallocate. rewrite Hslice. cbn [negb]. unfold bind.
      rewrite Z.mul_0_r. change (size_wrap 0) with 0.
      rewrite (realloc_zero _ _ cells) by done. reflexivity. }
    repeat split.
  - intros -> Hpos Hg. destruct Howns as (Hb & Hi & Hc & Hlen).
    eexists _, _. split.
    { unfold reallocate. rewrite Hslice. cbn [negb]. unfold bind.
      rewrite (realloc_refused _ _ _ cells); try done.
      rewrite size_wrap_small by lia. nia. }
    repeat split. exact Hc.
Qed.

Lemma X21_reallocate_keeps_the_elements_witness :
  (∃ this' m',
     reallocate 8 true (Build (At 1 0) nullptr 2 0 false) 4
       (Memory {[1 := [Some 10; Some 20]]} 0 []) = Done this' m' ∧
     size this' = 4 ∧
     owns this'
       (take (Z.to_nat 4) [Some 10; Some 20] ++
        replicate (Z.to_nat 4 - length [Some 10; Some 20]) None) m' ∧
     (true = true →
      blocks m' !! block (m_active_pointer (Build (At 1 0) nullptr 2 0 false)) =
        None) ∧
     ∀ i v, 0 ≤ i < 4 →
       [Some 10; Some 20] !! Z.to_nat i = Some (Some v) →
       ∀ ctx, ∃ m'', pick true ctx this' i m' = Done v m'') ∧
  (∃ this' m',
     reallocate 8 false (Build (At 1 0) nullptr 2 0 false) 0
       (Memory {[1 := [Some 10; Some 20]]} 0 []) = Done this' m' ∧
     m_active_pointer this' = null ∧
     size this' = 0 ∧
     blocks m' =
       delete (block (m_active_pointer (Build (At 1 0) nullptr 2 0 false)))
         (blocks (Memory {[1 := [Some 10; Some 20]]} 0 []))) ∧
  (∃ this' m',
     reallocate 8 false (Build (At 1 0) nullptr 2 0 false) 4
       (Memory {[1 := [Some 10; Some 20]]} 0 [Refused]) = Done this' m' ∧
     m_active_pointer this' = null ∧
     size this' = 4 ∧
     blocks m' = blocks (Memory {[1 := [Some 10; Some 20]]} 0 [Refused]) ∧
     blocks m' !! block (m_active_pointer (Build (At 1 0) nullptr 2 0 false)) =
       Some [Some 10; Some 20]).
Proof.
  split; [|split].
  - apply (proj1 (X21_reallocate_keeps_the_elements 8 true
                    (Build (At 1 0) nullptr 2 0 false) [Some 10; Some 20] 4
                    (Memory {[1 := [Some 10; Some 20]]} 0 [])
                    ltac:(lia) eq_refl
                    ltac:(repeat split; discriminate)
                    ltac:(vm_compute; discriminate) ltac:(lia)
                    ltac:(vm_compute; discriminate)));
      [lia | reflexivity | simpl; lia].
  - apply (proj1 (proj2 (X21_reallocate_keeps_the_elements 8 false
                    (Build (At 1 0) nullptr 2 0 false) [Some 10; Some 20] 0
                    (Memory {[1 := [Some 10; Some 20]]} 0 [])
                    ltac:(lia) eq_refl
                    ltac:(repeat split; discriminate)
                    ltac:(vm_compute; discriminate) ltac:(lia)
                    ltac:(vm_compute; discriminate)))); reflexivity.
  - apply (proj2 (proj2 (X21_reallocate_keeps_the_elements 8 false
                    (Build (At 1 0) nullptr 2 0 false) [Some 10; Some 20] 4
                    (Memory {[1 := [Some 10; Some 20]]} 0 [Refused])
                    ltac:(lia) eq_refl
                    ltac:(repeat split; discriminate)
                    ltac:(vm_compute; discriminate) ltac:(lia)
                    ltac:(vm_compute; discriminate))));
      [reflexivity | lia | reflexivity].
Defined.

(** X22.  In the unified-memory build [reallocate] copies the old
    element count into the new block, whatever the new size is.  When the
    array shrinks to a size that is not zero and the allocator grants the
    request, the copy of [m_elems] elements does not fit the block of
    [new_elems] elements: the call overruns the block it has just
    allocated.  The build without unified memory shrinks the same array
    without fault and keeps the first [new_elems] elements. *)
Theorem X22_reallocate_um_shrink_overruns sizeof_T this cells new_elems m :
  1 ≤ sizeof_T → m_is_slice this = false → owns this cells m →
  sizeof_T * size this ≤ SIZE_MAX →
  0 < new_elems < size this → granted m = true →
  reallocate sizeof_T true this new_elems m =
    Fault (OutOfBounds (At (fresh_block m) 0)) ∧
  blocks m !! fresh_block m = None ∧
  ∃ this' m',
    reallocate sizeof_T false this new_elems m = Done this' m' ∧
    size this' = new_elems ∧
    owns this' (take (Z.to_nat new_elems) cells) m'.
Proof.
  intros Hs Hslice (Hb & Hi & Hc & Hlen) Hmax He Hg.
  destruct (fresh_block_fresh m) as [Hnz Hfresh].
  assert (fresh_block m ≠ block (m_active_pointer this)) as Hne
    by (intros E; rewrite E in Hfresh; congruence).
  unfold size in *.
  assert (sizeof_T * new_elems ≤ SIZE_MAX) as Hmax' by nia.
  assert (size_wrap (sizeof_T * new_elems) ≠ 0) as Hz
    by (rewrite size_wrap_small by lia; nia).
  split; [|split; [exact Hfresh|]].
  - unfold reallocate. rewrite Hslice. cbn [negb].
    unfold bind at 1. unfold bind at 1.
    rewrite cudaMallocManaged_granted by done.
    unfold bind.
    rewrite capacity_exact by lia.
    unfold cudaMemcpy. rewrite capacity_exact by lia.
    rewrite decide_False by lia.
    unfold range. simpl. rewrite lookup_insert_ne by done.
    rewrite Hc, Hi. rewrite decide_True by lia.
    rewrite lookup_insert_eq. rewrite length_replicate.
    now rewrite decide_False by lia.
  - destruct (realloc_granted sizeof_T (m_active_pointer this)
                (size_wrap (sizeof_T * new_elems)) cells m)
      as (q & m' & Hrun & Hq & Hqi & Hnew & _); try done.
    rewrite capacity_exact in Hnew by lia.
    eexists _, m'. split.
    { unfold reallocate. rewrite Hslice. cbn [negb]. unfold bind.
      rewrite Hrun. reflexivity. }
    split; [reflexivity|].
    repeat split; simpl; [done | done | |].
    + rewrite Hnew. f_equal.
      rewrite (proj2 (Nat.sub_0_le _ _)) by lia. apply app_nil_r.
    + rewrite length_take. lia.
Qed.

Lemma X22_reallocate_um_shrink_overruns_witness :
  reallocate 8 true (Build (At 1 0) nullptr 3 0 false) 1
    (Memory {[1 := [Some 10; Some 20; Some 30]]} 0 []) =
    Fault (OutOfBounds
             (At (fresh_block (Memory {[1 := [Some 10; Some 20; Some 30]]} 0 [])) 0)) ∧
  blocks (Memory {[1 := [Some 10; Some 20; Some 30]]} 0 [])
    !! fresh_block (Memory {[1 := [Some 10; Some 20; Some 30]]} 0 []) = None ∧
  ∃ this' m',
    reallocate 8 false (Build (At 1 0) nullptr 3 0 false) 1
      (Memory {[1 := [Some 10; Some 20; Some 30]]} 0 []) = Done this' m' ∧
    size this' = 1 ∧
    owns this' (take (Z.to_nat 1) [Some 10; Some 20; Some 30]) m'.
Proof.
  apply (X22_reallocate_um_shrink_overruns 8
           (Build (At 1 0) nullptr 3 0 false) [Some 10; Some 20; Some 30] 1
           (Memory {[1 := [Some 10; Some 20; Some 30]]} 0 []));
    try lia; try reflexivity; try (vm_compute; discriminate).
  - repeat split. discriminate.
  - simpl. lia.
Defined.

(** X23.  [free()] releases the block and changes no member: the handle
    keeps its pointer and its size.  After [free()] a second [free()]
    and a [reallocate] pass the stale pointer to the allocator again, and
    every element access goes to a block that is gone.  Assigning
    [nullptr] before [free()] has the opposite effect: [free()] then
    frees nothing and the block stays allocated. *)
Theorem X23_free_leaves_the_handle_dangling um this cells m :
  m_is_slice this = false → owns this cells m →
  ∃ m',
    free um this m = Done tt m' ∧
    blocks m' = delete (block (m_active_pointer this)) (blocks m) ∧
    free um this m' = Fault (InvalidFree (m_active_pointer this)) ∧
    (∀ sizeof_T n,
       reallocate sizeof_T false this n m' =
         Fault (InvalidFree (m_active_pointer this))) ∧
    (∀ ctx i, pick um ctx this i m' =
                Fault (OutOfBounds (operator_index this i))) ∧
    (∀ ctx i v, set um ctx this i v m' =
                  Fault (OutOfBounds (operator_index this i))) ∧
    free um (operator_assign_nullptr this) m = Done tt m.
Proof.
  intros Hslice Howns. pose proof Howns as (Hb & Hi & Hc & Hlen).
  assert (m_active_pointer this ≠ null) as Hnn
    by (intros E; rewrite E in Hb; now apply Hb).
  eexists. split; [now apply (free_run um this cells)|].
  set (m' := set_blocks _ m).
  assert (blocks m' !! block (m_active_pointer this) = None) as Hgone
    by apply lookup_delete_eq.
  split; [reflexivity|]. split.
  { unfold free. rewrite Hslice. simpl.
    assert (free_block (m_active_pointer this) m' =
              Fault (InvalidFree (m_active_pointer this))) as Hf.
    { unfold free_block. rewrite decide_False by done. now rewrite Hgone. }
    now destruct um. }
  split.
  { intros sizeof_T n. unfold reallocate. rewrite Hslice. cbn [negb].
    unfold bind. now rewrite (realloc_dangling _ _ _ _ Hnn Hgone). }
  split.
  { intros ctx i.
    destruct (pick_run um ctx this i m') as (m0 & Hm0 & ->).
    apply load_gone. rewrite Hm0. exact Hgone. }
  split.
  { intros ctx i v.
    destruct (set_run um ctx this i v m') as (m0 & Hm0 & ->).
    apply store_gone. rewrite Hm0. exact Hgone. }
  unfold free, operator_assign_nullptr. simpl. rewrite Hslice. simpl.
  now destruct um.
Qed.

Lemma X23_free_leaves_the_handle_dangling_witness :
  ∃ m',
    free false (Build (At 1 0) nullptr 2 0 false)
      (Memory {[1 := [Some 10; Some 20]]} 0 []) = Done tt m' ∧
    blocks m' =
      delete (block (m_active_pointer (Build (At 1 0) nullptr 2 0 false)))
        (blocks (Memory {[1 := [Some 10; Some 20]]} 0 [])) ∧
    free false (Build (At 1 0) nullptr 2 0 false) m' =
      Fault (InvalidFree (m_active_pointer (Build (At 1 0) nullptr 2 0 false))) ∧
    (∀ sizeof_T n,
       reallocate sizeof_T false (Build (At 1 0) nullptr 2 0 false) n m' =
         Fault (InvalidFree
                  (m_active_pointer (Build (At 1 0) nullptr 2 0 false)))) ∧
    (∀ ctx i, pick false ctx (Build (At 1 0) nullptr 2 0 false) i m' =
                Fault (OutOfBounds
                         (operator_index (Build (At 1 0) nullptr 2 0 false) i))) ∧
    (∀ ctx i v, set false ctx (Build (At 1 0) nullptr 2 0 false) i v m' =
                  Fault (OutOfBounds
                           (operator_index (Build (At 1 0) nullptr 2 0 false) i))) ∧
    free false (operator_assign_nullptr (Build (At 1 0) nullptr 2 0 false))
      (Memory {[1 := [Some 10; Some 20]]} 0 []) =
      Done tt (Memory {[1 := [Some 10; Some 20]]} 0 []).
Proof.
  apply (X23_free_leaves_the_handle_dangling false
           (Build (At 1 0) nullptr 2 0 false) [Some 10; Some 20]
           (Memory {[1 := [Some 10; Some 20]]} 0 [])); [reflexivity|].
  repeat split. discriminate.
Defined.

(** X24.  A slice and a copy share the storage of the array they come
    from: the copy constructor copies the pointer, not the elements.  An
    element written with [set] through an accepted slice at position [i]
    is the element [offset + i] of the parent, read back by [pick] through
    the parent and through any copy of it; no other element of the block
    changes and no other block changes. *)
Theorem X24_writes_through_a_slice_reach_the_parent
  um ctx this cells offset elems i v m :
  owns this cells m →
  0 ≤ offset → 0 ≤ i < elems → offset + elems ≤ size this →
  size this ≤ SIZE_MAX →
  ∃ m',
    set um ctx (slice this offset elems) i v m = Done tt m' ∧
    blocks m' =
      <[block (m_active_pointer this) :=
          <[Z.to_nat (offset + i) := Some v]> cells]> (blocks m) ∧
    owns this (<[Z.to_nat (offset + i) := Some v]> cells) m' ∧
    (∃ m'', pick um ctx this (offset + i) m' = Done v m'') ∧
    (∃ m'', pick um ctx (ManagedArray_copy this) (offset + i) m' = Done v m'') ∧
    (∃ m'', pick um ctx (slice this offset elems) i m' = Done v m'') ∧
    ∀ j, 0 ≤ j → j ≠ offset + i →
      <[Z.to_nat (offset + i) := Some v]> cells !! Z.to_nat j =
      cells !! Z.to_nat j.
Proof.
  intros (Hb & Hi & Hc & Hlen) Ho Hin Hfit Hmax. unfold size in *.
  rewrite slice_accepted by (unfold size; lia).
  match goal with |- context [set um ctx ?a i v m] =>
    destruct (set_run um ctx a i v m) as (m0 & Hm0 & Hset) end.
  assert (∀ a, m_active_pointer a = m_active_pointer this →
            ∀ m1, blocks m1 !! block (m_active_pointer this) =
                    Some (<[Z.to_nat (offset + i) := Some v]> cells) →
            ∃ m'', pick um ctx a (offset + i) m1 = Done v m'') as Hread.
  { intros a Ha m1 Hm1.
    destruct (pick_Done um ctx a (offset + i) v
                (<[Z.to_nat (offset + i) := Some v]> cells) m1)
      as (m'' & Hp & _).
    - rewrite Ha. exact Hm1.
    - rewrite Ha. lia.
    - rewrite Ha, Hi. simpl. apply list_lookup_insert_eq. lia.
    - now exists m''. }
  eexists. split.
  { rewrite Hset. unfold store, operator_index, pointer_add. simpl.
    rewrite Hm0, Hc. rewrite decide_True by lia. reflexivity. }
  simpl. rewrite Hm0, Hi. simpl.
  split; [reflexivity|]. split.
  { repeat split; simpl; [done | done | apply lookup_insert_eq |].
    rewrite length_insert. exact Hlen. }
  split; [apply Hread; [reflexivity | apply lookup_insert_eq]|].
  split; [apply Hread; [reflexivity | apply lookup_insert_eq]|].
  split.
  { match goal with |- context [pick um ctx ?a i ?m1] =>
      destruct (pick_Done um ctx a i v
                  (<[Z.to_nat (offset + i) := Some v]> cells) m1)
        as (m'' & Hp & _) end.
    - simpl. apply lookup_insert_eq.
    - simpl. lia.
    - simpl. rewrite Hi. simpl. apply list_lookup_insert_eq. lia.
    - now exists m''. }
  intros j Hj Hne. apply list_lookup_insert_ne. lia.
Qed.

Lemma X24_writes_through_a_slice_reach_the_parent_witness :
  ∃ m',
    set false HostCode (slice (Build (At 1 0) nullptr 4 0 false) 1 2) 1 99
      (Memory {[1 := [Some 1; Some 2; Some 3; Some 4]]} 0 []) = Done tt m' ∧
    blocks m' =
      <[block (m_active_pointer (Build (At 1 0) nullptr 4 0 false)) :=
          <[Z.to_nat (1 + 1) := Some 99]> [Some 1; Some 2; Some 3; Some 4]]>
        (blocks (Memory {[1 := [Some 1; Some 2; Some 3; Some 4]]} 0 [])) ∧
    owns (Build (At 1 0) nullptr 4 0 false)
      (<[Z.to_nat (1 + 1) := Some 99]> [Some 1; Some 2; Some 3; Some 4]) m' ∧
    (∃ m'', pick false HostCode (Build (At 1 0) nullptr 4 0 false) (1 + 1) m' =
              Done 99 m'') ∧
    (∃ m'', pick false HostCode
              (ManagedArray_copy (Build (At 1 0) nullptr 4 0 false)) (1 + 1) m' =
              Done 99 m'') ∧
    (∃ m'', pick false HostCode
              (slice (Build (At 1 0) nullptr 4 0 false) 1 2) 1 m' =
              Done 99 m'') ∧
    ∀ j, 0 ≤ j → j ≠ 1 + 1 →
      <[Z.to_nat (1 + 1) := Some 99]> [Some 1; Some 2; Some 3; Some 4]
        !! Z.to_nat j =
      [Some 1; Some 2; Some 3; Some 4] !! Z.to_nat j.
Proof.
  apply (X24_writes_through_a_slice_reach_the_parent false HostCode
           (Build (At 1 0) nullptr 4 0 false) [Some 1; Some 2; Some 3; Some 4]
           1 2 1 99 (Memory {[1 := [Some 1; Some 2; Some 3; Some 4]]} 0 []));
    try lia; try (simpl; lia); try (vm_compute; discriminate).
  repeat split. discriminate.
Defined.

End ThinArray.
